(** * Prompt API Playground: chat-state synchronisation layer

    A shallow embedding of [storageManager.js], [chatManager.js] and the
    session and streaming code of [script.js], with the properties of the
    persistence layer, the conversation repository, the session handling
    and the streaming accumulation.

    Conventions.
    - Strings are sequences of code units; the development uses the
      one-byte code units of [string].
    - [Date.now()] and [Math.random()] are inputs of the operations that
      read them, one argument per read.
    - A JavaScript [try]/[catch] is written with [try_catch] over
      completions ([Normal] or [Throw]).
    - [saveChatHistory] calls itself from its [catch] block; the recursion
      is bounded by a fuel argument and [None] stands for the exhaustion
      of the call stack.
    - A handler runs to its end before the next event is handled; an
      [await] is the point where the host gives its answer. A call of
      [updateSession] that is not awaited leaves its creation pending:
      the assignment of the handle is a step of its own ([settle]). *)

From Stdlib Require Import QArith_base Ascii String.
From stdpp Require Import base option list gmap strings sorting pretty.

Local Open Scope string_scope.

(** ** Host-language values *)

Module JS.

(** Numbers: finite doubles are rationals; [NaN] and the infinities are
    kept apart because truthiness distinguishes them. *)
Inductive number :=
| Fin (q : Q)
| NaN
| Infinity (negative : bool).

(** [ToBoolean] on a number: [0], [-0] and [NaN] are falsy. *)
Definition truthy (n : number) : bool :=
  match n with
  | Fin q => negb (Qnum q =? 0)%Z
  | NaN => false
  | Infinity _ => true
  end.

(** [a || d] where [a] is a property that may be [undefined]. *)
Definition or_else (a : option number) (d : number) : number :=
  match a with
  | Some n => if truthy n then n else d
  | None => d
  end.

(** [ToBoolean] on a string: only the empty string is falsy. *)
Definition truthy_string (s : string) : bool :=
  match s with
  | EmptyString => false
  | String _ _ => true
  end.

Record error := Error { name : string; message : string }.

Inductive completion (A : Type) :=
| Normal (a : A)
| Throw (e : error).
Arguments Normal {A} a.
Arguments Throw {A} e.

Definition bind {A B} (m : completion A) (k : A → completion B) : completion B :=
  match m with
  | Normal a => k a
  | Throw e => Throw e
  end.

(** [try { body } catch (error) { handler }] *)
Definition try_catch {A} (body : completion A) (handler : error → completion A)
  : completion A :=
  match body with
  | Normal a => Normal a
  | Throw e => handler e
  end.

(** Values produced by [JSON.parse]. *)
#[local] Unset Elimination Schemes.
Inductive json :=
| JNull
| JBool (b : bool)
| JNumber (q : Q)
| JString (s : string)
| JArray (items : list json)
| JObject (fields : list (string * json)).
#[local] Set Elimination Schemes.

End JS.

#[global] Instance completion_bind : MBind JS.completion :=
  λ A B k m, JS.bind m k.
#[global] Instance completion_ret : MRet JS.completion :=
  λ A a, JS.Normal a.

(** ** Text operations used by the title derivation *)

Module Text.

(** [\s] and the characters removed by [trim], within one-byte code
    units: TAB, LF, VT, FF, CR, SPACE and NBSP. *)
Definition is_white_space (c : ascii) : bool :=
  let n := nat_of_ascii c in
  (((9 <=? n) && (n <=? 13)) || (n =? 32) || (n =? 160))%nat.

(** The class [[.!?]]. *)
Definition is_terminator (c : ascii) : bool :=
  let n := nat_of_ascii c in
  ((n =? 46) || (n =? 33) || (n =? 63))%nat.

Fixpoint trimStart (s : string) : string :=
  match s with
  | EmptyString => EmptyString
  | String c s' => if is_white_space c then trimStart s' else s
  end.

Fixpoint trimEnd (s : string) : string :=
  match s with
  | EmptyString => EmptyString
  | String c s' =>
      match trimEnd s' with
      | EmptyString => if is_white_space c then EmptyString else String c EmptyString
      | t => String c t
      end
  end.

Definition trim (s : string) : string := trimEnd (trimStart s).

(** [s.search(/[.!?]\s/)]: index of the first terminator that is
    followed by white space; [None] is the result [-1]. *)
Fixpoint search_sentence_end (s : string) : option nat :=
  match s with
  | EmptyString => None
  | String c rest =>
      match rest with
      | EmptyString => None
      | String d _ =>
          if is_terminator c && is_white_space d then Some 0
          else S <$> search_sentence_end rest
      end
  end.

(** [s.startsWith(p)] *)
Fixpoint startsWith (s p : string) : bool :=
  match p, s with
  | EmptyString, _ => true
  | String _ _, EmptyString => false
  | String a p', String b s' => if Ascii.eqb a b then startsWith s' p' else false
  end.

(** The texts of a list put one after the other. *)
Definition join (l : list string) : string := foldr String.append "" l.

(** [s.slice(n)] for [0 <= n]. *)
Fixpoint slice (n : nat) (s : string) : string :=
  match n, s with
  | 0, _ => s
  | S _, EmptyString => EmptyString
  | S n', String _ s' => slice n' s'
  end.

(** [toLowerCase] on one code unit: the letters A-Z and, in the upper
    half, U+00C0 to U+00DE except the multiplication sign U+00D7. *)
Definition lower_unit (c : ascii) : ascii :=
  let n := nat_of_ascii c in
  if (((65 <=? n) && (n <=? 90))
      || ((192 <=? n) && (n <=? 222) && negb (n =? 215)))%nat
  then ascii_of_nat (n + 32)
  else c.

Fixpoint toLowerCase (s : string) : string :=
  match s with
  | EmptyString => EmptyString
  | String c s' => String (lower_unit c) (toLowerCase s')
  end.

(** [s.includes(q)] *)
Fixpoint includes (s q : string) : bool :=
  startsWith s q ||
  match s with
  | EmptyString => false
  | String _ s' => includes s' q
  end.

(** The line feed of the template literals. *)
Definition LF : string := String (ascii_of_nat 10) EmptyString.

End Text.

(** ** Data model *)

Inductive Role := user | assistant.

Record Message := {
  role : Role;
  content : string;
  msg_timestamp : Z;
}.

Record Settings := {
  temperature : JS.number;
  topK : JS.number;
}.

Record Chat := {
  id : string;
  title : string;
  timestamp : Z;
  messages : list Message;
  settings : Settings;
}.

(** ** The browser

    What the host decides and the scripts only call: serialisation,
    parsing ([None] when [JSON.parse] throws a [SyntaxError]) and the
    failures of the storage area ([Some e] when the access throws [e],
    [QuotaExceededError] among them). *)

Abbreviation localStorage := (gmap string string).

Record Browser := {
  JSON_stringify : list Chat → string;
  JSON_parse : string → option JS.json;
  setItem_error : localStorage → string → string → option JS.error;
  getItem_error : localStorage → string → option JS.error;
}.

(** ** storageManager.js *)

Module StorageManager.

Definition CHAT_HISTORY := "prompt-api-chat-history".
Definition UI_STATE := "prompt-api-ui-state".
Definition ACTIVE_CHAT := "prompt-api-active-chat".

Definition MAX_CHATS : nat := 50.

(** [chats.sort((a, b) => b.timestamp - a.timestamp)]: the sort of the
    engine is stable, which determines its result; insertion from the
    right places an element before the elements of equal timestamp that
    followed it. *)
Fixpoint insert_by_recency (c : Chat) (l : list Chat) : list Chat :=
  match l with
  | [] => [c]
  | d :: l' =>
      if (timestamp d <=? timestamp c)%Z then c :: l
      else d :: insert_by_recency c l'
  end.

Definition sort_by_recency (l : list Chat) : list Chat :=
  foldr insert_by_recency [] l.
Global Arguments sort_by_recency : simpl never.

(** The order the comparator asks for: [a] before [b] only if [a] is
    at least as recent. *)
Definition more_recent (a b : Chat) : Prop := (timestamp b ≤ timestamp a)%Z.

(** The payload of the retry is not turned down for quota. *)
Definition retry_fits (B : Browser) (chats : list Chat) (ls : localStorage) : Prop :=
  ∀ e,
    setItem_error B ls CHAT_HISTORY
      (JSON_stringify B (take (MAX_CHATS / 2) (sort_by_recency chats))) = Some e →
    JS.name e ≠ "QuotaExceededError".

Definition default_ui_state : JS.json :=
  JS.JObject [("leftSidebarCollapsed", JS.JBool false);
              ("rightSidebarCollapsed", JS.JBool true)].

Section Host.
Variable B : Browser.

Definition setItem (ls : localStorage) (key value : string)
  : JS.completion localStorage :=
  match setItem_error B ls key value with
  | Some e => JS.Throw e
  | None => JS.Normal (<[key := value]> ls)
  end.

Definition getItem (ls : localStorage) (key : string)
  : JS.completion (option string) :=
  match getItem_error B ls key with
  | Some e => JS.Throw e
  | None => JS.Normal (ls !! key)
  end.

Definition parse (data : string) : JS.completion JS.json :=
  match JSON_parse B data with
  | Some v => JS.Normal v
  | None => JS.Throw (JS.Error "SyntaxError" data)
  end.

(** [saveChatHistory(chats)]: returns the value returned, the caller's
    array as the in-place sort leaves it, and the storage area. The
    retry receives a copy ([slice]) of the sorted array. *)
Fixpoint saveChatHistory (fuel : nat) (chats : list Chat) (ls : localStorage)
  : option (bool * list Chat * localStorage) :=
  match fuel with
  | 0 => None
  | S fuel' =>
      let sorted := sort_by_recency chats in
      let limitedChats := take MAX_CHATS sorted in
      match setItem ls CHAT_HISTORY (JSON_stringify B limitedChats) with
      | JS.Normal ls' => Some (true, sorted, ls')
      | JS.Throw error =>
          if String.eqb (JS.name error) "QuotaExceededError" then
            match saveChatHistory fuel' (take (MAX_CHATS / 2) sorted) ls with
            | Some (_, _, ls') => Some (false, sorted, ls')
            | None => None
            end
          else Some (false, sorted, ls)
      end
  end.

Definition loadChatHistory (ls : localStorage) : JS.completion JS.json :=
  JS.try_catch
    (data ← getItem ls CHAT_HISTORY;
     match data with
     | Some d => if JS.truthy_string d then parse d else JS.Normal (JS.JArray [])
     | None => JS.Normal (JS.JArray [])
     end)
    (λ error, JS.Normal (JS.JArray [])).

Definition loadUIState (ls : localStorage) : JS.completion JS.json :=
  JS.try_catch
    (data ← getItem ls UI_STATE;
     match data with
     | Some d => if JS.truthy_string d then parse d else JS.Normal default_ui_state
     | None => JS.Normal default_ui_state
     end)
    (λ error, JS.Normal default_ui_state).

Definition saveActiveChat (chatId : string) (ls : localStorage) : localStorage :=
  match JS.try_catch (setItem ls ACTIVE_CHAT chatId) (λ error, JS.Normal ls) with
  | JS.Normal ls' => ls'
  | JS.Throw _ => ls
  end.

(** [loadActiveChat()]: the stored id, or [null]. *)
Definition loadActiveChat (ls : localStorage) : option string :=
  match JS.try_catch (getItem ls ACTIVE_CHAT) (λ error, JS.Normal None) with
  | JS.Normal v => v
  | JS.Throw _ => None
  end.

End Host.

Section Removal.
(** [localStorage.removeItem(key)] throws [e] when the oracle says so. *)
Variable removeItem_error : localStorage → string → option JS.error.

(** [keys.forEach(key => localStorage.removeItem(key))]: the error that
    ended the loop, if any, and the storage area as the removals before
    it left it. *)
Fixpoint remove_each (keys : list string) (ls : localStorage)
  : option JS.error * localStorage :=
  match keys with
  | [] => (None, ls)
  | key :: rest =>
      match removeItem_error ls key with
      | Some e => (Some e, ls)
      | None => remove_each rest (delete key ls)
      end
  end.

(** [clearAll()], over [Object.values(STORAGE_KEYS)]. *)
Definition clearAll (ls : localStorage) : bool * localStorage :=
  match remove_each [CHAT_HISTORY; UI_STATE; ACTIVE_CHAT] ls with
  | (None, ls') => (true, ls')
  | (Some error, ls') => (false, ls')
  end.

End Removal.

End StorageManager.

(** ** chatManager.js *)

Module ChatManager.
Import StorageManager.

(** The fields of a [ChatManager] instance. [activeChat] is an id or
    [null]. *)
Record t := {
  chats : list Chat;
  activeChat : option string;
}.

(** The argument of [createNewChat]: either property may be absent. *)
Record NewChatSettings := {
  arg_temperature : option JS.number;
  arg_topK : option JS.number;
}.

Definition is_user (r : Role) : bool :=
  match r with user => true | assistant => false end.

(** [!this.activeChat] *)
Definition falsy_id (a : option string) : bool :=
  match a with
  | Some s => negb (JS.truthy_string s)
  | None => true
  end.

Definition generateTitle (content : string) : string :=
  let title := Text.trim content in
  let title :=
    match Text.search_sentence_end title with
    | Some sentenceEnd => substring 0 (sentenceEnd + 1) title
    | None => title
    end in
  let title :=
    if (50 <? String.length title)%nat then substring 0 47 title +:+ "..."
    else title in
  if JS.truthy_string title then title else "New Chat".

(** What [addMessage] does to the chat it found: the message is
    pushed, the title is derived when the chat is untitled and the
    message is a user message and the only one, the timestamp is
    renewed. *)
Definition push_message (r : Role) (text : string) (now_message now_chat : Z)
    (chat : Chat) : Chat :=
  let messages' :=
    (messages chat ++
       [{| role := r; content := text; msg_timestamp := now_message |}])%list in
  let title' :=
    if String.eqb (title chat) "New Chat" && is_user r
       && (length messages' =? 1)%nat
    then generateTitle text else title chat in
  {| id := id chat; title := title'; timestamp := now_chat;
     messages := messages'; settings := settings chat |}.

(** The object literal of [createNewChat]; [random] is
    [Math.random().toString(36).substr(2, 9)]. *)
Definition new_chat (arg : NewChatSettings)
    (now_id : Z) (random : string) (now_timestamp : Z) : Chat :=
  {| id := "chat-" +:+ pretty now_id +:+ "-" +:+ random;
     title := "New Chat";
     timestamp := now_timestamp;
     messages := [];
     settings :=
       {| temperature := JS.or_else (arg_temperature arg) (JS.Fin 1);
          topK := JS.or_else (arg_topK arg) (JS.Fin 3) |} |}.

(** [this.chats.find(chat => chat.id === chatId)] together with
    [findIndex]. *)
Definition findChat (chatId : string) (l : list Chat) : option (nat * Chat) :=
  list_find (λ c, id c = chatId) l.

Definition getChat (chatId : string) (cm : t) : option Chat :=
  snd <$> findChat chatId (chats cm).

(** [getActiveChat()] assigns [activeChat] when it is unset. The chat
    returned is an element of [this.chats]: its position stands for the
    reference. *)
Definition getActiveChat (cm : t) : option (nat * Chat) * t :=
  let cm' :=
    if falsy_id (activeChat cm) then
      match chats cm with
      | c :: _ => {| chats := chats cm; activeChat := Some (id c) |}
      | [] => cm
      end
    else cm in
  (if falsy_id (activeChat cm') then None
   else a ← activeChat cm'; findChat a (chats cm'),
   cm').

Section Host.
Variable B : Browser.

(** [save()]: the array handed to [saveChatHistory] is [this.chats]
    itself, so the sort shows in the instance. *)
Definition save (fuel : nat) (cm : t) (ls : localStorage)
  : option (t * localStorage) :=
  '(_, chats', ls1) ← saveChatHistory B fuel (chats cm) ls;
  Some ({| chats := chats'; activeChat := activeChat cm |},
        match activeChat cm with
        | Some a => if JS.truthy_string a then saveActiveChat B a ls1 else ls1
        | None => ls1
        end).

Definition createNewChat (arg : NewChatSettings)
    (now_id : Z) (random : string) (now_timestamp : Z)
    (fuel : nat) (cm : t) (ls : localStorage)
  : option (Chat * t * localStorage) :=
  let chat := new_chat arg now_id random now_timestamp in
  '(cm', ls') ← save fuel {| chats := chat :: chats cm;
                             activeChat := Some (id chat) |} ls;
  Some (chat, cm', ls').

(** [updateChatTitle(chatId, title)], through [updateChat]. *)
Definition updateChatTitle (chatId title' : string) (now : Z)
    (fuel : nat) (cm : t) (ls : localStorage)
  : option (option Chat * t * localStorage) :=
  match findChat chatId (chats cm) with
  | Some (i, chat) =>
      let chat' :=
        {| id := id chat; title := title'; timestamp := now;
           messages := messages chat; settings := settings chat |} in
      '(cm', ls') ← save fuel {| chats := <[i := chat']> (chats cm);
                                 activeChat := activeChat cm |} ls;
      Some (Some chat', cm', ls')
  | None => Some (None, cm, ls)
  end.

Definition addMessage (chatId : string) (r : Role) (text : string)
    (now_message now_chat : Z)
    (fuel : nat) (cm : t) (ls : localStorage)
  : option (option Chat * t * localStorage) :=
  match findChat chatId (chats cm) with
  | Some (i, chat) =>
      let chat' := push_message r text now_message now_chat chat in
      '(cm', ls') ← save fuel {| chats := <[i := chat']> (chats cm);
                                 activeChat := activeChat cm |} ls;
      Some (Some chat', cm', ls')
  | None => Some (None, cm, ls)
  end.

Definition deleteChat (chatId : string)
    (fuel : nat) (cm : t) (ls : localStorage)
  : option (bool * t * localStorage) :=
  match findChat chatId (chats cm) with
  | Some (index, _) =>
      let chats' := delete index (chats cm) in
      let activeChat' :=
        if decide (activeChat cm = Some chatId) then id <$> head chats'
        else activeChat cm in
      '(cm', ls') ← save fuel {| chats := chats'; activeChat := activeChat' |} ls;
      Some (true, cm', ls')
  | None => Some (false, cm, ls)
  end.

(** [setActiveChat(chatId)] with [chatId] an id or [null]. *)
Definition setActiveChat (chatId : option string) (cm : t) (ls : localStorage)
  : bool * t * localStorage :=
  match chatId with
  | Some c =>
      match getChat c cm with
      | Some _ => (true, {| chats := chats cm; activeChat := Some c |},
                   saveActiveChat B c ls)
      | None => (false, cm, ls)
      end
  | None => (true, {| chats := chats cm; activeChat := None |},
             saveActiveChat B "null" ls)
  end.

End Host.

Definition getAllChats (cm : t) : list Chat := chats cm.

(** [searchChats(query)] *)
Definition searchChats (query : string) (cm : t) : list Chat :=
  let lowerQuery := Text.toLowerCase query in
  List.filter
    (λ chat,
       if Text.includes (Text.toLowerCase (title chat)) lowerQuery then true
       else existsb
              (λ msg, Text.includes (Text.toLowerCase (content msg)) lowerQuery)
              (messages chat))
    (chats cm).

Definition oneDay : Z := 24 * 60 * 60 * 1000.
Definition sevenDays : Z := 7 * oneDay.
Definition thirtyDays : Z := 30 * oneDay.

(** The object [groups] of [getChatsByDate]. *)
Record DateGroups := {
  today : list Chat;
  yesterday : list Chat;
  last7days : list Chat;
  last30days : list Chat;
  older : list Chat;
}.

(** The body of the [forEach] of [getChatsByDate]: one [push]. *)
Definition file_by_age (now : Z) (groups : DateGroups) (chat : Chat) : DateGroups :=
  let age := (now - timestamp chat)%Z in
  if (age <? oneDay)%Z then
    {| today := today groups ++ [chat]; yesterday := yesterday groups;
       last7days := last7days groups; last30days := last30days groups;
       older := older groups |}
  else if (age <? 2 * oneDay)%Z then
    {| today := today groups; yesterday := yesterday groups ++ [chat];
       last7days := last7days groups; last30days := last30days groups;
       older := older groups |}
  else if (age <? sevenDays)%Z then
    {| today := today groups; yesterday := yesterday groups;
       last7days := last7days groups ++ [chat]; last30days := last30days groups;
       older := older groups |}
  else if (age <? thirtyDays)%Z then
    {| today := today groups; yesterday := yesterday groups;
       last7days := last7days groups; last30days := last30days groups ++ [chat];
       older := older groups |}
  else
    {| today := today groups; yesterday := yesterday groups;
       last7days := last7days groups; last30days := last30days groups;
       older := older groups ++ [chat] |}.

(** [getChatsByDate()]; [now] is the reading of [Date.now()]. *)
Definition getChatsByDate (now : Z) (cm : t) : DateGroups :=
  fold_left (file_by_age now) (chats cm)
    {| today := []; yesterday := []; last7days := []; last30days := []; older := [] |}.

Section Locale.
(** [new Date(timestamp).toLocaleString()] *)
Variable toLocaleString : Z → string.

Definition markdown_header (chat : Chat) : string :=
  ("# " +:+ title chat +:+ Text.LF +:+ Text.LF)
  +:+ ("*Created: " +:+ toLocaleString (timestamp chat) +:+ "*" +:+ Text.LF +:+ Text.LF)
  +:+ ("---" +:+ Text.LF +:+ Text.LF).

Definition markdown_block (msg : Message) : string :=
  (if is_user (role msg) then "**You**" else "**Assistant**")
  +:+ ":" +:+ Text.LF +:+ Text.LF +:+ content msg
  +:+ Text.LF +:+ Text.LF +:+ "---" +:+ Text.LF +:+ Text.LF.

(** [exportChatAsMarkdown(chatId)]: the document, or [null]. *)
Definition exportChatAsMarkdown (chatId : string) (cm : t) : option string :=
  match getChat chatId cm with
  | None => None
  | Some chat =>
      Some (fold_left (λ markdown msg, markdown +:+ markdown_block msg)
              (messages chat) (markdown_header chat))
  end.

End Locale.

End ChatManager.

(** ** script.js: session handling and streaming *)

Module Script.
Import StorageManager ChatManager.

Definition SYSTEM_PROMPT := "You are a helpful and friendly assistant.".

(** The options object given to [LanguageModel.create]. *)
Record CreateOptions := {
  opt_temperature : JS.number;
  opt_topK : JS.number;
  initialPrompts : list (string * string);
}.

Inductive HostEvent :=
| Created (handle : nat) (options : CreateOptions)
| Destroyed (handle : nat).

(** The [LanguageModel] capability: whether [self.LanguageModel] is
    truthy, the sessions it has created (from the call of [create] on)
    that are not destroyed, and the calls it received, oldest first. *)
Record LanguageModel := {
  available : bool;
  next_handle : nat;
  live : gset nat;
  events : list HostEvent;
}.

(** The variables of the script that the properties are about.
    [sessionTemperature] and [sessionTopK] hold
    [Number(control.value)] of the two controls. [pending] holds the
    handles of the creations asked for by a call of [updateSession] that
    was not awaited and whose promise is not settled yet, oldest first:
    the assignment [session = ...] of such a call is still to run. *)
Record State := {
  chatManager : ChatManager.t;
  storage : localStorage;
  session : option nat;
  sessionTemperature : JS.number;
  sessionTopK : JS.number;
  model : LanguageModel;
  pending : list nat;
}.

(** What the page decides: the number read back from a control after a
    value is assigned to it, and whether the update of the response
    bubble ([p.innerHTML = ...], inside the [try] block; [p] is not
    bound by the script itself) throws. *)
Record Page := {
  temperature_control : JS.number → JS.number;
  topK_control : JS.number → JS.number;
  render_error : string → option JS.error;
}.

(** The sequence returned by [promptStreaming]: the snapshots it yields
    and, after them, either the end of the sequence or a failure. *)
Record Stream := {
  snapshots : list string;
  failure : option JS.error;
}.

(** The readings of [Date.now()] and [Math.random()] in one call of the
    repository. *)
Record NewChatInputs := {
  now_id : Z;
  random : string;
  now_timestamp : Z;
}.

Record MessageInputs := {
  now_message : Z;
  now_chat : Z;
}.

Definition is_created (e : HostEvent) : bool :=
  match e with Created _ _ => true | Destroyed _ => false end.


Definition count_destroyed (l : list HostEvent) : nat :=
  length (List.filter (negb ∘ is_created) l).

(** [LanguageModel.create(options)]; [outcome] is the rejection, if
    any. *)
Definition create (outcome : option JS.error) (o : CreateOptions) (m : LanguageModel)
  : JS.completion (nat * LanguageModel) :=
  match outcome with
  | Some e => JS.Throw e
  | None =>
      let h := next_handle m in
      JS.Normal (h, {| available := available m;
                       next_handle := S h;
                       live := {[h]} ∪ live m;
                       events := events m ++ [Created h o] |})
  end.

(** [session?.destroy()] *)
Definition destroy (s : option nat) (m : LanguageModel) : LanguageModel :=
  match s with
  | Some h => {| available := available m;
                 next_handle := next_handle m;
                 live := live m ∖ {[h]};
                 events := events m ++ [Destroyed h] |}
  | None => m
  end.

(** The calls that [session?.destroy()] makes. *)
Definition destroy_events (s : option nat) : list HostEvent :=
  match s with
  | Some h => [Destroyed h]
  | None => []
  end.

(** The handles that [session?.destroy()] destroys. *)
Definition held (s : option nat) : gset nat :=
  match s with
  | Some h => {[h]}
  | None => ∅
  end.

(** The delta of the streaming loop:
    [chunk.startsWith(previousChunk) ? chunk.slice(previousChunk.length) : chunk] *)
Definition newChunk (previousChunk chunk : string) : string :=
  if Text.startsWith chunk previousChunk
  then Text.slice (String.length previousChunk) chunk
  else chunk.

(** The successive values of [newChunk] over a sequence of snapshots. *)
Fixpoint deltas (previousChunk : string) (chunks : list string) : list string :=
  match chunks with
  | [] => []
  | chunk :: rest => newChunk previousChunk chunk :: deltas chunk rest
  end.

Definition with_manager (cm : ChatManager.t) (ls : localStorage) (st : State) : State :=
  {| chatManager := cm; storage := ls; session := session st;
     sessionTemperature := sessionTemperature st;
     sessionTopK := sessionTopK st; model := model st; pending := pending st |}.

Definition with_session (s : option nat) (m : LanguageModel) (st : State) : State :=
  {| chatManager := chatManager st; storage := storage st; session := s;
     sessionTemperature := sessionTemperature st;
     sessionTopK := sessionTopK st; model := m; pending := pending st |}.

Definition with_controls (t k : JS.number) (st : State) : State :=
  {| chatManager := chatManager st; storage := storage st; session := session st;
     sessionTemperature := t; sessionTopK := k; model := model st;
     pending := pending st |}.

Definition with_pending (p : list nat) (st : State) : State :=
  {| chatManager := chatManager st; storage := storage st; session := session st;
     sessionTemperature := sessionTemperature st;
     sessionTopK := sessionTopK st; model := model st; pending := p |}.

(** [activeChat.settings.topK = v] and [activeChat.settings.temperature = v]
    on the element of [this.chats] that [getActiveChat] returned. *)
Definition set_topK (v : JS.number) (c : Chat) : Chat :=
  {| id := id c; title := title c; timestamp := timestamp c; messages := messages c;
     settings := {| temperature := temperature (settings c); topK := v |} |}.

Definition set_temperature (v : JS.number) (c : Chat) : Chat :=
  {| id := id c; title := title c; timestamp := timestamp c; messages := messages c;
     settings := {| temperature := v; topK := topK (settings c) |} |}.

Section Host.
Variable B : Browser.
Variable P : Page.

(** [updateSession()]: the completion of the call and the state it
    leaves. *)
Definition updateSession (outcome : option JS.error) (st : State)
  : JS.completion unit * State :=
  if available (model st) then
    let '(activeChat, cm) := getActiveChat (chatManager st) in
    let st1 := with_manager cm (storage st) st in
    let chat_settings := (settings ∘ snd) <$> activeChat in
    let options :=
      {| opt_temperature :=
           if JS.truthy (sessionTemperature st) then sessionTemperature st
           else JS.or_else (temperature <$> chat_settings) (JS.Fin 1);
         opt_topK :=
           if JS.truthy (sessionTopK st) then sessionTopK st
           else JS.or_else (topK <$> chat_settings) (JS.Fin 3);
         initialPrompts := [("system", SYSTEM_PROMPT)] |} in
    match create outcome options (model st1) with
    | JS.Normal (h, m) => (JS.Normal (), with_session (Some h) m st1)
    | JS.Throw e => (JS.Throw e, st1)
    end
  else (JS.Normal (), st).

(** [updateSession()] called without [await], as [loadChat] and
    [createNewChat] call it: the call runs up to the [await] of
    [LanguageModel.create], so the active chat is read and the creation
    is asked for within the call, and the caller goes on; [session] is
    assigned only when the promise is fulfilled ([settle]). A rejection
    is observed by nobody. *)
Definition requestSession (outcome : option JS.error) (st : State) : State :=
  if available (model st) then
    let '(activeChat, cm) := getActiveChat (chatManager st) in
    let st1 := with_manager cm (storage st) st in
    let chat_settings := (settings ∘ snd) <$> activeChat in
    let options :=
      {| opt_temperature :=
           if JS.truthy (sessionTemperature st) then sessionTemperature st
           else JS.or_else (temperature <$> chat_settings) (JS.Fin 1);
         opt_topK :=
           if JS.truthy (sessionTopK st) then sessionTopK st
           else JS.or_else (topK <$> chat_settings) (JS.Fin 3);
         initialPrompts := [("system", SYSTEM_PROMPT)] |} in
    match create outcome options (model st1) with
    | JS.Normal (h, m) =>
        with_pending (pending st1 ++ [h])%list (with_session (session st1) m st1)
    | JS.Throw e => st1
    end
  else st.


(** The [input] handlers of the two controls; [v] is the number the
    control holds when the event fires. *)
Definition change_setting (update : JS.number → Chat → Chat) (v : JS.number)
    (outcome : option JS.error) (fuel : nat) (st : State)
  : option (JS.completion unit * State) :=
  let '(activeChat, cm) := getActiveChat (chatManager st) in
  '(cm', ls') ←
    match activeChat with
    | Some (i, chat) =>
        save B fuel {| chats := <[i := update v chat]> (chats cm);
                       activeChat := ChatManager.activeChat cm |} (storage st)
    | None => Some (cm, storage st)
    end;
  Some (updateSession outcome (with_manager cm' ls' st)).

Definition onTopKInput (v : JS.number) (outcome : option JS.error)
    (fuel : nat) (st : State) : option (JS.completion unit * State) :=
  change_setting set_topK v outcome fuel
    (with_controls (sessionTemperature st) v st).

Definition onTemperatureInput (v : JS.number) (outcome : option JS.error)
    (fuel : nat) (st : State) : option (JS.completion unit * State) :=
  change_setting set_temperature v outcome fuel
    (with_controls v (sessionTopK st) st).

(** [loadChat(chatId)]; its [updateSession()] is not awaited: the
    function returns with [session] empty and the creation pending. *)
Definition loadChat (chatId : string) (outcome : option JS.error) (st : State)
  : State :=
  match getChat chatId (chatManager st) with
  | None => st
  | Some chat =>
      let '(_, cm, ls) := setActiveChat B (Some chatId) (chatManager st) (storage st) in
      let st1 := with_manager cm ls st in
      let st2 := with_session None (destroy (session st1) (model st1)) st1 in
      let st3 :=
        with_controls (temperature_control P (temperature (settings chat)))
                      (topK_control P (topK (settings chat))) st2 in
      requestSession outcome st3
  end.

(** The script's [createNewChat()]; its [updateSession()] is not awaited
    either. *)
Definition createNewChat (i : NewChatInputs) (outcome : option JS.error)
    (fuel : nat) (st : State) : option State :=
  let '(_, cm) := getActiveChat (chatManager st) in
  '(_, cm', ls') ←
    ChatManager.createNewChat B
      {| arg_temperature := Some (sessionTemperature st);
         arg_topK := Some (sessionTopK st) |}
      (now_id i) (random i) (now_timestamp i) fuel cm (storage st);
  let st1 := with_manager cm' ls' st in
  let st2 := with_session None (destroy (session st1) (model st1)) st1 in
  Some (requestSession outcome st2).

(** The [for await] loop of [promptModel]: [Normal result] when the
    sequence is exhausted, [Throw] when the sequence or the update of
    the bubble fails. *)
Fixpoint consume (chunks : list string) (end_ : option JS.error)
    (result previousChunk : string) : JS.completion string :=
  match chunks with
  | [] =>
      match end_ with
      | Some e => JS.Throw e
      | None => JS.Normal result
      end
  | chunk :: rest =>
      let result := result +:+ newChunk previousChunk chunk in
      match render_error P result with
      | Some e => JS.Throw e
      | None => consume rest end_ result chunk
      end
  end.

(** [promptModel()], first part: from the reading of the input to the
    creation of the session at the head of the [try] block. Returns
    the id of the chat the prompt belongs to ([activeChat.id]), the
    completion of [updateSession] and the state. *)
Definition submitPrompt (prompt : string)
    (new_chat : NewChatInputs) (user_message : MessageInputs)
    (outcome : option JS.error) (fuel : nat) (st : State)
  : option (string * JS.completion unit * State) :=
  let '(activeChat, cm) := getActiveChat (chatManager st) in
  let ensured : option (string * ChatManager.t * localStorage) :=
    match activeChat with
    | Some (_, chat) => Some (id chat, cm, storage st)
    | None =>
        '(chat, cm', ls') ←
          ChatManager.createNewChat B
            {| arg_temperature := Some (sessionTemperature st);
               arg_topK := Some (sessionTopK st) |}
            (now_id new_chat) (random new_chat) (now_timestamp new_chat)
            fuel cm (storage st);
        Some (id chat, cm', ls')
    end in
  '(chatId, cm1, ls1) ← ensured;
  '(_, cm2, ls2) ←
    addMessage B chatId user prompt
      (now_message user_message) (now_chat user_message) fuel cm1 ls1;
  let st2 := with_manager cm2 ls2 st in
  let '(created, st3) :=
    match session st2 with
    | None => updateSession outcome st2
    | Some _ => (JS.Normal (), st2)
    end in
  Some (chatId, created, st3).

(** [promptModel()], second part: the stream, the loop and the
    recording of the answer. The [catch] and [finally] blocks only
    write to the page. *)
Definition streamResponse (chatId : string) (created : JS.completion unit)
    (assistant_message : MessageInputs) (stream : Stream)
    (fuel : nat) (st : State) : option State :=
  match created, session st with
  | JS.Normal _, Some _ =>
      match consume (snapshots stream) (failure stream) "" "" with
      | JS.Normal result =>
          '(_, cm, ls) ←
            addMessage B chatId assistant result
              (now_message assistant_message) (now_chat assistant_message)
              fuel (chatManager st) (storage st);
          Some (with_manager cm ls st)
      | JS.Throw _ => Some st
      end
  | _, _ => Some st
  end.

(** [promptModel()]; [input] is [promptInput.value]. *)
Definition promptModel (input : string)
    (new_chat : NewChatInputs) (user_message assistant_message : MessageInputs)
    (outcome : option JS.error) (stream : Stream)
    (fuel : nat) (st : State) : option State :=
  let prompt := Text.trim input in
  if negb (JS.truthy_string prompt) then Some st else
  '(chatId, created, st') ←
    submitPrompt prompt new_chat user_message outcome fuel st;
  streamResponse chatId created assistant_message stream fuel st'.

(** The script's [deleteChat(chatId)]; [confirmed] is the answer to the
    dialog. *)
Definition deleteChat (confirmed : bool) (chatId : string)
    (i : NewChatInputs) (outcome : option JS.error)
    (fuel : nat) (st : State) : option State :=
  if negb confirmed then Some st else
  let wasActive :=
    bool_decide (ChatManager.activeChat (chatManager st) = Some chatId) in
  '(_, cm, ls) ←
    ChatManager.deleteChat B chatId fuel (chatManager st) (storage st);
  let st1 := with_manager cm ls st in
  if wasActive then createNewChat i outcome fuel st1 else Some st1.

End Host.

End Script.

(** ** uiManager.js: what the sidebar lists *)

Module UIManager.
Import ChatManager.

(** [groups["label"].push(chat)] on the object of [groupChatsByDate],
    whose properties are kept in insertion order. *)
Definition push_to (label : string) (chat : Chat)
    (groups : list (string * list Chat)) : list (string * list Chat) :=
  (λ entry : string * list Chat,
     if String.eqb (fst entry) label
     then (fst entry, (snd entry ++ [chat])%list)
     else entry) <$> groups.

Definition group_by_age (now : Z) (groups : list (string * list Chat)) (chat : Chat)
  : list (string * list Chat) :=
  let oneDay := (24 * 60 * 60 * 1000)%Z in
  let age := (now - timestamp chat)%Z in
  if (age <? oneDay)%Z then push_to "Chats" chat groups
  else if (age <? 2 * oneDay)%Z then push_to "Yesterday" chat groups
  else if (age <? 7 * oneDay)%Z then push_to "Previous 7 days" chat groups
  else if (age <? 30 * oneDay)%Z then push_to "Previous 30 days" chat groups
  else push_to "Older" chat groups.

(** [groupChatsByDate(chats)], as [Object.entries] reads it. *)
Definition groupChatsByDate (now : Z) (chats : list Chat) : list (string * list Chat) :=
  fold_left (group_by_age now) chats
    [("Chats", []); ("Yesterday", []); ("Previous 7 days", []);
     ("Previous 30 days", []); ("Older", [])].

(** The chats [renderChatHistory(filter)] works on; [filter] is a text
    or [null]. *)
Definition listed_chats (filter : option string) (cm : ChatManager.t) : list Chat :=
  match filter with
  | Some f => if JS.truthy_string f then searchChats f cm else getAllChats cm
  | None => getAllChats cm
  end.

(** The groups [renderChatHistory(filter)] writes, in order, each with
    the chats of its items: nothing when there is no chat to list, else
    the groups that are not empty. *)
Definition history_groups (filter : option string) (now : Z) (cm : ChatManager.t)
  : list (string * list Chat) :=
  let chats := listed_chats filter cm in
  if (length chats =? 0)%nat then []
  else List.filter (λ entry, (0 <? length (snd entry))%nat)
         (groupChatsByDate now chats).

(** [onSearchChats(query)]: the filter handed to [renderChatHistory]. *)
Definition onSearchChats (query : string) : option string :=
  let q := Text.trim query in
  if JS.truthy_string q then Some q else None.

(** [formatTimestamp(timestamp)]; the two calendar formats are the
    host's. *)
Definition formatTimestamp (weekday_time month_day : Z → string)
    (timestamp now : Z) : string :=
  let diff := (now - timestamp)%Z in
  let oneHour := (60 * 60 * 1000)%Z in
  let oneDay := (24 * oneHour)%Z in
  if (diff <? oneHour)%Z then
    let minutes := (diff `div` (60 * 1000))%Z in
    if (minutes <=? 1)%Z then "Just now" else pretty minutes +:+ " minutes ago"
  else if (diff <? oneDay)%Z then
    let hours := (diff `div` oneHour)%Z in
    pretty hours +:+ " hour" +:+ (if (1 <? hours)%Z then "s" else "") +:+ " ago"
  else if (diff <? 7 * oneDay)%Z then weekday_time timestamp
  else month_day timestamp.

(** [onChatTitleChange()]; [textContent] is the text of the title
    element. *)
Definition onChatTitleChange (B : Browser) (textContent : string) (now : Z)
    (fuel : nat) (cm : ChatManager.t) (ls : localStorage)
  : option (ChatManager.t * localStorage) :=
  let '(activeChat, cm1) := getActiveChat cm in
  match activeChat with
  | Some (_, chat) =>
      let newTitle := Text.trim textContent in
      if JS.truthy_string newTitle && negb (String.eqb newTitle (title chat)) then
        '(_, cm2, ls2) ← updateChatTitle B (id chat) newTitle now fuel cm1 ls;
        Some (cm2, ls2)
      else Some (cm1, ls)
  | None => Some (cm1, ls)
  end.

End UIManager.

(** ** Ages, for the statements about the date groups *)

Module Age.

(** The age of a chat at the reading [now] of the clock. *)
Definition age (now : Z) (c : Chat) : Z := (now - timestamp c)%Z.

Definition below (now hi : Z) (c : Chat) : bool := (age now c <? hi)%Z.

Definition at_least (now lo : Z) (c : Chat) : bool := (lo <=? age now c)%Z.

Definition between (now lo hi : Z) (c : Chat) : bool :=
  at_least now lo c && below now hi c.

Definition day : Z := 86400000.

End Age.

(** ** The wording of the specification, for comparison *)

Module Specified.

(** The title derivation as the specification words it: cut after the
    first sentence terminator followed by white space, else the raw
    text; cut to 50 characters with the ellipsis marker; the sentinel
    when nothing is left. *)
Definition title (text : string) : string :=
  let t :=
    match Text.search_sentence_end text with
    | Some i => substring 0 (i + 1) text
    | None => text
    end in
  let t := if (50 <? String.length t)%nat then substring 0 47 t +:+ "..." else t in
  match t with
  | EmptyString => "New Chat"
  | _ => t
  end.

(** A number that is zero ([0] or [-0]), and a provided value that is
    not. *)
Definition zero (v : JS.number) : Prop :=
  match v with
  | JS.Fin q => Qnum q = 0%Z
  | _ => False
  end.

Definition nonzero (v : JS.number) : Prop := ¬ zero v.

(** The stored value under [key] is readable as [v]: the storage area
    answers, holds a non-empty text there, and the text parses to [v]. *)
Definition readable (B : Browser) (ls : localStorage) (key : string) (v : JS.json)
  : Prop :=
  getItem_error B ls key = None ∧
  ∃ d, ls !! key = Some d ∧ d ≠ "" ∧ JSON_parse B d = Some v.

(** The stored chat history is absent or the serialisation of at most
    [MAX_CHATS] chats. *)
Definition within_capacity (B : Browser) (ls : localStorage) : Prop :=
  ls !! StorageManager.CHAT_HISTORY = None ∨
  ∃ kept,
    ls !! StorageManager.CHAT_HISTORY = Some (JSON_stringify B kept) ∧
    (length kept ≤ StorageManager.MAX_CHATS)%nat.

(** The stored value under [key] is absent or unreadable. *)
Definition unreadable (B : Browser) (ls : localStorage) (key : string) : Prop :=
  is_Some (getItem_error B ls key) ∨
  ls !! key = None ∨
  ls !! key = Some "" ∨
  ∃ d, ls !! key = Some d ∧ JSON_parse B d = None.

End Specified.

(** ** Concrete hosts and states, for evaluation *)

Module Sample.
Import StorageManager ChatManager Script.

(** A browser whose storage area rejects, with [QuotaExceededError],
    a chat history of more than [capacity] code units; the serialiser
    writes the ids, the parser knows two documents. *)
Definition browser (capacity : nat) : Browser :=
  {| JSON_stringify := λ l, String.concat "," (id <$> l);
     JSON_parse := λ s,
       if String.eqb s "[]" then Some (JS.JArray [])
       else if String.eqb s "null" then Some JS.JNull
       else None;
     setItem_error := λ _ key value,
       if String.eqb key CHAT_HISTORY && (capacity <? String.length value)%nat
       then Some (JS.Error "QuotaExceededError" "exceeded the quota")
       else None;
     getItem_error := λ _ _, None |}.

Definition page : Page :=
  {| temperature_control := λ v, v;
     topK_control := λ v, v;
     render_error := λ _, None |}.

Definition chat (n : nat) : Chat :=
  {| id := pretty n; title := "New Chat"; timestamp := Z.of_nat n; messages := [];
     settings := {| temperature := JS.Fin 1; topK := JS.Fin 3 |} |}.

(** Two chats, the older one first. *)
Definition two_chats : ChatManager.t :=
  {| chats := [chat 1; chat 2]; activeChat := Some "1" |}.

(** Sixty chats, oldest first. *)
Definition sixty_chats : list Chat := chat <$> seq 0 60.

Definition idle_model : LanguageModel :=
  {| available := true; next_handle := 0; live := ∅; events := [] |}.

Definition options (t k : Q) : CreateOptions :=
  {| opt_temperature := JS.Fin t; opt_topK := JS.Fin k;
     initialPrompts := [("system", SYSTEM_PROMPT)] |}.

(** One chat, active, with a live session created from its settings. *)
Definition live_state : State :=
  {| chatManager := {| chats := [chat 1]; activeChat := Some "1" |};
     storage := ∅;
     session := Some 0;
     sessionTemperature := JS.Fin 1;
     sessionTopK := JS.Fin 3;
     model := {| available := true; next_handle := 1; live := {[0]};
                 events := [Created 0 (options 1 3)] |};
     pending := [] |}.

Definition new_chat_inputs : NewChatInputs :=
  {| now_id := 100; random := "k3j9x0q2a"; now_timestamp := 100 |}.

Definition at_time (t : Z) : MessageInputs :=
  {| now_message := t; now_chat := t |}.

(** The browser above with a serialiser that brackets the ids. *)
Definition bracket_browser : Browser :=
  {| JSON_stringify := λ l, "[" +:+ String.concat "," (id <$> l) +:+ "]";
     JSON_parse := JSON_parse (browser 100);
     setItem_error := setItem_error (browser 100);
     getItem_error := getItem_error (browser 100) |}.

(** A storage area whose removals never fail, and one that refuses to
    remove the interface state. *)
Definition removal_ok : localStorage → string → option JS.error := λ _ _, None.

Definition removal_stuck : localStorage → string → option JS.error :=
  λ _ key,
    if String.eqb key UI_STATE
    then Some (JS.Error "SecurityError" "denied")
    else None.

Definition stored : localStorage :=
  <[CHAT_HISTORY := "2,1"]>
    (<[UI_STATE := "{left"]> (<[ACTIVE_CHAT := "2"]> (<["theme" := "dark"]> ∅))).

(** A chat with a question and its answer, touched at time 7. *)
Definition answered_chat : Chat :=
  {| id := "a"; title := "Greek Salad?"; timestamp := 7;
     messages := [{| role := user; content := "Greek salad?"; msg_timestamp := 6 |};
                  {| role := assistant; content := "Feta and OLIVES."; msg_timestamp := 7 |}];
     settings := {| temperature := JS.Fin 1; topK := JS.Fin 3 |} |}.

Definition three_chats : ChatManager.t :=
  {| chats := [answered_chat; chat 2; chat 1]; activeChat := Some "a" |}.

(** Three chats in recency order, for the date groups. *)
Definition aged (name : string) (t : Z) : Chat :=
  {| id := name; title := "New Chat"; timestamp := t; messages := [];
     settings := {| temperature := JS.Fin 1; topK := JS.Fin 3 |} |}.

Definition aged_chats : ChatManager.t :=
  {| ChatManager.chats := [aged "x" 199990000; aged "y" 20000000; aged "z" 10000000];
     ChatManager.activeChat := None |}.

(** No chat, no session, the controls at their defaults. *)
Definition fresh_state : State :=
  {| chatManager := {| chats := []; activeChat := None |};
     storage := ∅;
     session := None;
     sessionTemperature := JS.Fin 1;
     sessionTopK := JS.Fin 3;
     model := idle_model;
     pending := [] |}.


(** The page as the script leaves it: no [p] is bound, every update of
    the response bubble throws. *)
Definition unbound_page : Page :=
  {| temperature_control := λ v, v;
     topK_control := λ v, v;
     render_error := λ _, Some (JS.Error "ReferenceError" "p is not defined") |}.

(** The texts between the commas of a text. *)
Fixpoint split_commas (s : string) : list string :=
  match s with
  | EmptyString => [EmptyString]
  | String c s' =>
      if Ascii.eqb c ","%char then EmptyString :: split_commas s'
      else match split_commas s' with
           | w :: ws => String c w :: ws
           | [] => [String c EmptyString]
           end
  end.

(** A browser that writes a collection as the list of its ids and reads
    such a list back, with a storage area that takes every write. *)
Definition listing_browser : Browser :=
  {| JSON_stringify := λ l, String.concat "," (id <$> l);
     JSON_parse := λ s, Some (JS.JArray (JS.JString <$> split_commas s));
     setItem_error := λ _ _ _, None;
     getItem_error := λ _ _, None |}.

End Sample.

(** * Properties *)

(** ** The sort of [saveChatHistory] *)

Section Sorting.
Import StorageManager.

Lemma insert_by_recency_perm c l : insert_by_recency c l ≡ₚ c :: l.
Proof.
  induction l as [|d l IH]; simpl; [done|].
  case_match; [done|].
  rewrite IH. apply Permutation_swap.
Qed.

Lemma sort_by_recency_cons c l :
  sort_by_recency (c :: l) = insert_by_recency c (sort_by_recency l).
Proof. reflexivity. Qed.

Lemma sort_by_recency_perm l : sort_by_recency l ≡ₚ l.
Proof.
  induction l as [|c l IH]; [done|].
  rewrite sort_by_recency_cons, insert_by_recency_perm. by f_equiv.
Qed.

Lemma insert_by_recency_sorted c l :
  StronglySorted more_recent l →
  StronglySorted more_recent (insert_by_recency c l).
Proof.
  induction 1 as [|d l Hl IH Hd]; simpl.
  - repeat constructor.
  - destruct (Z.leb_spec (timestamp d) (timestamp c)) as [Hle|Hlt].
    + constructor; [by constructor|].
      constructor; [exact Hle|].
      eapply Forall_impl; [exact Hd|].
      unfold more_recent. intros x Hx. simpl in Hx. lia.
    + constructor; [exact IH|].
      rewrite insert_by_recency_perm.
      constructor; [unfold more_recent; lia | exact Hd].
Qed.

Lemma sort_by_recency_sorted l : StronglySorted more_recent (sort_by_recency l).
Proof.
  induction l as [|c l IH]; [constructor|].
  rewrite sort_by_recency_cons. by apply insert_by_recency_sorted.
Qed.

Lemma sort_by_recency_id l :
  StronglySorted more_recent l → sort_by_recency l = l.
Proof.
  induction 1 as [|c l Hl IH Hc]; [done|].
  rewrite sort_by_recency_cons, IH. destruct Hc as [|d l' Hd _]; simpl; [done|].
  unfold more_recent in Hd.
  destruct (Z.leb_spec (timestamp d) (timestamp c)); [done | lia].
Qed.

Lemma sorted_take n l :
  StronglySorted more_recent l → StronglySorted more_recent (take n l).
Proof.
  intros H. rewrite <- (take_drop n l) in H.
  by apply StronglySorted_app_1_l in H.
Qed.

Lemma sorted_delete i l :
  StronglySorted more_recent l → StronglySorted more_recent (delete i l).
Proof.
  intros H. rewrite delete_take_drop.
  rewrite <- (take_drop i l) in H.
  apply StronglySorted_app in H as (Hcross & H1 & H2).
  apply StronglySorted_app_2; [|done|].
  - intros x y Hx Hy. apply Hcross; [done|].
    rewrite <- (take_drop 1 (drop i l)). rewrite drop_drop.
    apply elem_of_app. right. by rewrite Nat.add_comm.
  - rewrite <- (take_drop 1 (drop i l)) in H2.
    apply StronglySorted_app_1_r in H2. by rewrite drop_drop, Nat.add_comm in H2.
Qed.

(** What the sort keeps at the front is at least as recent as what it
    leaves behind. *)
Lemma sorted_take_drop n l k d :
  StronglySorted more_recent l →
  k ∈ take n l → d ∈ drop n l → (timestamp d ≤ timestamp k)%Z.
Proof.
  intros H Hk Hd. rewrite <- (take_drop n l) in H.
  exact (StronglySorted_app_1_elem_of _ _ _ _ _ H Hk Hd).
Qed.

Lemma take_sorted_fixpoint (n m : nat) l :
  (n ≤ m)%nat →
  take m (sort_by_recency (take n (sort_by_recency l)))
  = take n (sort_by_recency l).
Proof.
  intros Hnm.
  rewrite sort_by_recency_id by apply sorted_take, sort_by_recency_sorted.
  rewrite take_take. f_equal. lia.
Qed.

End Sorting.

(** ** The durable store *)

Section Store.
Import StorageManager.
Variable B : Browser.

(** The caller's array is left sorted, whatever the store does. *)
Lemma saveChatHistory_sorts fuel chats ls r chats' ls' :
  saveChatHistory B fuel chats ls = Some (r, chats', ls') →
  chats' = sort_by_recency chats.
Proof.
  destruct fuel as [|fuel]; simpl; [done|].
  destruct (setItem B ls CHAT_HISTORY _) as [ls1|e]; [congruence|].
  destruct (String.eqb _ _); [|congruence].
  destruct (saveChatHistory B fuel _ ls) as [[[? ?] ?]|]; congruence.
Qed.

(** What a save can leave in the store: nothing new, the 50 most
    recent chats, or (after a quota failure) the 25 most recent. *)
Lemma saveChatHistory_writes fuel chats ls r chats' ls' :
  saveChatHistory B fuel chats ls = Some (r, chats', ls') →
  ls' = ls ∨
  (r = true ∧
   ls' = <[CHAT_HISTORY := JSON_stringify B (take MAX_CHATS (sort_by_recency chats))]> ls) ∨
  (r = false ∧
   ls' = <[CHAT_HISTORY := JSON_stringify B (take (MAX_CHATS / 2) (sort_by_recency chats))]> ls).
Proof.
  revert chats r chats' ls'.
  induction fuel as [|fuel IH]; intros chats r chats' ls'; simpl; [done|].
  unfold setItem.
  destruct (setItem_error B ls CHAT_HISTORY _) as [e|].
  - destruct (String.eqb _ _); [|intros [= <- <- <-]; by left].
    destruct (saveChatHistory B fuel _ ls) as [[[r1 c1] ls1]|] eqn:Hretry; [|done].
    intros [= <- <- <-].
    apply IH in Hretry as [->|[[_ ->]|[_ ->]]]; [by left|right; right..].
    + split; [done|]. by rewrite take_sorted_fixpoint by (cbv; lia).
    + split; [done|]. by rewrite take_sorted_fixpoint by (cbv; lia).
  - intros [= <- <- <-]. right; left. done.
Qed.

Lemma saveChatHistory_step fuel chats ls :
  saveChatHistory B (S fuel) chats ls =
  match setItem B ls CHAT_HISTORY
          (JSON_stringify B (take MAX_CHATS (sort_by_recency chats))) with
  | JS.Normal ls' => Some (true, sort_by_recency chats, ls')
  | JS.Throw error =>
      if String.eqb (JS.name error) "QuotaExceededError" then
        match saveChatHistory B fuel
                (take (MAX_CHATS / 2) (sort_by_recency chats)) ls with
        | Some (_, _, ls') => Some (false, sort_by_recency chats, ls')
        | None => None
        end
      else Some (false, sort_by_recency chats, ls)
  end.
Proof. reflexivity. Qed.

Lemma saveChatHistory_more_fuel fuel chats ls out :
  saveChatHistory B fuel chats ls = Some out →
  saveChatHistory B (S fuel) chats ls = Some out.
Proof.
  revert chats out. induction fuel as [|fuel IH]; intros chats out; [done|].
  rewrite (saveChatHistory_step (S fuel)), (saveChatHistory_step fuel).
  destruct (setItem B ls CHAT_HISTORY _) as [ls1|e]; [done|].
  destruct (String.eqb _ _); [|done].
  destruct (saveChatHistory B fuel _ ls) as [out1|] eqn:Hretry; [|done].
  by rewrite (IH _ _ Hretry).
Qed.

(** Two levels of the recursion are enough as soon as the payload of
    the retry is not turned down for quota. *)
Lemma saveChatHistory_returns (fuel : nat) chats ls :
  (2 ≤ fuel)%nat → retry_fits B chats ls →
  ∃ r ls', saveChatHistory B fuel chats ls = Some (r, sort_by_recency chats, ls').
Proof.
  intros Hfuel Hfits.
  destruct fuel as [|[|fuel]]; [lia..|]. clear Hfuel.
  rewrite saveChatHistory_step. unfold setItem.
  destruct (setItem_error B ls CHAT_HISTORY
              (JSON_stringify B (take MAX_CHATS (sort_by_recency chats)))) as [e|];
    [|by eauto].
  destruct (String.eqb (JS.name e) _); [|by eauto].
  rewrite saveChatHistory_step. unfold setItem.
  rewrite take_sorted_fixpoint by (cbv; lia).
  change (MAX_CHATS / 2) with 25.
  destruct (setItem_error B ls CHAT_HISTORY _) as [e'|] eqn:He'; [|by eauto].
  destruct (String.eqb_spec (JS.name e') "QuotaExceededError") as [Hq|_]; [|by eauto].
  by destruct (Hfits e' He').
Qed.

(** When the store turns down for quota both the 50 and the 25 most
    recent chats, every retry meets the same refusal: no amount of fuel
    lets the call return. *)
Remark saveChatHistory_keeps_retrying chats ls e1 e2 :
  setItem_error B ls CHAT_HISTORY
    (JSON_stringify B (take MAX_CHATS (sort_by_recency chats))) = Some e1 →
  JS.name e1 = "QuotaExceededError" →
  setItem_error B ls CHAT_HISTORY
    (JSON_stringify B (take (MAX_CHATS / 2) (sort_by_recency chats))) = Some e2 →
  JS.name e2 = "QuotaExceededError" →
  ∀ fuel, saveChatHistory B fuel chats ls = None.
Proof.
  intros H1 Hq1 H2 Hq2 fuel. revert chats e1 H1 Hq1 H2.
  induction fuel as [|fuel IH]; intros chats e1 H1 Hq1 H2; [done|].
  rewrite saveChatHistory_step. unfold setItem. rewrite H1, Hq1. simpl.
  rewrite (IH _ e2); [done| |done|].
  - by rewrite take_sorted_fixpoint by (cbv; lia).
  - by rewrite take_sorted_fixpoint by (cbv; lia).
Qed.

(** A collection that the sort and both cuts leave as it is, as the one
    the retry gets: a write of it is accepted, or refused for another
    reason than quota; refused for quota, the call does not return. *)
Lemma saveChatHistory_settled fuel l ls r l' ls' :
  take MAX_CHATS (sort_by_recency l) = l →
  take (MAX_CHATS / 2) (sort_by_recency l) = l →
  saveChatHistory B fuel l ls = Some (r, l', ls') →
  (setItem_error B ls CHAT_HISTORY (JSON_stringify B l) = None ∧
   ls' = <[CHAT_HISTORY := JSON_stringify B l]> ls) ∨
  (∃ e, setItem_error B ls CHAT_HISTORY (JSON_stringify B l) = Some e ∧
        JS.name e ≠ "QuotaExceededError" ∧ ls' = ls).
Proof.
  intros H50 H25. revert r l' ls'.
  induction fuel as [|fuel IH]; intros r l' ls'; [done|].
  rewrite saveChatHistory_step, H50, H25. unfold setItem.
  destruct (setItem_error B ls CHAT_HISTORY (JSON_stringify B l)) as [e|] eqn:He.
  - destruct (String.eqb_spec (JS.name e) "QuotaExceededError") as [Hq|Hq].
    + destruct (saveChatHistory B fuel l ls) as [[[r1 c1] ls1]|] eqn:Hretry; [|done].
      intros _. destruct (IH _ _ _ eq_refl) as [[Hnone _]|(e' & He' & Hq' & _)];
        congruence.
    + intros [= <- <- <-]. right. by exists e.
  - intros [= <- <- <-]. by left.
Qed.

(** What a save that returns has done, by the answers of the storage
    area to the two payloads. *)
Lemma saveChatHistory_inv fuel chats ls r chats' ls' :
  saveChatHistory B fuel chats ls = Some (r, chats', ls') →
  chats' = sort_by_recency chats ∧
  ((r = true ∧
    setItem_error B ls CHAT_HISTORY
      (JSON_stringify B (take MAX_CHATS (sort_by_recency chats))) = None ∧
    ls' = <[CHAT_HISTORY := JSON_stringify B (take MAX_CHATS (sort_by_recency chats))]> ls)
   ∨ (r = false ∧
      (∃ e, setItem_error B ls CHAT_HISTORY
              (JSON_stringify B (take MAX_CHATS (sort_by_recency chats))) = Some e ∧
            JS.name e = "QuotaExceededError") ∧
      setItem_error B ls CHAT_HISTORY
        (JSON_stringify B (take (MAX_CHATS / 2) (sort_by_recency chats))) = None ∧
      ls' = <[CHAT_HISTORY :=
                JSON_stringify B (take (MAX_CHATS / 2) (sort_by_recency chats))]> ls)
   ∨ (r = false ∧ ls' = ls ∧
      ∃ e, (setItem_error B ls CHAT_HISTORY
              (JSON_stringify B (take MAX_CHATS (sort_by_recency chats))) = Some e ∨
            setItem_error B ls CHAT_HISTORY
              (JSON_stringify B (take (MAX_CHATS / 2) (sort_by_recency chats))) = Some e) ∧
           JS.name e ≠ "QuotaExceededError")).
Proof.
  intros Hsave. split; [by eapply saveChatHistory_sorts|].
  destruct fuel as [|fuel]; [done|].
  rewrite saveChatHistory_step in Hsave. unfold setItem in Hsave.
  destruct (setItem_error B ls CHAT_HISTORY
              (JSON_stringify B (take MAX_CHATS (sort_by_recency chats))))
    as [e|] eqn:He.
  - destruct (String.eqb_spec (JS.name e) "QuotaExceededError") as [Hq|Hq].
    + destruct (saveChatHistory B fuel _ ls) as [[[r1 c1] ls1]|] eqn:Hretry; [|done].
      injection Hsave as <- <- <-.
      apply saveChatHistory_settled in Hretry
        as [[Hnone ->]|(e' & He' & Hq' & ->)].
      * right; left. split_and!; [done|by exists e|done|done].
      * right; right. split_and!; [done|done|]. exists e'. split; [by right|done].
      * apply take_sorted_fixpoint. cbv. lia.
      * apply take_sorted_fixpoint. cbv. lia.
    + injection Hsave as <- <- <-. right; right.
      split_and!; [done|done|]. exists e. split; [by left|done].
  - injection Hsave as <- <- <-. left. done.
Qed.

End Store.

(** C3: a save writes the [MAX_CHATS] = 50 most recent chats when the
    storage area accepts them, and returns [true]; when that write is
    refused for quota and the retry is accepted, it writes the 25 most
    recent chats and returns [false]; when a write is refused for another
    reason the store is left as it was. A save that returns has done one
    of these three and nothing else. The chats written are the first of
    the collection in recency order: with the rest they make up the
    input, and none of the rest is more recent than one of them. So a
    store within capacity stays within capacity. The call returns within
    two levels of recursion whenever the payload of the retry is not
    turned down for quota. *)
Theorem persisted_collection_bounded (B : Browser) (chats : list Chat)
    (ls : localStorage) :
  (∀ n,
     chats ≡ₚ take n (StorageManager.sort_by_recency chats)
              ++ drop n (StorageManager.sort_by_recency chats) ∧
     length (take n (StorageManager.sort_by_recency chats)) = n `min` length chats ∧
     StronglySorted StorageManager.more_recent
       (take n (StorageManager.sort_by_recency chats)) ∧
     ∀ k d, k ∈ take n (StorageManager.sort_by_recency chats) →
            d ∈ drop n (StorageManager.sort_by_recency chats) →
            (timestamp d ≤ timestamp k)%Z) ∧
  (∀ fuel,
     setItem_error B ls StorageManager.CHAT_HISTORY
       (JSON_stringify B (take StorageManager.MAX_CHATS
                            (StorageManager.sort_by_recency chats))) = None →
     StorageManager.saveChatHistory B (S fuel) chats ls
     = Some (true, StorageManager.sort_by_recency chats,
             <[StorageManager.CHAT_HISTORY :=
                 JSON_stringify B (take StorageManager.MAX_CHATS
                                     (StorageManager.sort_by_recency chats))]> ls)) ∧
  (∀ fuel e,
     setItem_error B ls StorageManager.CHAT_HISTORY
       (JSON_stringify B (take StorageManager.MAX_CHATS
                            (StorageManager.sort_by_recency chats))) = Some e →
     JS.name e = "QuotaExceededError" →
     setItem_error B ls StorageManager.CHAT_HISTORY
       (JSON_stringify B (take (StorageManager.MAX_CHATS / 2)
                            (StorageManager.sort_by_recency chats))) = None →
     StorageManager.saveChatHistory B (S (S fuel)) chats ls
     = Some (false, StorageManager.sort_by_recency chats,
             <[StorageManager.CHAT_HISTORY :=
                 JSON_stringify B (take (StorageManager.MAX_CHATS / 2)
                                     (StorageManager.sort_by_recency chats))]> ls)) ∧
  (∀ fuel e,
     setItem_error B ls StorageManager.CHAT_HISTORY
       (JSON_stringify B (take StorageManager.MAX_CHATS
                            (StorageManager.sort_by_recency chats))) = Some e →
     JS.name e ≠ "QuotaExceededError" →
     StorageManager.saveChatHistory B (S fuel) chats ls
     = Some (false, StorageManager.sort_by_recency chats, ls)) ∧
  (∀ fuel r chats' ls',
     StorageManager.saveChatHistory B fuel chats ls = Some (r, chats', ls') →
     chats' = StorageManager.sort_by_recency chats ∧
     ((r = true ∧
       setItem_error B ls StorageManager.CHAT_HISTORY
         (JSON_stringify B (take StorageManager.MAX_CHATS
                              (StorageManager.sort_by_recency chats))) = None ∧
       ls' = <[StorageManager.CHAT_HISTORY :=
                 JSON_stringify B (take StorageManager.MAX_CHATS
                                     (StorageManager.sort_by_recency chats))]> ls)
      ∨ (r = false ∧
         (∃ e, setItem_error B ls StorageManager.CHAT_HISTORY
                 (JSON_stringify B (take StorageManager.MAX_CHATS
                                      (StorageManager.sort_by_recency chats))) = Some e ∧
               JS.name e = "QuotaExceededError") ∧
         setItem_error B ls StorageManager.CHAT_HISTORY
           (JSON_stringify B (take (StorageManager.MAX_CHATS / 2)
                                (StorageManager.sort_by_recency chats))) = None ∧
         ls' = <[StorageManager.CHAT_HISTORY :=
                   JSON_stringify B (take (StorageManager.MAX_CHATS / 2)
                                       (StorageManager.sort_by_recency chats))]> ls)
      ∨ (r = false ∧ ls' = ls ∧
         ∃ e, (setItem_error B ls StorageManager.CHAT_HISTORY
                 (JSON_stringify B (take StorageManager.MAX_CHATS
                                      (StorageManager.sort_by_recency chats))) = Some e ∨
               setItem_error B ls StorageManager.CHAT_HISTORY
                 (JSON_stringify B (take (StorageManager.MAX_CHATS / 2)
                                      (StorageManager.sort_by_recency chats))) = Some e) ∧
              JS.name e ≠ "QuotaExceededError"))) ∧
  (∀ fuel r chats' ls',
     StorageManager.saveChatHistory B fuel chats ls = Some (r, chats', ls') →
     Specified.within_capacity B ls → Specified.within_capacity B ls') ∧
  (StorageManager.retry_fits B chats ls →
   ∃ out, StorageManager.saveChatHistory B 2 chats ls = Some out) ∧
  StorageManager.MAX_CHATS = 50 ∧ StorageManager.MAX_CHATS / 2 = 25.
Proof.
  pose proof (sort_by_recency_sorted chats) as Hsorted.
  pose proof (sort_by_recency_perm chats) as Hperm.
  split_and!; [| | | | | | |reflexivity|reflexivity].
  - intros n. split_and!.
    + by rewrite take_drop.
    + by rewrite length_take, (Permutation_length Hperm).
    + by apply sorted_take.
    + intros k d. by apply sorted_take_drop.
  - intros fuel Haccepted. rewrite saveChatHistory_step.
    unfold StorageManager.setItem. by rewrite Haccepted.
  - intros fuel e Hrefused Hquota Haccepted. rewrite saveChatHistory_step.
    unfold StorageManager.setItem. rewrite Hrefused, Hquota, String.eqb_refl.
    rewrite saveChatHistory_step. unfold StorageManager.setItem.
    rewrite take_sorted_fixpoint by (cbv; lia).
    by rewrite Haccepted.
  - intros fuel e Hrefused Hother. rewrite saveChatHistory_step.
    unfold StorageManager.setItem. rewrite Hrefused.
    by destruct (String.eqb_spec (JS.name e) "QuotaExceededError").
  - intros fuel r chats' ls'. apply saveChatHistory_inv.
  - intros fuel r chats' ls' Hsave Hbefore.
    apply saveChatHistory_inv in Hsave
      as (_ & [(_ & _ & ->)|[(_ & _ & _ & ->)|(_ & -> & _)]]); [| |done].
    + right. eexists. rewrite lookup_insert_eq. split; [done|].
      rewrite length_take. unfold StorageManager.MAX_CHATS. lia.
    + right. eexists. rewrite lookup_insert_eq. split; [done|].
      rewrite length_take. change (StorageManager.MAX_CHATS / 2) with 25.
      unfold StorageManager.MAX_CHATS. lia.
  - intros Hfits.
    destruct (saveChatHistory_returns B 2 chats ls) as (r & ls' & H); [lia|done|].
    eauto.
Qed.

(** Sixty chats, the most recent one last. A store that takes 25 ids but
    not 50 is left with the 25 most recent, most recent first, by the
    retry; a store that takes 50 ids is left with the 50 most recent. *)
Lemma persisted_collection_bounded_witness :
  StorageManager.saveChatHistory (Sample.browser 100) 2 Sample.sixty_chats ∅
  = Some (false, StorageManager.sort_by_recency Sample.sixty_chats,
          <[StorageManager.CHAT_HISTORY := "59,58,57,56,55,54,53,52,51,50,49,48,47,46,45,44,43,42,41,40,39,38,37,36,35"]> ∅) ∧
  StorageManager.saveChatHistory (Sample.browser 1000) 1 Sample.sixty_chats ∅
  = Some (true, StorageManager.sort_by_recency Sample.sixty_chats,
          <[StorageManager.CHAT_HISTORY := "59,58,57,56,55,54,53,52,51,50,49,48,47,46,45,44,43,42,41,40,39,38,37,36,35,34,33,32,31,30,29,28,27,26,25,24,23,22,21,20,19,18,17,16,15,14,13,12,11,10"]> ∅).
Proof.
  destruct (persisted_collection_bounded (Sample.browser 100) Sample.sixty_chats ∅)
    as (_ & _ & Hretry & _).
  destruct (persisted_collection_bounded (Sample.browser 1000) Sample.sixty_chats ∅)
    as (_ & Hwrite & _).
  assert (JSON_stringify (Sample.browser 100)
            (take (StorageManager.MAX_CHATS / 2)
               (StorageManager.sort_by_recency Sample.sixty_chats))
          = "59,58,57,56,55,54,53,52,51,50,49,48,47,46,45,44,43,42,41,40,39,38,37,36,35") as H25 by (vm_compute; reflexivity).
  assert (JSON_stringify (Sample.browser 1000)
            (take StorageManager.MAX_CHATS
               (StorageManager.sort_by_recency Sample.sixty_chats))
          = "59,58,57,56,55,54,53,52,51,50,49,48,47,46,45,44,43,42,41,40,39,38,37,36,35,34,33,32,31,30,29,28,27,26,25,24,23,22,21,20,19,18,17,16,15,14,13,12,11,10") as H50 by (vm_compute; reflexivity).
  split.
  - rewrite <- H25.
    apply (Hretry 0%nat (JS.Error "QuotaExceededError" "exceeded the quota"));
      [vm_compute; reflexivity|reflexivity|vm_compute; reflexivity].
  - rewrite <- H50. apply (Hwrite 0%nat). vm_compute. reflexivity.
Defined.

(** C6: loading never throws. [loadChatHistory] returns the parsed value
    when the stored text is readable and the empty list when it is absent
    or unreadable; [loadUIState] returns the parsed value or the fixed
    default object. *)
Theorem load_never_throws (B : Browser) (ls : localStorage) :
  (∃ v, StorageManager.loadChatHistory B ls = JS.Normal v) ∧
  (∃ v, StorageManager.loadUIState B ls = JS.Normal v) ∧
  (∀ v, Specified.readable B ls StorageManager.CHAT_HISTORY v →
        StorageManager.loadChatHistory B ls = JS.Normal v) ∧
  (Specified.unreadable B ls StorageManager.CHAT_HISTORY →
   StorageManager.loadChatHistory B ls = JS.Normal (JS.JArray [])) ∧
  (∀ v, Specified.readable B ls StorageManager.UI_STATE v →
        StorageManager.loadUIState B ls = JS.Normal v) ∧
  (Specified.unreadable B ls StorageManager.UI_STATE →
   StorageManager.loadUIState B ls = JS.Normal StorageManager.default_ui_state).
Proof.
  unfold StorageManager.loadChatHistory, StorageManager.loadUIState,
    StorageManager.getItem, StorageManager.parse,
    Specified.readable, Specified.unreadable.
  split_and!.
  - destruct (getItem_error B ls _); simpl; [by eauto|].
    destruct (ls !! _) as [[|c d]|]; simpl; [by eauto| |by eauto].
    destruct (JSON_parse B _); simpl; by eauto.
  - destruct (getItem_error B ls _); simpl; [by eauto|].
    destruct (ls !! _) as [[|c d]|]; simpl; [by eauto| |by eauto].
    destruct (JSON_parse B _); simpl; by eauto.
  - intros v (-> & d & -> & Hd & Hv). simpl.
    destruct d; [done|]. simpl. by rewrite Hv.
  - intros [[e ->]|[->|[->|(d & -> & Hd)]]]; simpl; [done|..];
      (destruct (getItem_error B ls _); simpl; [done|]); [done..|].
    destruct d; [done|]. simpl. by rewrite Hd.
  - intros v (-> & d & -> & Hd & Hv). simpl.
    destruct d; [done|]. simpl. by rewrite Hv.
  - intros [[e ->]|[->|[->|(d & -> & Hd)]]]; simpl; [done|..];
      (destruct (getItem_error B ls _); simpl; [done|]); [done..|].
    destruct d; [done|]. simpl. by rewrite Hd.
Qed.

(** A stored history that parses, and a stored interface state that does
    not. *)
Lemma load_never_throws_witness :
  let ls : localStorage :=
    <[StorageManager.CHAT_HISTORY := "null"]>
      (<[StorageManager.UI_STATE := "{left"]> ∅) in
  StorageManager.loadChatHistory (Sample.browser 100) ls = JS.Normal JS.JNull ∧
  StorageManager.loadUIState (Sample.browser 100) ls
  = JS.Normal StorageManager.default_ui_state.
Proof.
  intros ls.
  pose proof (load_never_throws (Sample.browser 100) ls)
    as (_ & _ & Hchats & _ & _ & Hui).
  split.
  - apply Hchats. split; [reflexivity|].
    exists "null". split_and!; [reflexivity|discriminate|reflexivity].
  - apply Hui. right; right; right.
    exists "{left". split; reflexivity.
Defined.

(** ** The conversation repository *)

(** Case analysis on the [save] that an operation of the repository
    ends with; the case where it does not return is closed. *)
Ltac case_save Hsave :=
  match goal with
  | |- context [ChatManager.save ?B ?fuel ?cm ?ls] =>
      let cm' := fresh "cm'" in
      let ls' := fresh "ls'" in
      destruct (ChatManager.save B fuel cm ls) as [[cm' ls']|] eqn:Hsave; [|done]
  end.

Section Repository.
Import StorageManager ChatManager.
Variable B : Browser.

(** In memory, [save] sorts the collection and leaves the active
    pointer alone. *)
Lemma save_inv fuel cm ls cm' ls' :
  save B fuel cm ls = Some (cm', ls') →
  chats cm' = sort_by_recency (chats cm) ∧ activeChat cm' = activeChat cm.
Proof.
  unfold save.
  destruct (saveChatHistory B fuel (chats cm) ls) as [[[r c1] ls1]|] eqn:Hs;
    [|done].
  intros [= <- <-]. simpl.
  by apply saveChatHistory_sorts in Hs as ->.
Qed.

Lemma save_returns (fuel : nat) cm ls :
  (2 ≤ fuel)%nat → retry_fits B (chats cm) ls →
  ∃ out, save B fuel cm ls = Some out.
Proof.
  intros Hfuel Hfits. unfold save.
  destruct (saveChatHistory_returns B fuel (chats cm) ls Hfuel Hfits)
    as (r & ls' & ->).
  simpl. eauto.
Qed.

Lemma save_sorted fuel cm ls cm' ls' :
  save B fuel cm ls = Some (cm', ls') →
  StronglySorted more_recent (chats cm') ∧ chats cm' ≡ₚ chats cm.
Proof.
  intros [-> _]%save_inv.
  split; [apply sort_by_recency_sorted | apply sort_by_recency_perm].
Qed.

Lemma findChat_Some chatId l i chat :
  findChat chatId l = Some (i, chat) → l !! i = Some chat ∧ id chat = chatId.
Proof. unfold findChat. rewrite list_find_Some. by intros (? & ? & _). Qed.

Lemma findChat_None chatId l :
  findChat chatId l = None ↔ ∀ c, c ∈ l → id c ≠ chatId.
Proof. unfold findChat. by rewrite list_find_None, Forall_forall. Qed.

Lemma findChat_is_Some chatId l c :
  c ∈ l → id c = chatId → is_Some (findChat chatId l).
Proof. intros Hc Hid. by eapply list_find_elem_of. Qed.

End Repository.

(** C10: deleting an id that no chat of the collection carries returns
    [false] and changes nothing: the chats, the active pointer and the
    storage area are the ones given (no save is performed), for any
    amount of fuel. *)
Theorem deleteChat_not_found (B : Browser) (fuel : nat) (cm : ChatManager.t)
    (ls : localStorage) (chatId : string) :
  (∀ c, c ∈ ChatManager.chats cm → id c ≠ chatId) →
  ChatManager.deleteChat B chatId fuel cm ls = Some (false, cm, ls).
Proof.
  intros Hnone. unfold ChatManager.deleteChat.
  by rewrite (proj2 (findChat_None chatId (ChatManager.chats cm)) Hnone).
Qed.

Lemma deleteChat_not_found_witness :
  ChatManager.deleteChat (Sample.browser 100) "7" 0 Sample.two_chats ∅
  = Some (false, Sample.two_chats, ∅).
Proof.
  apply (deleteChat_not_found (Sample.browser 100) 0 Sample.two_chats ∅ "7").
  intros c Hc. vm_compute in Hc.
  apply list_elem_of_In in Hc. simpl in Hc.
  destruct Hc as [<-|[<-|[]]]; vm_compute; discriminate.
Defined.

(** C7: deleting a chat that exists returns [true] and removes exactly
    that chat (the first one carrying the id). If it was the active chat,
    the active pointer becomes the id of the first chat of the remaining
    collection, in the order the collection had when the chat was removed,
    or none when nothing remains; when the collection was in the order
    every save leaves it in, that chat is also the first of the collection
    afterwards. If another chat was active, the pointer is unchanged. The
    call returns whenever the store does not keep failing for quota. *)
Theorem deleteChat_existing (B : Browser) (cm : ChatManager.t) (ls : localStorage)
    (chatId : string) (index : nat) (chat : Chat) :
  ChatManager.findChat chatId (ChatManager.chats cm) = Some (index, chat) →
  let remaining := delete index (ChatManager.chats cm) in
  (∀ fuel out,
     ChatManager.deleteChat B chatId fuel cm ls = Some out →
     ∃ cm' ls',
       out = (true, cm', ls') ∧
       id chat = chatId ∧
       ChatManager.chats cm ≡ₚ chat :: ChatManager.chats cm' ∧
       ChatManager.chats cm' = StorageManager.sort_by_recency remaining ∧
       (NoDup (id <$> ChatManager.chats cm) →
        chatId ∉ id <$> ChatManager.chats cm') ∧
       (ChatManager.activeChat cm = Some chatId →
        ChatManager.activeChat cm' = id <$> head remaining) ∧
       (ChatManager.activeChat cm = Some chatId →
        StronglySorted StorageManager.more_recent (ChatManager.chats cm) →
        ChatManager.activeChat cm' = id <$> head (ChatManager.chats cm')) ∧
       (ChatManager.activeChat cm ≠ Some chatId →
        ChatManager.activeChat cm' = ChatManager.activeChat cm)) ∧
  (StorageManager.retry_fits B remaining ls →
   ∃ out, ChatManager.deleteChat B chatId 2 cm ls = Some out).
Proof.
  intros Hfind remaining.
  pose proof (findChat_Some _ _ _ _ Hfind) as [Hlookup Hid].
  pose proof (delete_Permutation _ _ _ Hlookup) as Hperm.
  unfold ChatManager.deleteChat. rewrite Hfind. fold remaining.
  split.
  - intros fuel out Hout.
    destruct (ChatManager.save B fuel _ ls) as [[cm' ls']|] eqn:Hsave;
      simplify_eq/=.
    apply save_inv in Hsave as [Hchats Hactive]. simpl in Hchats, Hactive.
    exists cm', ls'. split_and!; [done..| |done| | | |].
    + by rewrite Hchats, sort_by_recency_perm.
    + intros Hnodup. rewrite Hchats, sort_by_recency_perm.
      rewrite Hperm in Hnodup. rewrite fmap_cons in Hnodup.
      by apply NoDup_cons in Hnodup as [? _].
    + intros Hwas. rewrite Hactive. by rewrite decide_True.
    + intros Hwas Hsorted. rewrite Hactive, decide_True by done.
      rewrite Hchats. by rewrite sort_by_recency_id by by apply sorted_delete.
    + intros Hother. rewrite Hactive. by rewrite decide_False.
  - intros Hfits.
    destruct (save_returns B 2
                {| ChatManager.chats := remaining;
                   ChatManager.activeChat :=
                     if decide (ChatManager.activeChat cm = Some chatId)
                     then id <$> head remaining
                     else ChatManager.activeChat cm |} ls)
      as [[cm' ls'] Hsave]; [lia|done|].
    rewrite Hsave. simpl. eauto.
Qed.

(** Deleting the active chat "1" of two: the other chat becomes active. *)
Lemma deleteChat_existing_witness :
  ∃ cm' ls',
    ChatManager.deleteChat (Sample.browser 100) "1" 2 Sample.two_chats ∅
    = Some (true, cm', ls') ∧
    ChatManager.chats cm' = [Sample.chat 2] ∧
    ChatManager.activeChat cm' = Some "2".
Proof.
  pose proof (deleteChat_existing (Sample.browser 100) Sample.two_chats ∅
                "1" 0 (Sample.chat 1)) as H.
  destruct H as [Hsafe Hreturns]; [vm_compute; reflexivity|].
  destruct Hreturns as [out Hout].
  { intros e He. vm_compute in He. discriminate He. }
  destruct (Hsafe 2 out Hout)
    as (cm' & ls' & -> & _ & _ & Hchats & _ & Hactive & _).
  exists cm', ls'. split; [exact Hout|].
  split; [exact Hchats | apply Hactive; reflexivity].
Defined.

(** C8: [save] hands the live [chats] array to [saveChatHistory], whose
    sort is in place: after a save the collection in memory is the
    collection it was, sorted by descending timestamp. This holds after
    every persisting operation (create, append, delete, title edit), and
    an operation can change the order of the chats it did not touch from
    insertion order to recency order. *)
Theorem save_sorts_collection_in_place (B : Browser) :
  (∀ fuel cm ls cm' ls',
     ChatManager.save B fuel cm ls = Some (cm', ls') →
     ChatManager.chats cm' = StorageManager.sort_by_recency (ChatManager.chats cm) ∧
     StronglySorted StorageManager.more_recent (ChatManager.chats cm') ∧
     ChatManager.chats cm' ≡ₚ ChatManager.chats cm) ∧
  (∀ arg t1 r t2 fuel cm ls c cm' ls',
     ChatManager.createNewChat B arg t1 r t2 fuel cm ls = Some (c, cm', ls') →
     StronglySorted StorageManager.more_recent (ChatManager.chats cm')) ∧
  (∀ chatId role text t1 t2 fuel cm ls c cm' ls',
     ChatManager.addMessage B chatId role text t1 t2 fuel cm ls = Some (Some c, cm', ls') →
     StronglySorted StorageManager.more_recent (ChatManager.chats cm')) ∧
  (∀ chatId fuel cm ls cm' ls',
     ChatManager.deleteChat B chatId fuel cm ls = Some (true, cm', ls') →
     StronglySorted StorageManager.more_recent (ChatManager.chats cm')) ∧
  (∀ chatId title' now fuel cm ls c cm' ls',
     ChatManager.updateChatTitle B chatId title' now fuel cm ls = Some (Some c, cm', ls') →
     StronglySorted StorageManager.more_recent (ChatManager.chats cm')) ∧
  (∃ c cm' ls',
     ChatManager.updateChatTitle (Sample.browser 100) "1" "Renamed" 0 2
       {| ChatManager.chats := [Sample.chat 1; Sample.chat 2; Sample.chat 3];
          ChatManager.activeChat := None |} ∅
     = Some (Some c, cm', ls') ∧
     id <$> ChatManager.chats cm' = ["3"; "2"; "1"]).
Proof.
  split_and!.
  - intros fuel cm ls cm' ls' Hsave.
    pose proof (save_sorted B _ _ _ _ _ Hsave) as [? ?].
    by apply save_inv in Hsave as [? _].
  - intros arg t1 r t2 fuel cm ls c cm' ls'. unfold ChatManager.createNewChat.
    case_save Hsave.
    intros [= _ <- _]. by apply save_sorted in Hsave as [? _].
  - intros chatId role text t1 t2 fuel cm ls c cm' ls'.
    unfold ChatManager.addMessage.
    destruct (ChatManager.findChat chatId _) as [[i chat]|]; [|done].
    case_save Hsave.
    intros [= _ <- _]. by apply save_sorted in Hsave as [? _].
  - intros chatId fuel cm ls cm' ls'. unfold ChatManager.deleteChat.
    destruct (ChatManager.findChat chatId _) as [[i chat]|]; [|done].
    case_save Hsave.
    intros [= <- _]. by apply save_sorted in Hsave as [? _].
  - intros chatId title' now fuel cm ls c cm' ls'.
    unfold ChatManager.updateChatTitle.
    destruct (ChatManager.findChat chatId _) as [[i chat]|]; [|done].
    case_save Hsave.
    intros [= _ <- _]. by apply save_sorted in Hsave as [? _].
  - do 3 eexists. split; vm_compute; reflexivity.
Qed.

(** Saving two chats kept oldest first turns them round. *)
Lemma save_sorts_collection_in_place_witness :
  ∃ cm' ls',
    ChatManager.save (Sample.browser 100) 1 Sample.two_chats ∅ = Some (cm', ls') ∧
    ChatManager.chats cm' = [Sample.chat 2; Sample.chat 1].
Proof.
  destruct (ChatManager.save (Sample.browser 100) 1 Sample.two_chats ∅)
    as [[cm' ls']|] eqn:Hsave; [|vm_compute in Hsave; discriminate Hsave].
  exists cm', ls'. split; [reflexivity|].
  destruct (save_sorts_collection_in_place (Sample.browser 100)) as [Hsave_sorts _].
  destruct (Hsave_sorts 1 Sample.two_chats ∅ cm' ls' Hsave) as [-> _].
  vm_compute. reflexivity.
Defined.

(** C9, as stated, fails for the provided value [NaN]: it is not zero,
    and it is replaced by the default. *)
Lemma createNewChat_NaN_counterexample :
  ∃ c cm' ls',
    ChatManager.createNewChat (Sample.browser 100)
      {| ChatManager.arg_temperature := Some JS.NaN;
         ChatManager.arg_topK := Some JS.NaN |}
      100 "k3j9x0q2a" 100 2 Sample.two_chats ∅
    = Some (c, cm', ls') ∧
    Specified.nonzero JS.NaN ∧
    temperature (settings c) = JS.Fin 1 ∧ temperature (settings c) ≠ JS.NaN ∧
    topK (settings c) = JS.Fin 3 ∧ topK (settings c) ≠ JS.NaN.
Proof.
  do 3 eexists. split; [vm_compute; reflexivity|].
  split; [intros []|]. simpl. split_and!; done.
Qed.

(** C9, amended: a provided value of zero is replaced by the default
    (temperature 1.0, topK 3), and every provided value that is neither
    zero nor [NaN] is stored unchanged, in the chat returned, which is a
    chat of the collection. The call returns whenever the store does not
    keep failing for quota. *)
Theorem createNewChat_settings (B : Browser) (arg : ChatManager.NewChatSettings)
    (now_id : Z) (random : string) (now_timestamp : Z)
    (cm : ChatManager.t) (ls : localStorage) :
  (∀ fuel c cm' ls',
     ChatManager.createNewChat B arg now_id random now_timestamp fuel cm ls
     = Some (c, cm', ls') →
     c ∈ ChatManager.chats cm' ∧
     (∀ v, ChatManager.arg_temperature arg = Some v → Specified.zero v →
           temperature (settings c) = JS.Fin 1) ∧
     (∀ v, ChatManager.arg_topK arg = Some v → Specified.zero v →
           topK (settings c) = JS.Fin 3) ∧
     (∀ v, ChatManager.arg_temperature arg = Some v →
           Specified.nonzero v → v ≠ JS.NaN → temperature (settings c) = v) ∧
     (∀ v, ChatManager.arg_topK arg = Some v →
           Specified.nonzero v → v ≠ JS.NaN → topK (settings c) = v)) ∧
  (StorageManager.retry_fits B
     (ChatManager.new_chat arg now_id random now_timestamp :: ChatManager.chats cm) ls →
   ∃ out, ChatManager.createNewChat B arg now_id random now_timestamp 2 cm ls
          = Some out).
Proof.
  assert (Hzero : ∀ v d, Specified.zero v → JS.or_else (Some v) d = d).
  { intros [q| |n] d Hv; simpl in *; [|done..]. by rewrite Hv. }
  assert (Htruthy : ∀ v d, Specified.nonzero v → v ≠ JS.NaN →
                           JS.or_else (Some v) d = v).
  { intros [q| |n] d Hv Hnan; simpl in *; [|done..].
    unfold Specified.nonzero in Hv. simpl in Hv.
    by destruct (Z.eqb_spec (Qnum q) 0). }
  split.
  - intros fuel c cm' ls'. unfold ChatManager.createNewChat.
    destruct (ChatManager.save B fuel _ ls) as [[cm1 ls1]|] eqn:Hsave; [|done].
    intros [= <- <- <-].
    apply save_inv in Hsave as [Hchats _]. simpl in Hchats.
    split_and!.
    + rewrite Hchats, sort_by_recency_perm. apply list_elem_of_here.
    + intros v Hv Hz. simpl. rewrite Hv. by apply Hzero.
    + intros v Hv Hz. simpl. rewrite Hv. by apply Hzero.
    + intros v Hv Hnz Hnan. simpl. rewrite Hv. by apply Htruthy.
    + intros v Hv Hnz Hnan. simpl. rewrite Hv. by apply Htruthy.
  - intros Hfits. unfold ChatManager.createNewChat.
    destruct (save_returns B 2
                {| ChatManager.chats :=
                     ChatManager.new_chat arg now_id random now_timestamp
                     :: ChatManager.chats cm;
                   ChatManager.activeChat :=
                     Some (id (ChatManager.new_chat arg now_id random now_timestamp)) |}
                ls) as [[cm' ls'] Hsave]; [lia|done|].
    rewrite Hsave. simpl. eauto.
Qed.

(** A provided temperature of 0.7 is kept; a provided topK of 0 becomes 3. *)
Lemma createNewChat_settings_witness :
  ∃ c cm' ls',
    ChatManager.createNewChat (Sample.browser 100)
      {| ChatManager.arg_temperature := Some (JS.Fin (7 # 10));
         ChatManager.arg_topK := Some (JS.Fin 0) |}
      100 "k3j9x0q2a" 100 2 Sample.two_chats ∅
    = Some (c, cm', ls') ∧
    temperature (settings c) = JS.Fin (7 # 10) ∧
    topK (settings c) = JS.Fin 3.
Proof.
  pose proof (createNewChat_settings (Sample.browser 100)
                {| ChatManager.arg_temperature := Some (JS.Fin (7 # 10));
                   ChatManager.arg_topK := Some (JS.Fin 0) |}
                100 "k3j9x0q2a" 100 Sample.two_chats ∅) as [Hsafe Hreturns].
  destruct Hreturns as [[[c cm'] ls'] Hout].
  { intros e He. vm_compute in He. discriminate He. }
  exists c, cm', ls'. split; [exact Hout|].
  destruct (Hsafe 2 c cm' ls' Hout) as (_ & _ & HtopK & Htemperature & _).
  split.
  - apply Htemperature; [reflexivity| |discriminate].
    unfold Specified.nonzero. simpl. discriminate.
  - apply (HtopK (JS.Fin 0)); reflexivity.
Defined.


(** ** Title derivation *)

Section Title.
Import ChatManager.

(** The code trims, then does what the specification says. *)
Lemma generateTitle_trim text :
  generateTitle text = Specified.title (Text.trim text).
Proof.
  unfold generateTitle, Specified.title.
  by destruct (if (50 <? _)%nat then _ else _).
Qed.

Lemma append_ellipsis_truthy s : JS.truthy_string (s +:+ "...") = true.
Proof. by destruct s. Qed.

(** What [search_sentence_end] finds is a terminator followed by white
    space, and no earlier position is one. *)
Lemma search_sentence_end_Some s i :
  Text.search_sentence_end s = Some i →
  ∃ c d,
    String.get i s = Some c ∧ String.get (S i) s = Some d ∧
    Text.is_terminator c = true ∧ Text.is_white_space d = true ∧
    ∀ j c' d', (j < i)%nat →
      String.get j s = Some c' → String.get (S j) s = Some d' →
      Text.is_terminator c' && Text.is_white_space d' = false.
Proof.
  revert i. induction s as [|c s IH]; intros i; [done|].
  cbn [Text.search_sentence_end]. destruct s as [|d s]; [done|].
  destruct (Text.is_terminator c && Text.is_white_space d) eqn:Hcd.
  - intros [= <-]. exists c, d.
    apply andb_true_iff in Hcd as [? ?]. split_and!; [done..|]. lia.
  - destruct (Text.search_sentence_end (String d s)) as [i'|] eqn:Hs; [|done].
    intros [= <-].
    destruct (IH i' eq_refl) as (c1 & d1 & Hc1 & Hd1 & ? & ? & Hfirst).
    exists c1, d1. split_and!; [done..|].
    intros [|j] c' d' Hj Hc' Hd'.
    + simpl in Hc', Hd'. by simplify_eq.
    + apply (Hfirst j); [lia|done..].
Qed.

End Title.

(** C4, as stated, fails on a text with leading white space: the title
    recorded for " Hi" is "Hi", while the raw text, which has no sentence
    terminator and fewer than 50 characters, is " Hi". *)
Lemma title_raw_text_counterexample :
  ∃ c cm' ls',
    ChatManager.addMessage (Sample.browser 100) "1" user " Hi" 5 5 2
      Sample.two_chats ∅
    = Some (Some c, cm', ls') ∧
    title (Sample.chat 1) = "New Chat" ∧
    messages (Sample.chat 1) = [] ∧
    Specified.title " Hi" = " Hi" ∧
    title c = "Hi" ∧
    title c ≠ Specified.title " Hi".
Proof.
  do 3 eexists. split; [vm_compute; reflexivity|].
  split_and!; [reflexivity..|discriminate].
Qed.

(** C4, amended: when a user message is appended as the first message of
    a chat whose title is still "New Chat", the title becomes the one the
    specification describes, computed from the text with its leading and
    trailing white space removed. "Hello. How are you?" gives "Hello.";
    a text of 80 characters that has no white space at either end and no
    terminator followed by white space gives its first 47 characters and
    "..."; the empty text leaves "New Chat". *)
Theorem title_derivation (B : Browser) :
  (∀ cm ls chatId i chat text t1 t2 fuel out,
     ChatManager.findChat chatId (ChatManager.chats cm) = Some (i, chat) →
     title chat = "New Chat" →
     messages chat = [] →
     ChatManager.addMessage B chatId user text t1 t2 fuel cm ls = Some out →
     ∃ c cm' ls',
       out = (Some c, cm', ls') ∧
       c ∈ ChatManager.chats cm' ∧
       id c = chatId ∧
       messages c = [{| role := user; content := text; msg_timestamp := t1 |}] ∧
       title c = Specified.title (Text.trim text)) ∧
  ChatManager.generateTitle "Hello. How are you?" = "Hello." ∧
  (∀ text,
     String.length text = 80 →
     Text.trim text = text →
     Text.search_sentence_end text = None →
     ChatManager.generateTitle text = substring 0 47 text +:+ "...") ∧
  ChatManager.generateTitle "" = "New Chat".
Proof.
  split_and!; [|reflexivity| |reflexivity].
  - intros cm ls chatId i chat text t1 t2 fuel out Hfind Htitle Hmessages.
    pose proof (findChat_Some _ _ _ _ Hfind) as [Hlookup Hid].
    unfold ChatManager.addMessage. rewrite Hfind.
    destruct (ChatManager.save B fuel _ ls) as [[cm' ls']|] eqn:Hsave; [|done].
    intros [= <-]. do 3 eexists. split; [reflexivity|].
    apply save_inv in Hsave as [Hchats _]. simpl in Hchats.
    unfold ChatManager.push_message at 2 3 4. rewrite Htitle, Hmessages. simpl.
    split_and!; [|done|done|apply generateTitle_trim].
    rewrite Hchats, sort_by_recency_perm.
    eapply list_elem_of_lookup_2, list_lookup_insert_eq.
    by eapply lookup_lt_Some.
  - intros text Hlen Htrim Hsearch.
    unfold ChatManager.generateTitle. rewrite Htrim, Hsearch, Hlen. simpl.
    by rewrite append_ellipsis_truthy.
Qed.

(** The first message of chat "1", "Hello. How are you?", titles it
    "Hello.". *)
Lemma title_derivation_witness :
  ∃ c cm' ls',
    ChatManager.addMessage (Sample.browser 100) "1" user "Hello. How are you?" 5 6 2
      Sample.two_chats ∅
    = Some (Some c, cm', ls') ∧
    title c = "Hello.".
Proof.
  destruct (title_derivation (Sample.browser 100)) as (Hadd & _ & _ & _).
  destruct (ChatManager.addMessage (Sample.browser 100) "1" user
              "Hello. How are you?" 5 6 2 Sample.two_chats ∅)
    as [out|] eqn:Hout; [|vm_compute in Hout; discriminate Hout].
  destruct (Hadd Sample.two_chats ∅ "1" 0 (Sample.chat 1)
              "Hello. How are you?" 5%Z 6%Z 2 out)
    as (c & cm' & ls' & -> & _ & _ & _ & Htitle);
    [vm_compute; reflexivity|reflexivity|reflexivity|exact Hout|].
  exists c, cm', ls'. split; [reflexivity|].
  rewrite Htitle. vm_compute. reflexivity.
Defined.


(** ** The streaming loop *)

Section Streaming.
Import StorageManager ChatManager Script.

Lemma string_app_assoc (a b c : string) : (a +:+ b) +:+ c = a +:+ (b +:+ c).
Proof.
  induction a as [|x a IH]; [done|].
  change (String x ((a +:+ b) +:+ c) = String x (a +:+ (b +:+ c))).
  by f_equal.
Qed.

Lemma string_app_empty_r (a : string) : a +:+ "" = a.
Proof.
  induction a as [|x a IH]; [done|].
  change (String x (a +:+ "") = String x a). by f_equal.
Qed.

Lemma startsWith_spec (s p : string) :
  Text.startsWith s p = true ↔ ∃ t, s = p +:+ t.
Proof.
  revert s. induction p as [|a p IH]; intros s.
  - split; [by exists s|by destruct s].
  - destruct s as [|b s]; [split; [done|by intros [t ?]]|].
    change (String b s = String a p +:+ ?t) with (String b s = String a (p +:+ t)).
    simpl. destruct (Ascii.eqb_spec a b) as [->|Hab].
    + rewrite IH. split; intros [t Ht]; exists t.
      * change (String b s = String b (p +:+ t)). by f_equal.
      * by injection Ht.
    + split; [done|]. intros [t Ht]. by injection Ht.
Qed.

Lemma slice_app (p t : string) : Text.slice (String.length p) (p +:+ t) = t.
Proof. induction p as [|a p IH]; [by destruct t|exact IH]. Qed.

Lemma newChunk_suffix (previous suffix : string) :
  newChunk previous (previous +:+ suffix) = suffix.
Proof.
  unfold newChunk.
  rewrite (proj2 (startsWith_spec _ _)) by eauto.
  apply slice_app.
Qed.

Variable P : Page.

(** When the loop completes, the sequence did not fail and the result
    is what was accumulated before followed by the deltas. *)
Lemma consume_Normal chunks end_ result previous r :
  consume P chunks end_ result previous = JS.Normal r →
  end_ = None ∧ r = result +:+ Text.join (deltas previous chunks).
Proof.
  revert result previous.
  induction chunks as [|chunk rest IH]; intros result previous; simpl.
  - destruct end_; [done|]. intros [= <-]. split; [done|].
    by rewrite string_app_empty_r.
  - destruct (render_error P _); [done|].
    intros [-> ->]%IH. split; [done|]. apply string_app_assoc.
Qed.


Lemma consume_completes chunks result previous :
  (∀ shown, render_error P shown = None) →
  consume P chunks None result previous
  = JS.Normal (result +:+ Text.join (deltas previous chunks)).
Proof.
  intros Hrender. revert result previous.
  induction chunks as [|chunk rest IH]; intros result previous; simpl.
  - by rewrite string_app_empty_r.
  - rewrite Hrender, IH. by rewrite string_app_assoc.
Qed.

(** An update of the bubble that throws at the first snapshot ends the
    loop there. *)
Lemma consume_first_update chunk rest end_ :
  is_Some (render_error P chunk) →
  ∃ e, consume P (chunk :: rest) end_ "" "" = JS.Throw e.
Proof.
  intros [e He]. exists e. cbn [consume].
  replace ("" +:+ newChunk "" chunk) with chunk; [by rewrite He|].
  by destruct chunk.
Qed.

Variable B : Browser.


Lemma streamResponse_aborted chatId created am stream fuel st e :
  consume P (snapshots stream) (failure stream) "" "" = JS.Throw e →
  streamResponse B P chatId created am stream fuel st = Some st.
Proof.
  intros Hconsume. unfold streamResponse. rewrite Hconsume.
  by destruct created, (session st).
Qed.

End Streaming.

(** C2: the delta of a snapshot that has the previous snapshot as a
    prefix is the suffix beyond it, and the delta of any other snapshot is
    the whole snapshot; a loop that reaches the end of the sequence
    returns the deltas put one after the other. The snapshots "Hi",
    "Hi there", "Hi there!" give the deltas "Hi", " there", "!", which
    add up to "Hi there!". But the loop also writes each accumulated text
    to [p.innerHTML], and the script binds no [p]: on a page where that
    update throws, the loop is left at the first snapshot and
    [promptModel] records no content; so it is for these three
    snapshots. *)
Theorem streaming_deltas (B : Browser) (P : Script.Page) :
  (∀ previous chunk,
     Text.startsWith chunk previous = true ↔ ∃ suffix, chunk = previous +:+ suffix) ∧
  (∀ previous suffix, Script.newChunk previous (previous +:+ suffix) = suffix) ∧
  (∀ previous chunk,
     Text.startsWith chunk previous = false → Script.newChunk previous chunk = chunk) ∧
  (∀ chunks end_ result,
     Script.consume P chunks end_ "" "" = JS.Normal result →
     result = Text.join (Script.deltas "" chunks)) ∧
  Script.deltas "" ["Hi"; "Hi there"; "Hi there!"] = ["Hi"; " there"; "!"] ∧
  Text.join ["Hi"; " there"; "!"] = "Hi there!" ∧
  ((∀ shown, is_Some (Script.render_error P shown)) →
   (∀ chunk rest end_,
      ∃ e, Script.consume P (chunk :: rest) end_ "" "" = JS.Throw e) ∧
   (∀ chatId created am stream fuel st chunk rest,
      Script.snapshots stream = chunk :: rest →
      Script.streamResponse B P chatId created am stream fuel st = Some st)) ∧
  Script.consume Sample.unbound_page ["Hi"; "Hi there"; "Hi there!"] None "" ""
  = JS.Throw (JS.Error "ReferenceError" "p is not defined") ∧
  (∀ fuel,
     Script.streamResponse B Sample.unbound_page "1" (JS.Normal ()) (Sample.at_time 9)
       {| Script.snapshots := ["Hi"; "Hi there"; "Hi there!"];
          Script.failure := None |}
       fuel Sample.live_state
     = Some Sample.live_state).
Proof.
  split_and!; [|exact newChunk_suffix| | |reflexivity|reflexivity| |reflexivity|].
  - intros previous chunk. apply startsWith_spec.
  - intros previous chunk H. unfold Script.newChunk. by rewrite H.
  - intros chunks end_ result H. by apply consume_Normal in H as [_ ->].
  - intros Hthrows. split.
    + intros chunk rest end_. by apply consume_first_update.
    + intros chatId created am stream fuel st chunk rest Hsnapshots.
      destruct (consume_first_update P chunk rest (Script.failure stream)
                  (Hthrows chunk)) as [e He].
      eapply streamResponse_aborted. rewrite Hsnapshots. exact He.
  - intros fuel. by eapply streamResponse_aborted.
Qed.

(** The three snapshots of the specification, streamed to chat "1" on the
    page as the script leaves it: the state is the one before the
    stream, with no answer in the chat. *)
Lemma streaming_deltas_witness :
  Script.streamResponse (Sample.browser 100) Sample.unbound_page "1" (JS.Normal ())
    (Sample.at_time 9)
    {| Script.snapshots := ["Hi"; "Hi there"; "Hi there!"]; Script.failure := None |}
    2 Sample.live_state
  = Some Sample.live_state ∧
  messages <$> ChatManager.chats (Script.chatManager Sample.live_state) = [[]].
Proof.
  destruct (streaming_deltas (Sample.browser 100) Sample.unbound_page)
    as (_ & _ & _ & _ & _ & _ & Hunbound & _).
  destruct Hunbound as [_ Hstream]; [intros shown; by eexists|].
  split; [|reflexivity].
  apply (Hstream "1" (JS.Normal ()) (Sample.at_time 9)
           {| Script.snapshots := ["Hi"; "Hi there"; "Hi there!"];
              Script.failure := None |}
           2 Sample.live_state "Hi" ["Hi there"; "Hi there!"]).
  reflexivity.
Defined.


(** ** The prompt *)

Section Prompt.
Import StorageManager ChatManager Script.
Variable B : Browser.

Lemma getActiveChat_chats cm : chats (snd (getActiveChat cm)) = chats cm.
Proof.
  unfold getActiveChat. simpl.
  destruct (falsy_id (activeChat cm)); [|done].
  by destruct (chats cm) eqn:Hchats.
Qed.

Lemma getActiveChat_Some cm j c cm' :
  getActiveChat cm = (Some (j, c), cm') →
  findChat (id c) (chats cm') = Some (j, c) ∧ chats cm' = chats cm.
Proof.
  intros H. pose proof (getActiveChat_chats cm) as Hchats.
  rewrite H in Hchats. simpl in Hchats. split; [|done].
  unfold getActiveChat in H. cbv zeta in H. injection H as H1 H2.
  rewrite H2 in H1.
  destruct (falsy_id (activeChat cm')); [done|].
  destruct (activeChat cm') as [a|]; [|done]. simpl in H1.
  pose proof (findChat_Some _ _ _ _ H1) as [_ ->]. done.
Qed.


Lemma addMessage_found chatId r text t1 t2 fuel cm ls i chat out :
  findChat chatId (chats cm) = Some (i, chat) →
  addMessage B chatId r text t1 t2 fuel cm ls = Some out →
  ∃ cm' ls',
    out = (Some (push_message r text t1 t2 chat), cm', ls') ∧
    chats cm' = sort_by_recency (<[i := push_message r text t1 t2 chat]> (chats cm)) ∧
    push_message r text t1 t2 chat ∈ chats cm'.
Proof.
  intros Hfind. unfold addMessage. rewrite Hfind.
  destruct (save B fuel _ ls) as [[cm' ls']|] eqn:Hsave; [|done].
  intros [= <-]. exists cm', ls'. split; [done|].
  apply save_inv in Hsave as [-> _]. simpl. split; [done|].
  rewrite sort_by_recency_perm.
  eapply list_elem_of_lookup_2, list_lookup_insert_eq.
  apply findChat_Some in Hfind as [Hfind _]. by eapply lookup_lt_Some.
Qed.


End Prompt.



(** ** The session *)

Local Open Scope list_scope.

Section Session.
Import StorageManager ChatManager Script.

(** A call of [updateSession] that reaches the host and succeeds. *)
Lemma updateSession_creates st :
  available (model st) = true →
  ∃ st' o,
    updateSession None st = (JS.Normal (), st') ∧
    session st' = Some (next_handle (model st)) ∧
    events (model st') = events (model st) ++ [Created (next_handle (model st)) o] ∧
    live (model st') = {[next_handle (model st)]} ∪ live (model st) ∧
    next_handle (model st') = S (next_handle (model st)) ∧
    chats (chatManager st') = chats (chatManager st) ∧
    storage st' = storage st.
Proof.
  intros Havailable. unfold updateSession. rewrite Havailable.
  pose proof (getActiveChat_chats (chatManager st)) as Hchats.
  destruct (getActiveChat (chatManager st)) as [active cm]. simpl in *.
  do 2 eexists. split; [reflexivity|]. simpl. by split_and!.
Qed.

Lemma or_else_truthy a d : JS.truthy d = true → JS.truthy (JS.or_else a d) = true.
Proof.
  intros Hd. destruct a as [n|]; simpl; [|done].
  by destruct (JS.truthy n) eqn:Hn.
Qed.

(** With a pointer that is set, [getActiveChat] leaves the instance as
    it is. *)
Lemma getActiveChat_set cm :
  falsy_id (activeChat cm) = false → snd (getActiveChat cm) = cm.
Proof. unfold getActiveChat. simpl. by intros ->. Qed.

(** What a call of [updateSession] that is not awaited has done when the
    caller goes on: nothing but the request, and the pointer of
    [getActiveChat]. *)
Lemma requestSession_inv outcome st :
  session (requestSession outcome st) = session st ∧
  sessionTemperature (requestSession outcome st) = sessionTemperature st ∧
  sessionTopK (requestSession outcome st) = sessionTopK st ∧
  chats (chatManager (requestSession outcome st)) = chats (chatManager st) ∧
  storage (requestSession outcome st) = storage st ∧
  (falsy_id (activeChat (chatManager st)) = false →
   activeChat (chatManager (requestSession outcome st))
   = activeChat (chatManager st)) ∧
  ((model (requestSession outcome st) = model st ∧
    pending (requestSession outcome st) = pending st ∧
    (available (model st) = false ∨ is_Some outcome))
   ∨ ∃ o,
       available (model st) = true ∧ outcome = None ∧
       pending (requestSession outcome st) = pending st ++ [next_handle (model st)] ∧
       events (model (requestSession outcome st))
       = events (model st) ++ [Created (next_handle (model st)) o] ∧
       live (model (requestSession outcome st))
       = {[next_handle (model st)]} ∪ live (model st) ∧
       JS.truthy (opt_temperature o) = true ∧
       JS.truthy (opt_topK o) = true ∧
       (JS.truthy (sessionTemperature st) = true →
        opt_temperature o = sessionTemperature st) ∧
       (JS.truthy (sessionTopK st) = true → opt_topK o = sessionTopK st)).
Proof.
  unfold requestSession. destruct (available (model st)) eqn:Havailable.
  - pose proof (getActiveChat_chats (chatManager st)) as Hchats.
    pose proof (getActiveChat_set (chatManager st)) as Hset.
    destruct (getActiveChat (chatManager st)) as [active cm].
    simpl in Hchats, Hset.
    destruct outcome as [e|]; simpl.
    + split_and!; [done..| |left; by eauto]. intros Hpointer. by rewrite Hset.
    + split_and!; [done..| |]; [intros Hpointer; by rewrite Hset|].
      right. eexists. split_and!; try reflexivity; simpl.
      * destruct (JS.truthy (sessionTemperature st)) eqn:Ht; [done|].
        by apply or_else_truthy.
      * destruct (JS.truthy (sessionTopK st)) eqn:Hk; [done|].
        by apply or_else_truthy.
      * by intros ->.
      * by intros ->.
  - split_and!; [done..|left; by eauto].
Qed.

(** [session?.destroy(); session = null] followed by a request: the
    handle held goes, the new one comes, the others stay. *)
Lemma request_after_destroy st0 st2 :
  session st2 = None →
  model st2 = destroy (session st0) (model st0) →
  pending st2 = pending st0 →
  available (model st0) = true →
  ∃ o,
    session (requestSession None st2) = None ∧
    pending (requestSession None st2) = pending st0 ++ [next_handle (model st0)] ∧
    events (model (requestSession None st2))
    = events (model st0) ++ destroy_events (session st0)
        ++ [Created (next_handle (model st0)) o] ∧
    live (model (requestSession None st2))
    = {[next_handle (model st0)]} ∪ (live (model st0) ∖ held (session st0)) ∧
    (JS.truthy (sessionTemperature st2) = true →
     opt_temperature o = sessionTemperature st2) ∧
    (JS.truthy (sessionTopK st2) = true → opt_topK o = sessionTopK st2).
Proof.
  intros Hsession Hmodel Hpending Havailable.
  destruct (requestSession_inv None st2)
    as (Hs & _ & _ & _ & _ & _
        & [(_ & _ & [Hoff|[e He]])|(o & _ & _ & Hp & He & Hl & _ & _ & Hot & Hok)]).
  - rewrite Hmodel in Hoff. destruct (session st0); simpl in Hoff; congruence.
  - discriminate He.
  - exists o. rewrite Hs, Hp, He, Hl, Hmodel, Hpending.
    split_and!; [done| | | |done|done];
      destruct (session st0) as [h|]; simpl; try done.
    + by rewrite <- app_assoc.
    + by rewrite difference_empty_L.
Qed.




Section Switch.
Variable B : Browser.
Variable P : Page.

Lemma loadChat_session st chatId chat :
  getChat chatId (chatManager st) = Some chat →
  available (model st) = true →
  ∃ o,
    session (loadChat B P chatId None st) = None ∧
    pending (loadChat B P chatId None st) = pending st ++ [next_handle (model st)] ∧
    events (model (loadChat B P chatId None st))
    = events (model st) ++ destroy_events (session st)
        ++ [Created (next_handle (model st)) o] ∧
    live (model (loadChat B P chatId None st))
    = {[next_handle (model st)]} ∪ (live (model st) ∖ held (session st)) ∧
    (JS.truthy (temperature_control P (temperature (settings chat))) = true →
     opt_temperature o = temperature_control P (temperature (settings chat))) ∧
    (JS.truthy (topK_control P (topK (settings chat))) = true →
     opt_topK o = topK_control P (topK (settings chat))).
Proof.
  intros Hchat Havailable. unfold loadChat. rewrite Hchat.
  unfold setActiveChat. rewrite Hchat.
  match goal with
  | |- context [requestSession None ?st3] =>
      destruct (request_after_destroy st st3) as (o & H); [done..|]
  end.
  by exists o.
Qed.

Lemma createNewChat_session i fuel st st' :
  Script.createNewChat B i None fuel st = Some st' →
  available (model st) = true →
  ∃ o,
    session st' = None ∧
    pending st' = pending st ++ [next_handle (model st)] ∧
    events (model st')
    = events (model st) ++ destroy_events (session st)
        ++ [Created (next_handle (model st)) o] ∧
    live (model st')
    = {[next_handle (model st)]} ∪ (live (model st) ∖ held (session st)).
Proof.
  unfold Script.createNewChat.
  destruct (getActiveChat (chatManager st)) as [active cm].
  destruct (ChatManager.createNewChat B _ _ _ _ fuel cm (storage st))
    as [[[c cm'] ls']|]; [|done].
  simpl. intros [= <-] Havailable.
  match goal with
  | |- context [requestSession None ?st2] =>
      destruct (request_after_destroy st st2) as (o & ? & ? & ? & ? & _); [done..|]
  end.
  by exists o.
Qed.

End Switch.

End Session.





(** * Further properties of the code *)

(** ** storageManager.js *)

Section StoreMore.
Import StorageManager.
Variable B : Browser.

(** A save that returns [true] wrote the 50 most recent chats. *)
Lemma saveChatHistory_true fuel chats ls chats' ls' :
  saveChatHistory B fuel chats ls = Some (true, chats', ls') →
  ls' = <[CHAT_HISTORY := JSON_stringify B (take MAX_CHATS (sort_by_recency chats))]> ls.
Proof.
  destruct fuel as [|fuel]; [done|]. rewrite saveChatHistory_step. unfold setItem.
  destruct (setItem_error B ls CHAT_HISTORY _); [|by intros [= _ <-]].
  destruct (String.eqb _ _); [|done].
  by destruct (saveChatHistory B fuel _ ls) as [[[? ?] ?]|].
Qed.

(** [saveChatHistory] touches no key but the one of the history. *)
Lemma saveChatHistory_other_keys fuel chats ls r chats' ls' key :
  saveChatHistory B fuel chats ls = Some (r, chats', ls') →
  key ≠ CHAT_HISTORY → ls' !! key = ls !! key.
Proof.
  intros [->|[[_ ->]|[_ ->]]]%saveChatHistory_writes Hkey; [done|..];
    by rewrite lookup_insert_ne.
Qed.

End StoreMore.

(** X1: [saveActiveChat] never throws. When the write fails the storage
    area is left as it was; when it succeeds only the key of the active
    chat changes, and [loadActiveChat] reads the id back. When the read
    fails, [loadActiveChat] answers [null]. *)
Theorem active_chat_round_trip (B : Browser) (ls : localStorage) (chatId : string) :
  (∀ e, setItem_error B ls StorageManager.ACTIVE_CHAT chatId = Some e →
        StorageManager.saveActiveChat B chatId ls = ls) ∧
  (setItem_error B ls StorageManager.ACTIVE_CHAT chatId = None →
   (∀ key, key ≠ StorageManager.ACTIVE_CHAT →
           StorageManager.saveActiveChat B chatId ls !! key = ls !! key) ∧
   (getItem_error B (StorageManager.saveActiveChat B chatId ls)
      StorageManager.ACTIVE_CHAT = None →
    StorageManager.loadActiveChat B (StorageManager.saveActiveChat B chatId ls)
    = Some chatId)) ∧
  (∀ ls0 e, getItem_error B ls0 StorageManager.ACTIVE_CHAT = Some e →
            StorageManager.loadActiveChat B ls0 = None).
Proof.
  unfold StorageManager.saveActiveChat, StorageManager.loadActiveChat,
    StorageManager.setItem, StorageManager.getItem.
  split_and!.
  - by intros e ->.
  - intros ->. simpl. split.
    + intros key Hkey. by rewrite lookup_insert_ne.
    + intros ->. simpl. by rewrite lookup_insert_eq.
  - by intros ls0 e ->.
Qed.

Lemma active_chat_round_trip_witness :
  StorageManager.loadActiveChat (Sample.browser 100)
    (StorageManager.saveActiveChat (Sample.browser 100) "chat-1" Sample.stored)
  = Some "chat-1".
Proof.
  destruct (active_chat_round_trip (Sample.browser 100) Sample.stored "chat-1")
    as (_ & Hsaved & _).
  destruct Hsaved as [_ Hload]; [reflexivity|].
  apply Hload. reflexivity.
Defined.

(** X2: after a [saveChatHistory] that returned [true], [loadChatHistory]
    returns what [JSON.parse] makes of the serialisation of the 50 most
    recent chats, most recent first, whatever was given to the save. *)
Theorem saved_history_reloads (B : Browser) (fuel : nat) (chats chats' : list Chat)
    (ls ls' : localStorage) (v : JS.json) :
  StorageManager.saveChatHistory B fuel chats ls = Some (true, chats', ls') →
  getItem_error B ls' StorageManager.CHAT_HISTORY = None →
  JSON_stringify B (take 50 (StorageManager.sort_by_recency chats)) ≠ "" →
  JSON_parse B (JSON_stringify B (take 50 (StorageManager.sort_by_recency chats)))
  = Some v →
  StorageManager.loadChatHistory B ls' = JS.Normal v.
Proof.
  intros Hsave Hread Hnonempty Hparse.
  apply saveChatHistory_true in Hsave as ->.
  unfold StorageManager.loadChatHistory, StorageManager.getItem, StorageManager.parse.
  rewrite Hread. simpl. rewrite lookup_insert_eq.
  change StorageManager.MAX_CHATS with 50.
  destruct (JSON_stringify B _) as [|c d]; [done|]. simpl. by rewrite Hparse.
Qed.

(** Sixty chats saved, the most recent one last, and loaded again: the
    ids of the fifty most recent come back, most recent first. *)
Lemma saved_history_reloads_witness :
  ∃ ls',
    StorageManager.saveChatHistory Sample.listing_browser 1 Sample.sixty_chats ∅
    = Some (true, StorageManager.sort_by_recency Sample.sixty_chats, ls') ∧
    StorageManager.loadChatHistory Sample.listing_browser ls'
    = JS.Normal (JS.JArray ((λ n, JS.JString (pretty n)) <$> reverse (seq 10 50))).
Proof.
  assert (fst <$> StorageManager.saveChatHistory Sample.listing_browser 1
                    Sample.sixty_chats ∅
          = Some (true, StorageManager.sort_by_recency Sample.sixty_chats))
    as Hreturns by (vm_compute; reflexivity).
  destruct (StorageManager.saveChatHistory Sample.listing_browser 1
              Sample.sixty_chats ∅) as [[[r chats'] ls']|] eqn:Hsave;
    [|discriminate Hreturns].
  injection Hreturns as -> ->.
  exists ls'. split; [reflexivity|].
  apply (saved_history_reloads Sample.listing_browser 1 Sample.sixty_chats
           (StorageManager.sort_by_recency Sample.sixty_chats) ∅ ls');
    [exact Hsave|reflexivity|vm_compute; discriminate|vm_compute; reflexivity].
Defined.

(** X3: [clearAll] removes the three keys of the application and nothing
    else, and returns [true]; the loaders then answer the empty list, the
    default interface state and no active chat. When a removal throws,
    [clearAll] returns [false] and the keys removed before it stay
    removed: a failure on the first key leaves the storage area as it
    was, a failure on the second leaves it without the chat history. *)
Theorem clearAll_behaviour (B : Browser)
    (removeItem_error : localStorage → string → option JS.error)
    (ls : localStorage) :
  ((∀ ls0 key, removeItem_error ls0 key = None) →
   ∃ ls',
     StorageManager.clearAll removeItem_error ls = (true, ls') ∧
     ls' !! StorageManager.CHAT_HISTORY = None ∧
     ls' !! StorageManager.UI_STATE = None ∧
     ls' !! StorageManager.ACTIVE_CHAT = None ∧
     (∀ key, key ≠ StorageManager.CHAT_HISTORY → key ≠ StorageManager.UI_STATE →
             key ≠ StorageManager.ACTIVE_CHAT → ls' !! key = ls !! key) ∧
     StorageManager.loadChatHistory B ls' = JS.Normal (JS.JArray []) ∧
     StorageManager.loadUIState B ls' = JS.Normal StorageManager.default_ui_state ∧
     StorageManager.loadActiveChat B ls' = None) ∧
  (∀ e, removeItem_error ls StorageManager.CHAT_HISTORY = Some e →
        StorageManager.clearAll removeItem_error ls = (false, ls)) ∧
  (∀ e, removeItem_error ls StorageManager.CHAT_HISTORY = None →
        removeItem_error (delete StorageManager.CHAT_HISTORY ls)
          StorageManager.UI_STATE = Some e →
        StorageManager.clearAll removeItem_error ls
        = (false, delete StorageManager.CHAT_HISTORY ls)).
Proof.
  split_and!.
  - intros Hok.
    exists (delete StorageManager.ACTIVE_CHAT
              (delete StorageManager.UI_STATE
                 (delete StorageManager.CHAT_HISTORY ls))).
    assert (Hch : delete StorageManager.ACTIVE_CHAT
                    (delete StorageManager.UI_STATE
                       (delete StorageManager.CHAT_HISTORY ls))
                  !! StorageManager.CHAT_HISTORY = None).
    { rewrite !lookup_delete_ne by done. apply lookup_delete_eq. }
    assert (Hui : delete StorageManager.ACTIVE_CHAT
                    (delete StorageManager.UI_STATE
                       (delete StorageManager.CHAT_HISTORY ls))
                  !! StorageManager.UI_STATE = None).
    { rewrite lookup_delete_ne by done. apply lookup_delete_eq. }
    split_and!.
    + unfold StorageManager.clearAll. simpl. by rewrite !Hok.
    + exact Hch.
    + exact Hui.
    + apply lookup_delete_eq.
    + intros key H1 H2 H3. by rewrite !lookup_delete_ne.
    + unfold StorageManager.loadChatHistory, StorageManager.getItem.
      destruct (getItem_error B _ _); [done|]. simpl. by rewrite Hch.
    + unfold StorageManager.loadUIState, StorageManager.getItem.
      destruct (getItem_error B _ _); [done|]. simpl. by rewrite Hui.
    + unfold StorageManager.loadActiveChat, StorageManager.getItem.
      destruct (getItem_error B _ _); [done|]. simpl. apply lookup_delete_eq.
  - intros e He. unfold StorageManager.clearAll. simpl. by rewrite He.
  - intros e H1 H2. unfold StorageManager.clearAll. simpl. by rewrite H1, H2.
Qed.

(** Clearing a storage area that also holds a foreign key, and clearing
    one that refuses to give up the interface state. *)
Lemma clearAll_behaviour_witness :
  (∃ ls',
     StorageManager.clearAll Sample.removal_ok Sample.stored = (true, ls') ∧
     ls' !! StorageManager.CHAT_HISTORY = None ∧
     ls' !! "theme" = Some "dark") ∧
  StorageManager.clearAll Sample.removal_stuck Sample.stored
  = (false, delete StorageManager.CHAT_HISTORY Sample.stored).
Proof.
  destruct (clearAll_behaviour (Sample.browser 100) Sample.removal_ok Sample.stored)
    as (Hok & _ & _).
  destruct (clearAll_behaviour (Sample.browser 100) Sample.removal_stuck Sample.stored)
    as (_ & _ & Hstuck).
  split.
  - destruct Hok as (ls' & Hclear & Hhistory & _ & _ & Hother & _); [reflexivity|].
    exists ls'. split; [exact Hclear|]. split; [exact Hhistory|].
    rewrite Hother by discriminate. reflexivity.
  - apply (Hstuck (JS.Error "SecurityError" "denied")); reflexivity.
Defined.


(** ** chatManager.js *)

Section RepositoryMore.
Import StorageManager ChatManager.
Variable B : Browser.

Lemma getChat_findChat chatId cm chat :
  getChat chatId cm = Some chat ↔ ∃ i, findChat chatId (chats cm) = Some (i, chat).
Proof.
  unfold getChat. destruct (findChat chatId (chats cm)) as [[i c]|]; simpl.
  - split; [intros [= <-]; by exists i|by intros [j [= _ <-]]].
  - split; [done|by intros [j ?]].
Qed.

(** Replacing a chat by one with the same id leaves the ids in place. *)
Lemma ids_insert (l : list Chat) i chat c :
  l !! i = Some chat → id c = id chat → id <$> <[i := c]> l = id <$> l.
Proof.
  intros Hlookup Hid. rewrite list_fmap_insert, Hid.
  apply list_insert_id. by rewrite list_lookup_fmap, Hlookup.
Qed.

(** A chat at least as recent as all the others is sorted to the front,
    also among chats of its own timestamp. *)
Lemma insert_by_recency_front c l :
  (∀ d, d ∈ l → (timestamp d ≤ timestamp c)%Z) → insert_by_recency c l = c :: l.
Proof.
  destruct l as [|d l]; [done|]. intros Hall. simpl.
  destruct (Z.leb_spec (timestamp d) (timestamp c)) as [_|Hlt]; [done|].
  specialize (Hall d (list_elem_of_here _ _)). lia.
Qed.

(** What [save] leaves under the key of the active chat. *)
Lemma save_pointer fuel cm ls cm' ls' :
  save B fuel cm ls = Some (cm', ls') →
  match activeChat cm with
  | Some a =>
      JS.truthy_string a = true →
      (∀ ls0, setItem_error B ls0 ACTIVE_CHAT a = None) →
      ls' !! ACTIVE_CHAT = Some a
  | None => ls' !! ACTIVE_CHAT = ls !! ACTIVE_CHAT
  end.
Proof.
  unfold save.
  destruct (saveChatHistory B fuel (chats cm) ls) as [[[r c1] ls1]|] eqn:Hs; [|done].
  intros [= <- <-].
  destruct (activeChat cm) as [a|].
  - intros -> Hwrite. unfold saveActiveChat, setItem. rewrite Hwrite. simpl.
    apply lookup_insert_eq.
  - by eapply saveChatHistory_other_keys.
Qed.

End RepositoryMore.

(** X4: an id that no chat of the collection carries is answered with an
    absence and changes nothing: [getChat] and [exportChatAsMarkdown]
    find nothing, [addMessage] and [updateChatTitle] return [null]
    without saving, [setActiveChat] returns [false], and the script's
    [loadChat] leaves chats, storage, controls and session as they were. *)
Theorem missing_chat_untouched (B : Browser) (P : Script.Page)
    (toLocaleString : Z → string) (fuel : nat)
    (cm : ChatManager.t) (ls : localStorage) (chatId : string) :
  (∀ c, c ∈ ChatManager.chats cm → id c ≠ chatId) →
  ChatManager.getChat chatId cm = None ∧
  ChatManager.exportChatAsMarkdown toLocaleString chatId cm = None ∧
  (∀ r text t1 t2,
     ChatManager.addMessage B chatId r text t1 t2 fuel cm ls = Some (None, cm, ls)) ∧
  (∀ title' now,
     ChatManager.updateChatTitle B chatId title' now fuel cm ls = Some (None, cm, ls)) ∧
  ChatManager.setActiveChat B (Some chatId) cm ls = (false, cm, ls) ∧
  (∀ outcome st,
     Script.chatManager st = cm → Script.loadChat B P chatId outcome st = st).
Proof.
  intros Hnone.
  apply (findChat_None chatId (ChatManager.chats cm)) in Hnone.
  assert (Hget : ChatManager.getChat chatId cm = None).
  { unfold ChatManager.getChat. by rewrite Hnone. }
  split_and!.
  - done.
  - unfold ChatManager.exportChatAsMarkdown. by rewrite Hget.
  - intros r text t1 t2. unfold ChatManager.addMessage. by rewrite Hnone.
  - intros title' now. unfold ChatManager.updateChatTitle. by rewrite Hnone.
  - unfold ChatManager.setActiveChat. by rewrite Hget.
  - intros outcome st <-. unfold Script.loadChat. by rewrite Hget.
Qed.

Lemma missing_chat_untouched_witness :
  ChatManager.addMessage (Sample.browser 100) "7" user "hello" 5 5 0 Sample.two_chats ∅
  = Some (None, Sample.two_chats, ∅) ∧
  Script.loadChat (Sample.browser 100) Sample.page "7" None Sample.live_state
  = Sample.live_state.
Proof.
  split.
  - destruct (missing_chat_untouched (Sample.browser 100) Sample.page pretty 0
                Sample.two_chats ∅ "7") as (_ & _ & Hadd & _).
    + intros c Hc. apply list_elem_of_In in Hc. simpl in Hc.
      destruct Hc as [<-|[<-|[]]]; vm_compute; discriminate.
    + apply Hadd.
  - destruct (missing_chat_untouched (Sample.browser 100) Sample.page pretty 0
                (Script.chatManager Sample.live_state) ∅ "7")
      as (_ & _ & _ & _ & _ & Hload).
    + intros c Hc. apply list_elem_of_In in Hc. simpl in Hc.
      destruct Hc as [<-|[]]; vm_compute; discriminate.
    + by apply Hload.
Defined.

(** X5: [addMessage] on a chat of the collection appends the message
    after the messages the chat had, keeps its id and settings, stamps it
    with the time of the call, and leaves every other chat and the active
    pointer as they were. The title changes only when the chat was
    untitled and empty and the message is a user message; it is then the
    generated title. *)
Theorem addMessage_appends (B : Browser) (chatId : string) (r : Role) (text : string)
    (t1 t2 : Z) (fuel : nat) (cm cm' : ChatManager.t) (ls ls' : localStorage)
    (i : nat) (chat c : Chat) :
  ChatManager.findChat chatId (ChatManager.chats cm) = Some (i, chat) →
  ChatManager.addMessage B chatId r text t1 t2 fuel cm ls = Some (Some c, cm', ls') →
  messages c = messages chat ++ [{| role := r; content := text; msg_timestamp := t1 |}] ∧
  id c = id chat ∧
  settings c = settings chat ∧
  timestamp c = t2 ∧
  c ∈ ChatManager.chats cm' ∧
  ChatManager.chats cm' ≡ₚ <[i := c]> (ChatManager.chats cm) ∧
  ChatManager.activeChat cm' = ChatManager.activeChat cm ∧
  (title c ≠ title chat →
   title chat = "New Chat" ∧ r = user ∧ messages chat = [] ∧
   title c = ChatManager.generateTitle text).
Proof.
  intros Hfind. unfold ChatManager.addMessage. rewrite Hfind.
  case_save Hsave. intros [= <- <- <-].
  apply save_inv in Hsave as [Hchats Hactive]. simpl in Hchats, Hactive.
  split_and!; [done..| | |done|].
  - rewrite Hchats, sort_by_recency_perm.
    eapply list_elem_of_lookup_2, list_lookup_insert_eq.
    apply findChat_Some in Hfind as [Hfind _]. by eapply lookup_lt_Some.
  - by rewrite Hchats, sort_by_recency_perm.
  - unfold ChatManager.push_message. simpl.
    destruct (String.eqb_spec (title chat) "New Chat") as [Htitle|]; [|done].
    destruct r; simpl; [|done].
    destruct (messages chat) as [|m [|m' l]]; simpl; done.
Qed.

Lemma addMessage_appends_witness :
  ∃ c cm' ls',
    ChatManager.addMessage (Sample.browser 100) "a" user "And dessert?" 8 9 1
      Sample.three_chats ∅ = Some (Some c, cm', ls') ∧
    length (messages c) = 3 ∧
    timestamp c = 9%Z.
Proof.
  assert (ChatManager.findChat "a" (ChatManager.chats Sample.three_chats)
          = Some (0%nat, Sample.answered_chat)) as Hfind by reflexivity.
  assert (is_Some (fst <$> ChatManager.addMessage (Sample.browser 100) "a" user
                             "And dessert?" 8 9 1 Sample.three_chats ∅))
    as Hreturns by (vm_compute; eexists; reflexivity).
  destruct (ChatManager.addMessage (Sample.browser 100) "a" user "And dessert?" 8 9 1
              Sample.three_chats ∅) as [out|] eqn:Hadd; [|by destruct Hreturns].
  destruct (addMessage_found _ _ _ _ _ _ _ _ _ _ _ _ Hfind Hadd)
    as (cm' & ls' & -> & _).
  eexists _, cm', ls'. split; [reflexivity|].
  destruct (addMessage_appends (Sample.browser 100) "a" user "And dessert?" 8 9 1
              Sample.three_chats cm' ∅ ls' 0 Sample.answered_chat
              (ChatManager.push_message user "And dessert?" 8 9 Sample.answered_chat))
    as (Hmessages & _ & _ & Htime & _);
    [exact Hfind|exact Hadd|].
  split; [by rewrite Hmessages|exact Htime].
Defined.

(** X6: the operations keep the ids of the collection apart. [addMessage]
    and [updateChatTitle] leave the ids as they are, [deleteChat] takes
    away one occurrence of the id it was given, and [createNewChat] adds
    the id of the new chat; so ids that were pairwise different stay so,
    provided the id drawn for a new chat is not in use. *)
Theorem ids_stay_unique (B : Browser) (fuel : nat) (cm cm' : ChatManager.t)
    (ls ls' : localStorage) :
  (∀ chatId r text t1 t2 c,
     ChatManager.addMessage B chatId r text t1 t2 fuel cm ls = Some (c, cm', ls') →
     id <$> ChatManager.chats cm' ≡ₚ id <$> ChatManager.chats cm) ∧
  (∀ chatId title' now c,
     ChatManager.updateChatTitle B chatId title' now fuel cm ls = Some (c, cm', ls') →
     id <$> ChatManager.chats cm' ≡ₚ id <$> ChatManager.chats cm) ∧
  (∀ chatId,
     ChatManager.deleteChat B chatId fuel cm ls = Some (true, cm', ls') →
     id <$> ChatManager.chats cm ≡ₚ chatId :: (id <$> ChatManager.chats cm')) ∧
  (∀ arg now_id random now_timestamp c,
     ChatManager.createNewChat B arg now_id random now_timestamp fuel cm ls
     = Some (c, cm', ls') →
     id c = "chat-" +:+ pretty now_id +:+ "-" +:+ random ∧
     id <$> ChatManager.chats cm' ≡ₚ id c :: (id <$> ChatManager.chats cm) ∧
     (NoDup (id <$> ChatManager.chats cm) →
      id c ∉ id <$> ChatManager.chats cm →
      NoDup (id <$> ChatManager.chats cm'))).
Proof.
  split_and!.
  - intros chatId r text t1 t2 c. unfold ChatManager.addMessage.
    destruct (ChatManager.findChat chatId _) as [[i chat]|] eqn:Hfind;
      [|by intros [= _ <- _]].
    case_save Hsave. intros [= _ <- _].
    apply save_inv in Hsave as [-> _]. simpl.
    rewrite sort_by_recency_perm.
    apply findChat_Some in Hfind as [Hfind _].
    by rewrite (ids_insert _ _ _ _ Hfind).
  - intros chatId title' now c. unfold ChatManager.updateChatTitle.
    destruct (ChatManager.findChat chatId _) as [[i chat]|] eqn:Hfind;
      [|by intros [= _ <- _]].
    case_save Hsave. intros [= _ <- _].
    apply save_inv in Hsave as [-> _]. simpl.
    rewrite sort_by_recency_perm.
    apply findChat_Some in Hfind as [Hfind _].
    by rewrite (ids_insert _ _ _ _ Hfind).
  - intros chatId. unfold ChatManager.deleteChat.
    destruct (ChatManager.findChat chatId _) as [[i chat]|] eqn:Hfind; [|done].
    case_save Hsave. intros [= <- _].
    apply save_inv in Hsave as [-> _]. simpl.
    apply findChat_Some in Hfind as [Hfind <-].
    rewrite sort_by_recency_perm.
    by rewrite (delete_Permutation _ _ _ Hfind) at 1.
  - intros arg now_id random now_timestamp c. unfold ChatManager.createNewChat.
    case_save Hsave. intros [= <- <- _].
    apply save_inv in Hsave as [-> _]. simpl.
    assert (Hperm : id <$> StorageManager.sort_by_recency
                             (ChatManager.new_chat arg now_id random now_timestamp
                              :: ChatManager.chats cm)
                    ≡ₚ id (ChatManager.new_chat arg now_id random now_timestamp)
                       :: (id <$> ChatManager.chats cm)).
    { by rewrite sort_by_recency_perm. }
    split; [done|]. split; [exact Hperm|].
    intros Hnodup Hfresh. rewrite Hperm. by apply NoDup_cons.
Qed.

Lemma ids_stay_unique_witness :
  ∃ c cm' ls',
    ChatManager.createNewChat (Sample.browser 100)
      {| ChatManager.arg_temperature := None; ChatManager.arg_topK := None |}
      100 "k3j9x0q2a" 100 1 Sample.two_chats ∅ = Some (c, cm', ls') ∧
    NoDup (id <$> ChatManager.chats cm').
Proof.
  assert (is_Some (fst <$> ChatManager.createNewChat (Sample.browser 100)
                             {| ChatManager.arg_temperature := None;
                                ChatManager.arg_topK := None |}
                             100 "k3j9x0q2a" 100 1 Sample.two_chats ∅))
    as Hreturns by (vm_compute; eexists; reflexivity).
  destruct (ChatManager.createNewChat (Sample.browser 100)
              {| ChatManager.arg_temperature := None; ChatManager.arg_topK := None |}
              100 "k3j9x0q2a" 100 1 Sample.two_chats ∅)
    as [[[c cm'] ls']|] eqn:Hnew; [|by destruct Hreturns].
  exists c, cm', ls'. split; [reflexivity|].
  destruct (ids_stay_unique (Sample.browser 100) 1 Sample.two_chats cm' ∅ ls')
    as (_ & _ & _ & Hcreate).
  destruct (Hcreate _ _ _ _ _ Hnew) as (Hid & _ & Hnodup).
  apply Hnodup.
  - apply (bool_decide_unpack _). vm_compute. exact I.
  - rewrite Hid. apply (bool_decide_unpack _). vm_compute. exact I.
Defined.


(** X7: [createNewChat] returns an untitled chat without messages,
    stamped with the time of the call, which becomes the active chat and
    joins the chats there were. When no chat is more recent than the time
    of the call, the new chat is the first of the collection, followed by
    the others in recency order. When the storage area takes the write,
    the id stored for the active chat is the new one. *)
Theorem createNewChat_activates (B : Browser) (arg : ChatManager.NewChatSettings)
    (now_id : Z) (random : string) (now_timestamp : Z) (fuel : nat)
    (cm cm' : ChatManager.t) (ls ls' : localStorage) (c : Chat) :
  ChatManager.createNewChat B arg now_id random now_timestamp fuel cm ls
  = Some (c, cm', ls') →
  title c = "New Chat" ∧ messages c = [] ∧ timestamp c = now_timestamp ∧
  ChatManager.activeChat cm' = Some (id c) ∧
  ChatManager.chats cm' ≡ₚ c :: ChatManager.chats cm ∧
  ((∀ d, d ∈ ChatManager.chats cm → (timestamp d ≤ now_timestamp)%Z) →
   ChatManager.chats cm' = c :: StorageManager.sort_by_recency (ChatManager.chats cm)) ∧
  ((∀ ls0, setItem_error B ls0 StorageManager.ACTIVE_CHAT (id c) = None) →
   ls' !! StorageManager.ACTIVE_CHAT = Some (id c)).
Proof.
  unfold ChatManager.createNewChat. case_save Hsave. intros [= <- <- <-].
  pose proof (save_pointer B _ _ _ _ _ Hsave) as Hpointer.
  apply save_inv in Hsave as [Hchats Hactive]. simpl in Hchats, Hactive, Hpointer.
  split_and!; [done..| | |].
  - by rewrite Hchats, sort_by_recency_perm.
  - intros Hrecent. rewrite Hchats, sort_by_recency_cons.
    apply insert_by_recency_front. intros d Hd.
    rewrite sort_by_recency_perm in Hd. by apply Hrecent.
  - intros Hwrite. by apply Hpointer.
Qed.

Lemma createNewChat_activates_witness :
  ∃ c cm' ls',
    ChatManager.createNewChat (Sample.browser 100)
      {| ChatManager.arg_temperature := None; ChatManager.arg_topK := None |}
      100 "k3j9x0q2a" 100 1 Sample.two_chats ∅ = Some (c, cm', ls') ∧
    ChatManager.chats cm' = [c; Sample.chat 2; Sample.chat 1] ∧
    ls' !! StorageManager.ACTIVE_CHAT = Some (id c).
Proof.
  assert (is_Some (fst <$> ChatManager.createNewChat (Sample.browser 100)
                             {| ChatManager.arg_temperature := None;
                                ChatManager.arg_topK := None |}
                             100 "k3j9x0q2a" 100 1 Sample.two_chats ∅))
    as Hreturns by (vm_compute; eexists; reflexivity).
  destruct (ChatManager.createNewChat (Sample.browser 100)
              {| ChatManager.arg_temperature := None; ChatManager.arg_topK := None |}
              100 "k3j9x0q2a" 100 1 Sample.two_chats ∅)
    as [[[c cm'] ls']|] eqn:Hnew; [|by destruct Hreturns].
  exists c, cm', ls'. split; [reflexivity|].
  destruct (createNewChat_activates _ _ _ _ _ _ _ _ _ _ _ Hnew)
    as (_ & _ & _ & _ & _ & Hfront & Hstored).
  split.
  - rewrite Hfront; [reflexivity|].
    intros d Hd. apply list_elem_of_In in Hd. simpl in Hd.
    destruct Hd as [<-|[<-|[]]]; vm_compute; discriminate.
  - apply Hstored. reflexivity.
Defined.

(** X8: [setActiveChat] with the id of a chat of the collection returns
    [true] and leaves the chats alone; [getActiveChat] then returns that
    chat (the first one carrying the id) without moving the pointer,
    provided the id is not the empty text. *)
Theorem active_pointer_round_trip (B : Browser) (cm : ChatManager.t)
    (ls : localStorage) (chatId : string) (chat : Chat) :
  ChatManager.getChat chatId cm = Some chat →
  chatId ≠ "" →
  ∃ cm' ls' i,
    ChatManager.setActiveChat B (Some chatId) cm ls = (true, cm', ls') ∧
    ChatManager.chats cm' = ChatManager.chats cm ∧
    ChatManager.activeChat cm' = Some chatId ∧
    id chat = chatId ∧
    ChatManager.getActiveChat cm' = (Some (i, chat), cm').
Proof.
  intros Hget Hid.
  pose proof Hget as [i Hfind]%getChat_findChat.
  unfold ChatManager.setActiveChat. rewrite Hget.
  do 2 eexists. exists i. split_and!; [reflexivity..| |].
  - by apply findChat_Some in Hfind as [_ ?].
  - unfold ChatManager.getActiveChat. simpl.
    destruct chatId; [done|]. simpl. by rewrite Hfind.
Qed.

Lemma active_pointer_round_trip_witness :
  ∃ cm' ls' i,
    ChatManager.setActiveChat (Sample.browser 100) (Some "2") Sample.two_chats ∅
    = (true, cm', ls') ∧
    ChatManager.getActiveChat cm' = (Some (i, Sample.chat 2), cm').
Proof.
  destruct (active_pointer_round_trip (Sample.browser 100) Sample.two_chats ∅
              "2" (Sample.chat 2))
    as (cm' & ls' & i & Hset & _ & _ & _ & Hget);
    [vm_compute; reflexivity|discriminate|].
  by exists cm', ls', i.
Defined.

(** X9: [getActiveChat] when no chat is active makes the first chat of
    the collection the active one and returns it; on an empty collection
    it returns nothing and assigns nothing. A pointer to an id that no
    chat carries is left as it is and nothing is returned. A second call
    returns what the first returned and changes nothing more. *)
Theorem getActiveChat_behaviour (cm : ChatManager.t) :
  (ChatManager.chats cm = [] → ChatManager.getActiveChat cm = (None, cm)) ∧
  (∀ c l,
     ChatManager.activeChat cm = None →
     ChatManager.chats cm = c :: l →
     id c ≠ "" →
     ChatManager.getActiveChat cm
     = (Some (0, c), {| ChatManager.chats := ChatManager.chats cm;
                        ChatManager.activeChat := Some (id c) |})) ∧
  (∀ a,
     ChatManager.activeChat cm = Some a →
     a ≠ "" →
     (∀ c, c ∈ ChatManager.chats cm → id c ≠ a) →
     ChatManager.getActiveChat cm = (None, cm)) ∧
  ChatManager.getActiveChat (snd (ChatManager.getActiveChat cm))
  = ChatManager.getActiveChat cm.
Proof.
  destruct cm as [l active]. unfold ChatManager.getActiveChat. simpl.
  split_and!.
  - intros ->. by destruct active as [[|x a]|].
  - intros c l' -> -> Hid. simpl.
    destruct (id c) eqn:Hc; [done|]. simpl.
    unfold ChatManager.findChat. simpl. by rewrite decide_True.
  - intros a -> Ha Hnone. destruct a; [done|]. simpl.
    by rewrite (proj2 (findChat_None _ _) Hnone).
  - destruct active as [[|x a]|], l as [|c l]; simpl; try done;
      destruct (id c) eqn:Hc; simpl; by rewrite ?Hc.
Qed.

Lemma getActiveChat_behaviour_witness :
  ChatManager.getActiveChat
    {| ChatManager.chats := [Sample.chat 2; Sample.chat 1];
       ChatManager.activeChat := None |}
  = (Some (0, Sample.chat 2),
     {| ChatManager.chats := [Sample.chat 2; Sample.chat 1];
        ChatManager.activeChat := Some "2" |}).
Proof.
  destruct (getActiveChat_behaviour
              {| ChatManager.chats := [Sample.chat 2; Sample.chat 1];
                 ChatManager.activeChat := None |}) as (_ & Hfirst & _).
  apply (Hfirst (Sample.chat 2) [Sample.chat 1]); [reflexivity..|discriminate].
Defined.

(** X10: a [deleteChat] that ends with no active chat does not touch the
    id stored for the active chat. Deleting the only chat of the
    collection, when it is the active one, is such a case: the collection
    is empty and no chat is active afterwards, while the storage area
    still names the chat that was deleted. *)
Theorem stored_pointer_survives (B : Browser) (chatId : string) (fuel : nat)
    (cm cm' : ChatManager.t) (ls ls' : localStorage) :
  ChatManager.deleteChat B chatId fuel cm ls = Some (true, cm', ls') →
  (ChatManager.activeChat cm' = None →
   ls' !! StorageManager.ACTIVE_CHAT = ls !! StorageManager.ACTIVE_CHAT) ∧
  (∀ chat,
     ChatManager.chats cm = [chat] →
     ChatManager.activeChat cm = Some chatId →
     ChatManager.chats cm' = [] ∧ ChatManager.activeChat cm' = None).
Proof.
  unfold ChatManager.deleteChat.
  destruct (ChatManager.findChat chatId _) as [[i chat0]|] eqn:Hfind; [|done].
  case_save Hsave. intros [= <- <-].
  pose proof (save_pointer B _ _ _ _ _ Hsave) as Hpointer.
  apply save_inv in Hsave as [Hchats Hactive]. simpl in Hchats, Hactive, Hpointer.
  split.
  - intros Hnone. rewrite Hactive in Hnone. by rewrite Hnone in Hpointer.
  - intros chat Hone Hwas. rewrite Hchats, Hactive, Hone.
    rewrite decide_True by done.
    apply findChat_Some in Hfind as [Hfind _]. rewrite Hone in Hfind.
    destruct i as [|i]; [|done]. done.
Qed.

Lemma stored_pointer_survives_witness :
  ∃ cm' ls',
    ChatManager.deleteChat (Sample.browser 100) "1" 1
      {| ChatManager.chats := [Sample.chat 1]; ChatManager.activeChat := Some "1" |}
      (<[StorageManager.ACTIVE_CHAT := "1"]> ∅) = Some (true, cm', ls') ∧
    ChatManager.chats cm' = [] ∧
    ChatManager.activeChat cm' = None ∧
    ls' !! StorageManager.ACTIVE_CHAT = Some "1".
Proof.
  assert ((fst ∘ fst)
            <$> ChatManager.deleteChat (Sample.browser 100) "1" 1
                  {| ChatManager.chats := [Sample.chat 1];
                     ChatManager.activeChat := Some "1" |}
                  (<[StorageManager.ACTIVE_CHAT := "1"]> ∅) = Some true)
    as Hreturns by (vm_compute; reflexivity).
  destruct (ChatManager.deleteChat (Sample.browser 100) "1" 1
              {| ChatManager.chats := [Sample.chat 1];
                 ChatManager.activeChat := Some "1" |}
              (<[StorageManager.ACTIVE_CHAT := "1"]> ∅))
    as [[[deleted cm'] ls']|] eqn:Hdelete; [|discriminate Hreturns].
  injection Hreturns as ->.
  exists cm', ls'. split; [reflexivity|].
  destruct (stored_pointer_survives _ _ _ _ _ _ _ Hdelete) as [Hstored Hlast].
  destruct (Hlast (Sample.chat 1) eq_refl eq_refl) as [Hchats Hactive].
  split_and!; [done..|]. by rewrite Hstored.
Defined.


(** ** Search *)

Section Search.
Import ChatManager.

Lemma includes_spec (s q : string) :
  Text.includes s q = true ↔ ∃ a b, s = a +:+ q +:+ b.
Proof.
  induction s as [|c s IH].
  - cbn [Text.includes]. rewrite orb_false_r, startsWith_spec. split.
    + intros [t ->]. by exists "", t.
    + intros ([|x a] & b & Hs); [by exists b|done].
  - cbn [Text.includes]. rewrite orb_true_iff, startsWith_spec, IH. split.
    + intros [[t ->]|(a & b & ->)]; [by exists "", t|by exists (String c a), b].
    + intros ([|x a] & b & Hs); [left; by exists b|].
      right. exists a, b.
      change (String c s = String x (a +:+ q +:+ b)) in Hs. by injection Hs.
Qed.

Lemma includes_empty (s : string) : Text.includes s "" = true.
Proof. apply includes_spec. by exists "", s. Qed.

Lemma filter_sublist {A} (f : A → bool) (l : list A) : List.filter f l `sublist_of` l.
Proof.
  induction l as [|x l IH]; simpl; [constructor|].
  destruct (f x); by constructor.
Qed.

Lemma filter_all {A} (f : A → bool) (l : list A) :
  (∀ x, x ∈ l → f x = true) → List.filter f l = l.
Proof.
  induction l as [|x l IH]; intros Hall; simpl; [done|].
  rewrite (Hall x) by apply list_elem_of_here.
  rewrite IH; [done|]. intros y Hy. apply Hall. by apply list_elem_of_further.
Qed.

End Search.

(** X11: [searchChats] returns, in the order of the collection, exactly
    the chats whose title or one of whose messages contains the query,
    all texts being compared in lower case; the empty query returns the
    whole collection. *)
Theorem searchChats_selects (query : string) (cm : ChatManager.t) :
  (∀ c,
     c ∈ ChatManager.searchChats query cm ↔
     c ∈ ChatManager.chats cm ∧
     ((∃ a b, Text.toLowerCase (title c) = a +:+ Text.toLowerCase query +:+ b) ∨
      ∃ m, m ∈ messages c ∧
           ∃ a b, Text.toLowerCase (content m) = a +:+ Text.toLowerCase query +:+ b)) ∧
  ChatManager.searchChats query cm `sublist_of` ChatManager.chats cm ∧
  ChatManager.searchChats "" cm = ChatManager.chats cm.
Proof.
  split_and!.
  - intros c. unfold ChatManager.searchChats.
    rewrite !list_elem_of_In, filter_In. apply and_iff_compat_l.
    destruct (Text.includes (Text.toLowerCase (title c)) _) eqn:Htitle.
    + split; [|done]. intros _. left. by apply includes_spec.
    + rewrite existsb_exists. split.
      * intros (m & Hm & Hin). right. exists m.
        split; [by apply list_elem_of_In|by apply includes_spec].
      * intros [Hc|(m & Hm & Hin)].
        -- apply includes_spec in Hc. congruence.
        -- exists m. split; [by apply list_elem_of_In|by apply includes_spec].
  - apply filter_sublist.
  - unfold ChatManager.searchChats. apply filter_all. intros c _.
    by rewrite includes_empty.
Qed.

Lemma searchChats_selects_witness :
  Sample.answered_chat ∈ ChatManager.searchChats "olives" Sample.three_chats ∧
  ChatManager.searchChats "Olives" Sample.three_chats = [Sample.answered_chat].
Proof.
  destruct (searchChats_selects "olives" Sample.three_chats) as (Hiff & _ & _).
  split; [|vm_compute; reflexivity].
  apply Hiff. split; [apply list_elem_of_here|].
  right. eexists. split; [apply list_elem_of_further, list_elem_of_here|].
  by exists "feta and ", ".".
Defined.

(** ** Date groups *)

Section Dates.
Import StorageManager ChatManager.
Variable now : Z.

Lemma at_least_below h c : Age.at_least now h c = negb (Age.below now h c).
Proof.
  unfold Age.at_least, Age.below.
  destruct (Z.leb_spec h (Age.age now c)), (Z.ltb_spec (Age.age now c) h);
    (done || lia).
Qed.

Lemma between_below lo hi c :
  Age.between now lo hi c = negb (Age.below now lo c) && Age.below now hi c.
Proof. unfold Age.between. by rewrite at_least_below. Qed.

(** The five ranges an age can fall in, as the comparisons see them. *)
Lemma age_ranges c :
  (Age.below now Age.day c = true ∧ Age.below now (2 * Age.day) c = true ∧
   Age.below now (7 * Age.day) c = true ∧ Age.below now (30 * Age.day) c = true) ∨
  (Age.below now Age.day c = false ∧ Age.below now (2 * Age.day) c = true ∧
   Age.below now (7 * Age.day) c = true ∧ Age.below now (30 * Age.day) c = true) ∨
  (Age.below now Age.day c = false ∧ Age.below now (2 * Age.day) c = false ∧
   Age.below now (7 * Age.day) c = true ∧ Age.below now (30 * Age.day) c = true) ∨
  (Age.below now Age.day c = false ∧ Age.below now (2 * Age.day) c = false ∧
   Age.below now (7 * Age.day) c = false ∧ Age.below now (30 * Age.day) c = true) ∨
  (Age.below now Age.day c = false ∧ Age.below now (2 * Age.day) c = false ∧
   Age.below now (7 * Age.day) c = false ∧ Age.below now (30 * Age.day) c = false).
Proof.
  unfold Age.below, Age.day.
  destruct (Z.ltb_spec (Age.age now c) 86400000),
           (Z.ltb_spec (Age.age now c) (2 * 86400000)),
           (Z.ltb_spec (Age.age now c) (7 * 86400000)),
           (Z.ltb_spec (Age.age now c) (30 * 86400000));
    try lia; tauto.
Qed.

Lemma file_by_age_below g c :
  file_by_age now g c =
  if Age.below now Age.day c then
    {| today := today g ++ [c]; yesterday := yesterday g;
       last7days := last7days g; last30days := last30days g; older := older g |}
  else if Age.below now (2 * Age.day) c then
    {| today := today g; yesterday := yesterday g ++ [c];
       last7days := last7days g; last30days := last30days g; older := older g |}
  else if Age.below now (7 * Age.day) c then
    {| today := today g; yesterday := yesterday g;
       last7days := last7days g ++ [c]; last30days := last30days g;
       older := older g |}
  else if Age.below now (30 * Age.day) c then
    {| today := today g; yesterday := yesterday g;
       last7days := last7days g; last30days := last30days g ++ [c];
       older := older g |}
  else
    {| today := today g; yesterday := yesterday g;
       last7days := last7days g; last30days := last30days g;
       older := older g ++ [c] |}.
Proof.
  unfold file_by_age, Age.below, Age.age, Age.day, sevenDays, thirtyDays, oneDay.
  change (24 * 60 * 60 * 1000)%Z with 86400000%Z. reflexivity.
Qed.

Lemma group_by_age_below groups c :
  UIManager.group_by_age now groups c =
  if Age.below now Age.day c then UIManager.push_to "Chats" c groups
  else if Age.below now (2 * Age.day) c then UIManager.push_to "Yesterday" c groups
  else if Age.below now (7 * Age.day) c then
    UIManager.push_to "Previous 7 days" c groups
  else if Age.below now (30 * Age.day) c then
    UIManager.push_to "Previous 30 days" c groups
  else UIManager.push_to "Older" c groups.
Proof.
  unfold UIManager.group_by_age, Age.below, Age.age, Age.day. cbv zeta.
  change (24 * 60 * 60 * 1000)%Z with 86400000%Z. reflexivity.
Qed.

(** Settles the comparisons on the age of [c]. *)
Ltac age_case c :=
  rewrite ?between_below, ?at_least_below;
  destruct (age_ranges c)
    as [(-> & -> & -> & ->)|[(-> & -> & -> & ->)|[(-> & -> & -> & ->)
       |[(-> & -> & -> & ->)|(-> & -> & -> & ->)]]]];
  simpl.

Lemma getChatsByDate_fold l g :
  fold_left (file_by_age now) l g =
  {| today := today g ++ List.filter (Age.below now Age.day) l;
     yesterday := yesterday g ++ List.filter (Age.between now Age.day (2 * Age.day)) l;
     last7days :=
       last7days g ++ List.filter (Age.between now (2 * Age.day) (7 * Age.day)) l;
     last30days :=
       last30days g ++ List.filter (Age.between now (7 * Age.day) (30 * Age.day)) l;
     older := older g ++ List.filter (Age.at_least now (30 * Age.day)) l |}.
Proof.
  revert g. induction l as [|c l IH]; intros g.
  - simpl. rewrite !app_nil_r. by destruct g.
  - cbn [fold_left]. rewrite IH, file_by_age_below. clear IH. cbn [List.filter].
    age_case c; by rewrite <- ?app_assoc.
Qed.

Lemma groupChatsByDate_fold l g1 g2 g3 g4 g5 :
  fold_left (UIManager.group_by_age now) l
    [("Chats", g1); ("Yesterday", g2); ("Previous 7 days", g3);
     ("Previous 30 days", g4); ("Older", g5)] =
  [("Chats", g1 ++ List.filter (Age.below now Age.day) l);
   ("Yesterday", g2 ++ List.filter (Age.between now Age.day (2 * Age.day)) l);
   ("Previous 7 days",
    g3 ++ List.filter (Age.between now (2 * Age.day) (7 * Age.day)) l);
   ("Previous 30 days",
    g4 ++ List.filter (Age.between now (7 * Age.day) (30 * Age.day)) l);
   ("Older", g5 ++ List.filter (Age.at_least now (30 * Age.day)) l)].
Proof.
  revert g1 g2 g3 g4 g5. induction l as [|c l IH]; intros g1 g2 g3 g4 g5.
  - simpl. by rewrite !app_nil_r.
  - cbn [fold_left]. rewrite group_by_age_below. cbn [List.filter].
    age_case c; rewrite IH; by rewrite <- ?app_assoc.
Qed.

(** Every chat falls in one of the five ranges. *)
Lemma five_ranges l :
  l ≡ₚ List.filter (Age.below now Age.day) l
       ++ List.filter (Age.between now Age.day (2 * Age.day)) l
       ++ List.filter (Age.between now (2 * Age.day) (7 * Age.day)) l
       ++ List.filter (Age.between now (7 * Age.day) (30 * Age.day)) l
       ++ List.filter (Age.at_least now (30 * Age.day)) l.
Proof.
  induction l as [|c l IH]; [done|]. cbn [List.filter].
  age_case c; rewrite IH at 1.
  - done.
  - by rewrite Permutation_middle.
  - by rewrite !(app_assoc _ _ (_ :: _)), <- Permutation_middle, <- !app_assoc.
  - by rewrite !(app_assoc _ _ (_ :: _)), <- Permutation_middle, <- !app_assoc.
  - by rewrite !(app_assoc _ _ (_ :: _)), <- Permutation_middle, <- !app_assoc.
Qed.

End Dates.

Section DatesMore.
Import StorageManager ChatManager.
Variable now : Z.

Lemma filter_sorted (f : Chat → bool) l :
  StronglySorted more_recent l → StronglySorted more_recent (List.filter f l).
Proof.
  induction 1 as [|c l Hl IH Hc]; simpl; [constructor|].
  destruct (f c); [|done]. constructor; [done|].
  apply Forall_forall. intros d Hd.
  apply list_elem_of_In, filter_In in Hd as [Hd _].
  rewrite Forall_forall in Hc. by apply Hc, list_elem_of_In.
Qed.

Lemma filter_none {A} (f : A → bool) (l : list A) :
  (∀ x, x ∈ l → f x = false) → List.filter f l = [].
Proof.
  induction l as [|x l IH]; intros Hnone; simpl; [done|].
  rewrite (Hnone x) by apply list_elem_of_here.
  apply IH. intros y Hy. apply Hnone. by apply list_elem_of_further.
Qed.

(** In recency order the chats below an age come before the others. *)
Lemma sorted_split h l :
  StronglySorted more_recent l →
  l = List.filter (Age.below now h) l ++ List.filter (Age.at_least now h) l.
Proof.
  induction 1 as [|c l Hl IH Hc]; [done|]. cbn [List.filter].
  rewrite at_least_below. destruct (Age.below now h c) eqn:Hbelow; simpl.
  - by rewrite <- IH.
  - assert (Hnone : ∀ d, d ∈ l → Age.below now h d = false).
    { intros d Hd. rewrite Forall_forall in Hc. specialize (Hc d Hd).
      unfold more_recent in Hc. unfold Age.below, Age.age in *.
      destruct (Z.ltb_spec (now - timestamp c) h); [done|].
      destruct (Z.ltb_spec (now - timestamp d) h); [lia|done]. }
    rewrite (filter_none _ _ Hnone). simpl. f_equal.
    rewrite IH at 1. by rewrite (filter_none _ _ Hnone).
Qed.

Lemma filter_filter (f g : Chat → bool) l :
  List.filter f (List.filter g l) = List.filter (λ c, g c && f c) l.
Proof.
  induction l as [|c l IH]; simpl; [done|].
  destruct (g c); simpl; [|done]. destruct (f c); by rewrite IH.
Qed.

Lemma sorted_five_ranges l :
  StronglySorted more_recent l →
  l = List.filter (Age.below now Age.day) l
      ++ List.filter (Age.between now Age.day (2 * Age.day)) l
      ++ List.filter (Age.between now (2 * Age.day) (7 * Age.day)) l
      ++ List.filter (Age.between now (7 * Age.day) (30 * Age.day)) l
      ++ List.filter (Age.at_least now (30 * Age.day)) l.
Proof.
  intros Hsorted.
  assert (Hstep : ∀ lo hi, (lo ≤ hi)%Z →
    List.filter (Age.at_least now lo) l
    = List.filter (Age.between now lo hi) l ++ List.filter (Age.at_least now hi) l).
  { intros lo hi Hle.
    rewrite (sorted_split hi (List.filter (Age.at_least now lo) l))
      by by apply filter_sorted.
    rewrite !filter_filter. f_equal.
    apply filter_ext. intros c. unfold Age.at_least, Age.age.
    destruct (Z.leb_spec lo (now - timestamp c)), (Z.leb_spec hi (now - timestamp c));
      simpl; (done || lia). }
  rewrite (sorted_split Age.day l Hsorted) at 1. f_equal.
  rewrite (Hstep Age.day (2 * Age.day)%Z) by (unfold Age.day; lia). f_equal.
  rewrite (Hstep (2 * Age.day)%Z (7 * Age.day)%Z) by (unfold Age.day; lia). f_equal.
  apply Hstep. unfold Age.day. lia.
Qed.

End DatesMore.

(** X12: [getChatsByDate] files every chat of the collection in exactly
    one group, by its age at the reading of the clock: under one day
    (which takes the chats stamped in the future too), one to two days,
    two to seven, seven to thirty, and thirty days or more. Each group
    keeps the order of the collection, and the five groups together are
    the collection. *)
Theorem date_groups_partition (now : Z) (cm : ChatManager.t) :
  ChatManager.today (ChatManager.getChatsByDate now cm)
  = List.filter (Age.below now Age.day) (ChatManager.chats cm) ∧
  ChatManager.yesterday (ChatManager.getChatsByDate now cm)
  = List.filter (Age.between now Age.day (2 * Age.day)) (ChatManager.chats cm) ∧
  ChatManager.last7days (ChatManager.getChatsByDate now cm)
  = List.filter (Age.between now (2 * Age.day) (7 * Age.day)) (ChatManager.chats cm) ∧
  ChatManager.last30days (ChatManager.getChatsByDate now cm)
  = List.filter (Age.between now (7 * Age.day) (30 * Age.day)) (ChatManager.chats cm) ∧
  ChatManager.older (ChatManager.getChatsByDate now cm)
  = List.filter (Age.at_least now (30 * Age.day)) (ChatManager.chats cm) ∧
  ChatManager.chats cm
  ≡ₚ ChatManager.today (ChatManager.getChatsByDate now cm)
     ++ ChatManager.yesterday (ChatManager.getChatsByDate now cm)
     ++ ChatManager.last7days (ChatManager.getChatsByDate now cm)
     ++ ChatManager.last30days (ChatManager.getChatsByDate now cm)
     ++ ChatManager.older (ChatManager.getChatsByDate now cm).
Proof.
  unfold ChatManager.getChatsByDate. rewrite getChatsByDate_fold. simpl.
  split_and!; [done..|]. apply five_ranges.
Qed.

(** X13: when the collection is in recency order, as every save leaves
    it, the groups of [getChatsByDate] read one after the other, from the
    youngest to the oldest, give back the collection in its own order. *)
Theorem date_groups_keep_recency_order (now : Z) (cm : ChatManager.t) :
  StronglySorted StorageManager.more_recent (ChatManager.chats cm) →
  ChatManager.chats cm
  = ChatManager.today (ChatManager.getChatsByDate now cm)
    ++ ChatManager.yesterday (ChatManager.getChatsByDate now cm)
    ++ ChatManager.last7days (ChatManager.getChatsByDate now cm)
    ++ ChatManager.last30days (ChatManager.getChatsByDate now cm)
    ++ ChatManager.older (ChatManager.getChatsByDate now cm).
Proof.
  intros Hsorted. unfold ChatManager.getChatsByDate.
  rewrite getChatsByDate_fold. simpl. by apply sorted_five_ranges.
Qed.

(** Three chats in recency order when the clock reads 200000000: one
    touched in the last day, two between two and seven days before. *)
Lemma date_groups_keep_recency_order_witness :
  ChatManager.chats Sample.aged_chats
  = ChatManager.today (ChatManager.getChatsByDate 200000000 Sample.aged_chats)
    ++ ChatManager.yesterday (ChatManager.getChatsByDate 200000000 Sample.aged_chats)
    ++ ChatManager.last7days (ChatManager.getChatsByDate 200000000 Sample.aged_chats)
    ++ ChatManager.last30days (ChatManager.getChatsByDate 200000000 Sample.aged_chats)
    ++ ChatManager.older (ChatManager.getChatsByDate 200000000 Sample.aged_chats).
Proof.
  apply (date_groups_keep_recency_order 200000000 Sample.aged_chats).
  repeat constructor; unfold StorageManager.more_recent; simpl; lia.
Defined.

(** X14: the sidebar's [groupChatsByDate] and the repository's
    [getChatsByDate] make the same groups of the same chats at the same
    reading of the clock; the sidebar names them "Chats", "Yesterday",
    "Previous 7 days", "Previous 30 days" and "Older", in this order. *)
Theorem sidebar_groups_agree (now : Z) (cm : ChatManager.t) :
  UIManager.groupChatsByDate now (ChatManager.chats cm)
  = [("Chats", ChatManager.today (ChatManager.getChatsByDate now cm));
     ("Yesterday", ChatManager.yesterday (ChatManager.getChatsByDate now cm));
     ("Previous 7 days", ChatManager.last7days (ChatManager.getChatsByDate now cm));
     ("Previous 30 days", ChatManager.last30days (ChatManager.getChatsByDate now cm));
     ("Older", ChatManager.older (ChatManager.getChatsByDate now cm))].
Proof.
  unfold UIManager.groupChatsByDate, ChatManager.getChatsByDate.
  by rewrite groupChatsByDate_fold, getChatsByDate_fold.
Qed.

(** ** The sidebar *)

Section Sidebar.
Import ChatManager.

Lemma trimStart_white s :
  (∀ c, c ∈ list_ascii_of_string s → Text.is_white_space c = true) →
  Text.trimStart s = "".
Proof.
  induction s as [|c s IH]; intros Hws; simpl; [done|].
  rewrite (Hws c) by (simpl; apply list_elem_of_here).
  apply IH. intros d Hd. apply Hws. simpl. by apply list_elem_of_further.
Qed.

(** The groups that are not shown hold no chat. *)
Lemma concat_shown (groups : list (string * list Chat)) :
  concat (snd <$> List.filter (λ entry, (0 <? length (snd entry))%nat) groups)
  = concat (snd <$> groups).
Proof.
  induction groups as [|[label [|c group]] groups IH]; [done|exact IH|].
  cbn [List.filter snd length Nat.ltb Nat.leb fmap list_fmap concat].
  by rewrite <- IH.
Qed.

End Sidebar.

(** X15: on a search the sidebar works on the query without the white
    space at its ends; a query of white space only, like no query, lists
    every chat of the collection. Whatever the filter, the chats under the
    groups shown are the chats worked on, each one once, and no group is
    shown empty. *)
Theorem sidebar_lists_every_chat (now : Z) (cm : ChatManager.t) :
  (∀ query,
     (∀ c, c ∈ list_ascii_of_string query → Text.is_white_space c = true) →
     UIManager.listed_chats (UIManager.onSearchChats query) cm = ChatManager.chats cm) ∧
  (∀ filter,
     concat (snd <$> UIManager.history_groups filter now cm)
     ≡ₚ UIManager.listed_chats filter cm) ∧
  (∀ filter label group,
     (label, group) ∈ UIManager.history_groups filter now cm → group ≠ []).
Proof.
  split_and!.
  - intros query Hws. unfold UIManager.onSearchChats, Text.trim.
    by rewrite (trimStart_white _ Hws).
  - intros filter. unfold UIManager.history_groups.
    destruct (UIManager.listed_chats filter cm) as [|c l] eqn:Hlisted; [done|].
    cbn [length Nat.eqb]. rewrite concat_shown.
    unfold UIManager.groupChatsByDate. rewrite groupChatsByDate_fold.
    cbn [fmap list_fmap snd concat app]. rewrite app_nil_r.
    symmetry. apply five_ranges.
  - intros filter label group. unfold UIManager.history_groups.
    destruct (_ =? 0)%nat; [by intros ?%elem_of_nil|].
    rewrite list_elem_of_In, filter_In. intros [_ Hshown]. simpl in Hshown.
    by destruct group.
Qed.

Lemma sidebar_lists_every_chat_witness :
  UIManager.listed_chats (UIManager.onSearchChats "   ") Sample.three_chats
  = ChatManager.chats Sample.three_chats.
Proof.
  destruct (sidebar_lists_every_chat 0 Sample.three_chats) as (Hblank & _).
  apply Hblank. intros c Hc. apply list_elem_of_In in Hc. simpl in Hc.
  destruct Hc as [<-|[<-|[<-|[]]]]; reflexivity.
Defined.

(** ** The exported document *)

Section Markdown.
Import ChatManager.

Lemma join_app (l1 l2 : list string) :
  Text.join (l1 ++ l2) = Text.join l1 +:+ Text.join l2.
Proof.
  induction l1 as [|x l1 IH]; [done|].
  change (x +:+ Text.join (l1 ++ l2) = (x +:+ Text.join l1) +:+ Text.join l2).
  by rewrite IH, string_app_assoc.
Qed.

Lemma markdown_fold (l : list Message) (head : string) :
  fold_left (λ markdown msg, markdown +:+ markdown_block msg) l head
  = head +:+ Text.join (markdown_block <$> l).
Proof.
  revert head. induction l as [|m l IH]; intros head.
  - simpl. by rewrite string_app_empty_r.
  - cbn [fold_left]. rewrite IH.
    change (Text.join (markdown_block <$> m :: l))
      with (markdown_block m +:+ Text.join (markdown_block <$> l)).
    apply string_app_assoc.
Qed.

(** With ids that are pairwise different, the chat found under an id is
    the chat of the collection that carries it. *)
Lemma findChat_unique (l : list Chat) c :
  NoDup (id <$> l) → c ∈ l → ∃ i, findChat (id c) l = Some (i, c).
Proof.
  intros Hnodup Hc.
  destruct (findChat_is_Some (id c) l c Hc eq_refl) as [[i c'] Hfind].
  exists i. rewrite Hfind. do 2 f_equal.
  apply findChat_Some in Hfind as [Hi Hid].
  apply list_elem_of_lookup_1 in Hc as [j Hj].
  assert (i = j) as ->; [|congruence].
  eapply (NoDup_lookup _ _ _ (id c) Hnodup).
  - by rewrite list_lookup_fmap, Hi, <- Hid.
  - by rewrite list_lookup_fmap, Hj.
Qed.

End Markdown.

(** X16: for a chat of the collection, [exportChatAsMarkdown] returns the
    heading (the title, the line "Created" with the chat's timestamp as
    the host writes it, and a rule) followed by one block for each
    message, in the order of the messages; a chat without messages gives
    the heading alone. *)
Theorem exportChatAsMarkdown_document (toLocaleString : Z → string)
    (chatId : string) (cm : ChatManager.t) (chat : Chat) :
  ChatManager.getChat chatId cm = Some chat →
  ChatManager.exportChatAsMarkdown toLocaleString chatId cm
  = Some (ChatManager.markdown_header toLocaleString chat
          +:+ Text.join (ChatManager.markdown_block <$> messages chat)) ∧
  (messages chat = [] →
   ChatManager.exportChatAsMarkdown toLocaleString chatId cm
   = Some ("# " +:+ title chat +:+ Text.LF +:+ Text.LF
           +:+ "*Created: " +:+ toLocaleString (timestamp chat) +:+ "*"
           +:+ Text.LF +:+ Text.LF +:+ "---" +:+ Text.LF +:+ Text.LF)).
Proof.
  intros Hget. unfold ChatManager.exportChatAsMarkdown. rewrite Hget.
  rewrite markdown_fold. split; [done|].
  intros ->. simpl. rewrite string_app_empty_r.
  unfold ChatManager.markdown_header. by rewrite !string_app_assoc.
Qed.

Lemma exportChatAsMarkdown_document_witness :
  ChatManager.exportChatAsMarkdown pretty "2" Sample.two_chats
  = Some ("# New Chat" +:+ Text.LF +:+ Text.LF +:+ "*Created: 2*" +:+ Text.LF +:+ Text.LF
          +:+ "---" +:+ Text.LF +:+ Text.LF).
Proof.
  destruct (exportChatAsMarkdown_document pretty "2" Sample.two_chats (Sample.chat 2))
    as [_ Hempty]; [reflexivity|].
  rewrite Hempty; reflexivity.
Defined.

(** X17: after [addMessage], in a collection whose ids are pairwise
    different, the export of the chat is its former body with one more
    block at the end, under a heading whose "Created" line carries the
    time of this call: the line follows the last change of the chat, not
    its creation. *)
Theorem export_after_addMessage (B : Browser) (toLocaleString : Z → string)
    (chatId : string) (r : Role) (text : string) (t1 t2 : Z) (fuel : nat)
    (cm cm' : ChatManager.t) (ls ls' : localStorage) (i : nat) (chat c : Chat) :
  NoDup (id <$> ChatManager.chats cm) →
  ChatManager.findChat chatId (ChatManager.chats cm) = Some (i, chat) →
  ChatManager.addMessage B chatId r text t1 t2 fuel cm ls = Some (Some c, cm', ls') →
  timestamp c = t2 ∧
  ChatManager.exportChatAsMarkdown toLocaleString chatId cm'
  = Some (("# " +:+ title c +:+ Text.LF +:+ Text.LF)
          +:+ ("*Created: " +:+ toLocaleString t2 +:+ "*" +:+ Text.LF +:+ Text.LF)
          +:+ ("---" +:+ Text.LF +:+ Text.LF)
          +:+ Text.join (ChatManager.markdown_block <$> messages chat)
          +:+ ChatManager.markdown_block
                {| role := r; content := text; msg_timestamp := t1 |}).
Proof.
  intros Hnodup Hfind Hadd.
  destruct (addMessage_found B _ _ _ _ _ _ _ _ _ _ _ Hfind Hadd)
    as (cm1 & ls1 & [= -> <- <-] & Hchats & Hin).
  pose proof (findChat_Some _ _ _ _ Hfind) as [Hlookup Hid].
  split; [done|].
  assert (NoDup (id <$> ChatManager.chats cm')) as Hnodup'.
  { rewrite Hchats, sort_by_recency_perm.
    by rewrite (ids_insert _ _ _ _ Hlookup). }
  destruct (findChat_unique _ _ Hnodup' Hin) as [j Hj].
  unfold ChatManager.exportChatAsMarkdown, ChatManager.getChat.
  change (id (ChatManager.push_message r text t1 t2 chat)) with (id chat) in Hj.
  rewrite Hid in Hj. rewrite Hj. simpl. rewrite markdown_fold.
  rewrite fmap_app, join_app. simpl. rewrite string_app_empty_r.
  unfold ChatManager.markdown_header. simpl.
  by rewrite !string_app_assoc.
Qed.

Lemma export_after_addMessage_witness :
  ∃ c cm' ls',
    ChatManager.addMessage (Sample.browser 100) "a" user "And dessert?" 8 9 1
      Sample.three_chats ∅ = Some (Some c, cm', ls') ∧
    timestamp c = 9%Z ∧
    is_Some (ChatManager.exportChatAsMarkdown pretty "a" cm').
Proof.
  assert (ChatManager.findChat "a" (ChatManager.chats Sample.three_chats)
          = Some (0%nat, Sample.answered_chat)) as Hfind by reflexivity.
  assert (is_Some (fst <$> ChatManager.addMessage (Sample.browser 100) "a" user
                             "And dessert?" 8 9 1 Sample.three_chats ∅))
    as Hreturns by (vm_compute; eexists; reflexivity).
  destruct (ChatManager.addMessage (Sample.browser 100) "a" user "And dessert?" 8 9 1
              Sample.three_chats ∅) as [out|] eqn:Hadd; [|by destruct Hreturns].
  destruct (addMessage_found _ _ _ _ _ _ _ _ _ _ _ _ Hfind Hadd)
    as (cm' & ls' & -> & _).
  eexists _, cm', ls'. split; [reflexivity|].
  destruct (export_after_addMessage (Sample.browser 100) pretty "a" user
              "And dessert?" 8 9 1 Sample.three_chats cm' ∅ ls' 0
              Sample.answered_chat
              (ChatManager.push_message user "And dessert?" 8 9 Sample.answered_chat))
    as [Htime Hexport];
    [apply (bool_decide_unpack _); vm_compute; exact I|exact Hfind|exact Hadd|].
  split; [exact Htime|]. rewrite Hexport. by eexists.
Defined.

(** ** The title field and the time stamps of the sidebar *)

Section TitleField.
Import StorageManager ChatManager.

(** The chat [getActiveChat] returns is the one the pointer names. *)
Lemma getActiveChat_pointer cm j c cm' :
  getActiveChat cm = (Some (j, c), cm') → activeChat cm' = Some (id c).
Proof.
  intros H. unfold getActiveChat in H. cbv zeta in H. injection H as H1 H2.
  rewrite H2 in H1.
  destruct (falsy_id (activeChat cm')); [done|].
  destruct (activeChat cm') as [a|]; [|done]. simpl in H1.
  by apply findChat_Some in H1 as [_ ->].
Qed.

Lemma truthy_string_empty s : JS.truthy_string s = false ↔ s = "".
Proof. by destruct s. Qed.

End TitleField.

(** X18: [onChatTitleChange] does nothing when there is no active chat,
    or when the text of the title field, without the white space at its
    ends, is empty or is the title the chat has. Otherwise the active
    chat gets that text as its title and the time of the call as its
    timestamp, with its id, messages and settings kept; the collection
    is sorted again and the chat stays the active one. *)
Theorem onChatTitleChange_behaviour (B : Browser) (textContent : string) (now : Z)
    (fuel : nat) (cm : ChatManager.t) (ls : localStorage) :
  (fst (ChatManager.getActiveChat cm) = None →
   UIManager.onChatTitleChange B textContent now fuel cm ls
   = Some (snd (ChatManager.getActiveChat cm), ls)) ∧
  (∀ i chat,
     fst (ChatManager.getActiveChat cm) = Some (i, chat) →
     Text.trim textContent = "" ∨ Text.trim textContent = title chat →
     UIManager.onChatTitleChange B textContent now fuel cm ls
     = Some (snd (ChatManager.getActiveChat cm), ls)) ∧
  (∀ i chat cm' ls',
     fst (ChatManager.getActiveChat cm) = Some (i, chat) →
     Text.trim textContent ≠ "" →
     Text.trim textContent ≠ title chat →
     UIManager.onChatTitleChange B textContent now fuel cm ls = Some (cm', ls') →
     {| id := id chat; title := Text.trim textContent; timestamp := now;
        messages := messages chat; settings := settings chat |}
       ∈ ChatManager.chats cm' ∧
     ChatManager.chats cm'
     ≡ₚ <[i := {| id := id chat; title := Text.trim textContent; timestamp := now;
                  messages := messages chat; settings := settings chat |}]>
          (ChatManager.chats cm) ∧
     StronglySorted StorageManager.more_recent (ChatManager.chats cm') ∧
     ChatManager.activeChat cm' = Some (id chat)).
Proof.
  unfold UIManager.onChatTitleChange.
  destruct (ChatManager.getActiveChat cm) as [active cm1] eqn:Hactive.
  cbn [fst snd]. split_and!.
  - by intros ->.
  - intros i chat -> [Hblank|Hsame].
    + by rewrite Hblank.
    + rewrite Hsame, String.eqb_refl. by rewrite andb_false_r.
  - intros i chat cm' ls' -> Hblank Hsame.
    destruct (JS.truthy_string (Text.trim textContent)) eqn:Htruthy;
      [|by apply truthy_string_empty in Htruthy].
    destruct (String.eqb_spec (Text.trim textContent) (title chat)) as [|_]; [done|].
    cbn [andb negb].
    pose proof (getActiveChat_pointer _ _ _ _ Hactive) as Hpointer.
    apply getActiveChat_Some in Hactive as [Hfind Hchats].
    unfold ChatManager.updateChatTitle. rewrite Hfind.
    destruct (ChatManager.save B fuel _ ls) as [[cm2 ls2]|] eqn:Hsave; [|done].
    simpl. intros [= <- <-].
    pose proof (save_sorted _ _ _ _ _ _ Hsave) as [Hsorted Hperm].
    apply save_inv in Hsave as [_ Hkept]. simpl in *.
    rewrite Hchats in Hperm. split_and!; [|done|done|congruence].
    rewrite Hperm. eapply list_elem_of_lookup_2, list_lookup_insert_eq.
    apply findChat_Some in Hfind as [Hfind _]. rewrite <- Hchats.
    by eapply lookup_lt_Some.
Qed.

Lemma onChatTitleChange_behaviour_witness :
  UIManager.onChatTitleChange (Sample.browser 100) "  Greek Salad? " 50 1
    Sample.three_chats ∅
  = Some (Sample.three_chats, ∅) ∧
  ∃ cm' ls',
    UIManager.onChatTitleChange (Sample.browser 100) " Lunch " 50 1
      Sample.three_chats ∅ = Some (cm', ls') ∧
    ChatManager.activeChat cm' = Some "a" ∧
    {| id := "a"; title := "Lunch"; timestamp := 50;
       messages := messages Sample.answered_chat;
       settings := settings Sample.answered_chat |} ∈ ChatManager.chats cm'.
Proof.
  split.
  - destruct (onChatTitleChange_behaviour (Sample.browser 100) "  Greek Salad? " 50 1
                Sample.three_chats ∅) as (_ & Hsame & _).
    apply (Hsame 0%nat Sample.answered_chat);
      [vm_compute; reflexivity|right; vm_compute; reflexivity].
  - assert (is_Some (fst <$> UIManager.onChatTitleChange (Sample.browser 100) " Lunch "
                                 50 1 Sample.three_chats ∅))
      as Hreturns by (vm_compute; eexists; reflexivity).
    destruct (UIManager.onChatTitleChange (Sample.browser 100) " Lunch " 50 1
                Sample.three_chats ∅) as [[cm' ls']|] eqn:Hchange;
      [|by destruct Hreturns].
    exists cm', ls'. split; [reflexivity|].
    destruct (onChatTitleChange_behaviour (Sample.browser 100) " Lunch " 50 1
                Sample.three_chats ∅) as (_ & _ & Hrenamed).
    destruct (Hrenamed 0%nat Sample.answered_chat cm' ls')
      as (Hin & _ & _ & Hpointer);
      [vm_compute; reflexivity|vm_compute; discriminate|vm_compute; discriminate
      |exact Hchange|].
    split; [exact Hpointer|exact Hin].
Defined.

(** X19: what [formatTimestamp] writes, by the time gone since the
    timestamp: "Just now" below two minutes, also for a timestamp ahead
    of the clock; the whole minutes, 2 to 59, below one hour; "1 hour
    ago" below two hours; the whole hours, 2 to 23, below one day; the
    weekday format below seven days; the month format from there on. *)
Theorem formatTimestamp_ranges (weekday_time month_day : Z → string)
    (timestamp now : Z) :
  ((now - timestamp < 120000)%Z →
   UIManager.formatTimestamp weekday_time month_day timestamp now = "Just now") ∧
  ((120000 ≤ now - timestamp < 3600000)%Z →
   (2 ≤ (now - timestamp) `div` 60000 ≤ 59)%Z ∧
   UIManager.formatTimestamp weekday_time month_day timestamp now
   = pretty ((now - timestamp) `div` 60000)%Z +:+ " minutes ago") ∧
  ((3600000 ≤ now - timestamp < 7200000)%Z →
   UIManager.formatTimestamp weekday_time month_day timestamp now = "1 hour ago") ∧
  ((7200000 ≤ now - timestamp < 86400000)%Z →
   (2 ≤ (now - timestamp) `div` 3600000 ≤ 23)%Z ∧
   UIManager.formatTimestamp weekday_time month_day timestamp now
   = pretty ((now - timestamp) `div` 3600000)%Z +:+ " hours ago") ∧
  ((86400000 ≤ now - timestamp < 604800000)%Z →
   UIManager.formatTimestamp weekday_time month_day timestamp now
   = weekday_time timestamp) ∧
  ((604800000 ≤ now - timestamp)%Z →
   UIManager.formatTimestamp weekday_time month_day timestamp now
   = month_day timestamp).
Proof.
  unfold UIManager.formatTimestamp. cbv zeta.
  change (60 * 60 * 1000)%Z with 3600000%Z.
  change (24 * 3600000)%Z with 86400000%Z.
  change (7 * 86400000)%Z with 604800000%Z.
  change (60 * 1000)%Z with 60000%Z.
  generalize (now - timestamp)%Z. intros diff.
  assert (Hminutes : (diff < 120000 ↔ diff `div` 60000 ≤ 1)%Z).
  { split; intros H.
    - apply Z.lt_succ_r. apply Z.div_lt_upper_bound; lia.
    - destruct (Z.lt_ge_cases diff 120000) as [|Hge]; [done|].
      apply (Z.div_le_lower_bound diff 60000 2) in Hge; lia. }
  assert (Hhours : (diff < 7200000 ↔ diff `div` 3600000 ≤ 1)%Z).
  { split; intros H.
    - apply Z.lt_succ_r. apply Z.div_lt_upper_bound; lia.
    - destruct (Z.lt_ge_cases diff 7200000) as [|Hge]; [done|].
      apply (Z.div_le_lower_bound diff 3600000 2) in Hge; lia. }
  split_and!.
  - intros Hdiff.
    destruct (Z.ltb_spec diff 3600000) as [_|?]; [|lia].
    destruct (Z.leb_spec (diff `div` 60000) 1) as [_|?]; [done|lia].
  - intros [Hlo Hhi].
    assert (2 ≤ diff `div` 60000 ≤ 59)%Z as Hrange.
    { split; [apply Z.div_le_lower_bound; lia|].
      apply Z.lt_succ_r. apply Z.div_lt_upper_bound; lia. }
    split; [exact Hrange|].
    destruct (Z.ltb_spec diff 3600000) as [_|?]; [|lia].
    destruct (Z.leb_spec (diff `div` 60000) 1) as [?|_]; [lia|done].
  - intros [Hlo Hhi].
    destruct (Z.ltb_spec diff 3600000) as [?|_]; [lia|].
    destruct (Z.ltb_spec diff 86400000) as [_|?]; [|lia].
    assert (diff `div` 3600000 = 1)%Z as ->.
    { apply Z.le_antisymm; [lia|]. apply Z.div_le_lower_bound; lia. }
    reflexivity.
  - intros [Hlo Hhi].
    assert (2 ≤ diff `div` 3600000 ≤ 23)%Z as Hrange.
    { split; [apply Z.div_le_lower_bound; lia|].
      apply Z.lt_succ_r. apply Z.div_lt_upper_bound; lia. }
    split; [exact Hrange|].
    destruct (Z.ltb_spec diff 3600000) as [?|_]; [lia|].
    destruct (Z.ltb_spec diff 86400000) as [_|?]; [|lia].
    destruct (Z.ltb_spec 1 (diff `div` 3600000)) as [_|?]; [done|lia].
  - intros [Hlo Hhi].
    destruct (Z.ltb_spec diff 3600000) as [?|_]; [lia|].
    destruct (Z.ltb_spec diff 86400000) as [?|_]; [lia|].
    destruct (Z.ltb_spec diff 604800000) as [_|?]; [done|lia].
  - intros Hlo.
    destruct (Z.ltb_spec diff 3600000) as [?|_]; [lia|].
    destruct (Z.ltb_spec diff 86400000) as [?|_]; [lia|].
    destruct (Z.ltb_spec diff 604800000) as [?|_]; [lia|done].
Qed.

Lemma formatTimestamp_ranges_witness :
  UIManager.formatTimestamp pretty pretty 1000 500 = "Just now" ∧
  UIManager.formatTimestamp pretty pretty 0 5400000 = "1 hour ago".
Proof.
  split.
  - destruct (formatTimestamp_ranges pretty pretty 1000 500) as (Hnow & _).
    apply Hnow. lia.
  - destruct (formatTimestamp_ranges pretty pretty 0 5400000) as (_ & _ & Hhour & _).
    apply Hhour. lia.
Defined.

(** ** The script: sessions, settings and prompts *)

Section SessionMore.
Import StorageManager ChatManager Script.

Lemma count_destroyed_created l h o :
  count_destroyed (l ++ [Created h o]) = count_destroyed l.
Proof.
  unfold count_destroyed. rewrite List.filter_app, length_app. simpl. lia.
Qed.

(** What one call of [updateSession] does to the state: the controls,
    the chats and the storage area are not written; either no session is
    created and the model and the session variable stay, or one session
    is created, from options that are truthy numbers, and held. *)
Lemma updateSession_inv outcome st c st' :
  updateSession outcome st = (c, st') →
  sessionTemperature st' = sessionTemperature st ∧
  sessionTopK st' = sessionTopK st ∧
  chats (chatManager st') = chats (chatManager st) ∧
  storage st' = storage st ∧
  ((model st' = model st ∧ session st' = session st ∧
    (available (model st) = false ∨ is_Some outcome))
   ∨ ∃ o,
       available (model st) = true ∧ outcome = None ∧
       c = JS.Normal () ∧
       session st' = Some (next_handle (model st)) ∧
       events (model st') = events (model st) ++ [Created (next_handle (model st)) o] ∧
       live (model st') = {[next_handle (model st)]} ∪ live (model st) ∧
       JS.truthy (opt_temperature o) = true ∧
       JS.truthy (opt_topK o) = true ∧
       initialPrompts o = [("system", SYSTEM_PROMPT)] ∧
       (JS.truthy (sessionTemperature st) = true →
        opt_temperature o = sessionTemperature st) ∧
       (JS.truthy (sessionTopK st) = true → opt_topK o = sessionTopK st)).
Proof.
  unfold updateSession. destruct (available (model st)) eqn:Havailable.
  - pose proof (getActiveChat_chats (chatManager st)) as Hchats.
    destruct (getActiveChat (chatManager st)) as [active cm]. simpl in Hchats.
    destruct outcome as [e|]; simpl; intros [= <- <-]; simpl;
      (split_and!; [done..|]); [left; by eauto|].
    right. eexists. split_and!; try reflexivity; simpl.
    + destruct (JS.truthy (sessionTemperature st)) eqn:Ht; [done|].
      by apply or_else_truthy.
    + destruct (JS.truthy (sessionTopK st)) eqn:Hk; [done|].
      by apply or_else_truthy.
    + by intros ->.
    + by intros ->.
  - intros [= <- <-]. split_and!; [done..|left; by eauto].
Qed.

Lemma updateSession_pointer outcome st :
  falsy_id (activeChat (chatManager st)) = false →
  activeChat (chatManager (snd (updateSession outcome st)))
  = activeChat (chatManager st).
Proof.
  intros Hset. unfold updateSession. destruct (available (model st)); [|done].
  pose proof (getActiveChat_set _ Hset) as Hsame.
  destruct (getActiveChat (chatManager st)) as [active cm]. simpl in Hsame.
  subst cm. by destruct outcome.
Qed.

Section Handlers.
Variable B : Browser.

(** The handlers of the two controls: the value is written to the
    active chat and the session is updated. *)
Lemma change_setting_inv update v outcome fuel st c st' :
  change_setting B update v outcome fuel st = Some (c, st') →
  (∀ i chat,
     fst (getActiveChat (chatManager st)) = Some (i, chat) →
     update v chat ∈ chats (chatManager st')) ∧
  ∃ st1,
    updateSession outcome st1 = (c, st') ∧
    sessionTemperature st1 = sessionTemperature st ∧
    sessionTopK st1 = sessionTopK st ∧
    session st1 = session st ∧
    model st1 = model st.
Proof.
  unfold change_setting.
  destruct (getActiveChat (chatManager st)) as [active cm] eqn:Hactive.
  destruct active as [[j chat]|]; simpl.
  - case_save Hsave. simpl. intros [= Hupdate]. split.
    + intros i chat0 [= <- <-].
      apply updateSession_inv in Hupdate as (_ & _ & -> & _). simpl.
      apply save_inv in Hsave as [-> _]. simpl.
      rewrite sort_by_recency_perm.
      eapply list_elem_of_lookup_2, list_lookup_insert_eq.
      apply getActiveChat_Some in Hactive as [Hfind _].
      apply findChat_Some in Hfind as [Hfind _]. by eapply lookup_lt_Some.
    + by eexists.
  - intros [= Hupdate]. split; [done|]. by eexists.
Qed.

Lemma createNewChat_inv i outcome fuel st st' :
  Script.createNewChat B i outcome fuel st = Some st' →
  let chat :=
    new_chat {| arg_temperature := Some (sessionTemperature st);
                arg_topK := Some (sessionTopK st) |}
      (now_id i) (random i) (now_timestamp i) in
  activeChat (chatManager st') = Some (id chat) ∧
  chats (chatManager st') ≡ₚ chat :: chats (chatManager st).
Proof.
  unfold Script.createNewChat.
  pose proof (getActiveChat_chats (chatManager st)) as Hchats.
  destruct (getActiveChat (chatManager st)) as [active cm]. simpl in Hchats.
  unfold ChatManager.createNewChat. case_save Hsave. simpl.
  intros [= <-]. apply save_inv in Hsave as [Hsorted Hpointer]. simpl in *.
  match goal with
  | |- context [requestSession outcome ?st2] =>
      pose proof (requestSession_inv outcome st2) as (_ & _ & _ & Hc & _ & Hp & _)
  end.
  simpl in Hc, Hp. split.
  - rewrite Hp; by rewrite Hpointer.
  - by rewrite Hc, Hsorted, sort_by_recency_perm, Hchats.
Qed.

End Handlers.

(** Snapshots of which each continues the one before it add up to the
    last one. *)
Lemma deltas_cumulative chunks previous :
  (∀ i p c, (previous :: chunks) !! i = Some p → chunks !! i = Some c →
            Text.startsWith c p = true) →
  previous +:+ Text.join (deltas previous chunks) = default previous (last chunks).
Proof.
  revert previous. induction chunks as [|chunk rest IH]; intros previous Hchain.
  - apply string_app_empty_r.
  - destruct (proj1 (startsWith_spec chunk previous) (Hchain 0%nat _ _ eq_refl eq_refl))
      as [suffix ->].
    cbn [deltas]. rewrite newChunk_suffix.
    change (Text.join (suffix :: ?l)) with (suffix +:+ Text.join l).
    rewrite <- string_app_assoc, IH.
    + rewrite last_cons. by destruct (last rest).
    + intros i p c Hp Hc. by apply (Hchain (S i)).
Qed.

End SessionMore.

(** X20: every session [updateSession] creates gets a temperature and a
    topK that are truthy numbers, never [0] or [NaN], and the system
    prompt; the value of a control is passed on whenever it is truthy.
    Without the capability, or when the creation fails, the model and
    the session variable are as before. The controls, the chats and the
    storage area are never written. *)
Theorem updateSession_options (outcome : option JS.error) (st st' : Script.State)
    (c : JS.completion unit) :
  Script.updateSession outcome st = (c, st') →
  Script.sessionTemperature st' = Script.sessionTemperature st ∧
  Script.sessionTopK st' = Script.sessionTopK st ∧
  ChatManager.chats (Script.chatManager st') = ChatManager.chats (Script.chatManager st) ∧
  Script.storage st' = Script.storage st ∧
  ((Script.model st' = Script.model st ∧ Script.session st' = Script.session st ∧
    (Script.available (Script.model st) = false ∨ is_Some outcome))
   ∨ ∃ o,
       Script.available (Script.model st) = true ∧ outcome = None ∧
       c = JS.Normal () ∧
       Script.session st' = Some (Script.next_handle (Script.model st)) ∧
       Script.events (Script.model st')
       = Script.events (Script.model st)
           ++ [Script.Created (Script.next_handle (Script.model st)) o] ∧
       Script.live (Script.model st')
       = {[Script.next_handle (Script.model st)]} ∪ Script.live (Script.model st) ∧
       JS.truthy (Script.opt_temperature o) = true ∧
       JS.truthy (Script.opt_topK o) = true ∧
       Script.initialPrompts o = [("system", Script.SYSTEM_PROMPT)] ∧
       (JS.truthy (Script.sessionTemperature st) = true →
        Script.opt_temperature o = Script.sessionTemperature st) ∧
       (JS.truthy (Script.sessionTopK st) = true →
        Script.opt_topK o = Script.sessionTopK st)).
Proof. apply updateSession_inv. Qed.

Lemma updateSession_options_witness :
  ∃ st' o,
    Script.updateSession None
      (Script.with_controls (JS.Fin 0) JS.NaN Sample.live_state)
    = (JS.Normal (), st') ∧
    Script.events (Script.model st')
    = Script.events (Script.model Sample.live_state) ++ [Script.Created 1 o] ∧
    JS.truthy (Script.opt_temperature o) = true ∧
    JS.truthy (Script.opt_topK o) = true.
Proof.
  destruct (Script.updateSession None
              (Script.with_controls (JS.Fin 0) JS.NaN Sample.live_state))
    as [c st'] eqn:Hupdate.
  destruct (updateSession_options None _ st' c Hupdate)
    as (_ & _ & _ & _
        & [(_ & _ & [Hoff|[e He]])|(o & _ & _ & -> & _ & He & _ & Ht & Hk & _)]);
    [discriminate Hoff|discriminate He|].
  exists st', o. split; [reflexivity|]. split; [exact He|]. split; [exact Ht|exact Hk].
Defined.

(** X21: the handlers of the temperature and topK controls. The value of
    the control, whatever it is ([0] and [NaN] included), becomes the
    setting of the active chat, and the other control is not written;
    then [updateSession] runs. No session is destroyed on the way: the
    sessions that were live are still live afterwards, next to the one
    created. *)
Theorem setting_handlers (B : Browser) (v : JS.number) (outcome : option JS.error)
    (fuel : nat) (st : Script.State) :
  (∀ c st',
     Script.onTemperatureInput B v outcome fuel st = Some (c, st') →
     Script.sessionTemperature st' = v ∧
     Script.sessionTopK st' = Script.sessionTopK st ∧
     (∀ i chat,
        fst (ChatManager.getActiveChat (Script.chatManager st)) = Some (i, chat) →
        Script.set_temperature v chat ∈ ChatManager.chats (Script.chatManager st')) ∧
     Script.count_destroyed (Script.events (Script.model st'))
     = Script.count_destroyed (Script.events (Script.model st)) ∧
     Script.live (Script.model st) ⊆ Script.live (Script.model st')) ∧
  (∀ c st',
     Script.onTopKInput B v outcome fuel st = Some (c, st') →
     Script.sessionTopK st' = v ∧
     Script.sessionTemperature st' = Script.sessionTemperature st ∧
     (∀ i chat,
        fst (ChatManager.getActiveChat (Script.chatManager st)) = Some (i, chat) →
        Script.set_topK v chat ∈ ChatManager.chats (Script.chatManager st')) ∧
     Script.count_destroyed (Script.events (Script.model st'))
     = Script.count_destroyed (Script.events (Script.model st)) ∧
     Script.live (Script.model st) ⊆ Script.live (Script.model st')).
Proof.
  split; intros c st' Hinput;
    apply change_setting_inv in Hinput
      as (Hchat & st1 & Hupdate & Ht & Hk & _ & Hmodel);
    apply updateSession_inv in Hupdate as (Ht' & Hk' & _ & _ & Hcases);
    simpl in Ht, Hk, Hmodel, Hchat;
    (split_and!; [congruence|congruence|exact Hchat|..]);
    destruct Hcases as [(Hsame & _)|(o & _ & _ & _ & _ & Hevents & Hlive & _)];
    rewrite ?Hsame, ?Hevents, ?Hlive, ?Hmodel, ?count_destroyed_created;
    try done; apply union_subseteq_r.
Qed.

Lemma setting_handlers_witness :
  ∃ c st',
    Script.onTemperatureInput (Sample.browser 100) (JS.Fin 0) None 1 Sample.live_state
    = Some (c, st') ∧
    Script.sessionTemperature st' = JS.Fin 0 ∧
    Script.set_temperature (JS.Fin 0) (Sample.chat 1)
      ∈ ChatManager.chats (Script.chatManager st') ∧
    Script.live (Script.model Sample.live_state) ⊆ Script.live (Script.model st').
Proof.
  assert (is_Some ((Script.chatManager ∘ snd)
                     <$> Script.onTemperatureInput (Sample.browser 100) (JS.Fin 0) None 1
                           Sample.live_state))
    as Hreturns by (vm_compute; eexists; reflexivity).
  destruct (Script.onTemperatureInput (Sample.browser 100) (JS.Fin 0) None 1
              Sample.live_state) as [[c st']|] eqn:Hinput; [|by destruct Hreturns].
  exists c, st'. split; [reflexivity|].
  destruct (setting_handlers (Sample.browser 100) (JS.Fin 0) None 1 Sample.live_state)
    as [Htemperature _].
  destruct (Htemperature c st' Hinput) as (Ht & _ & Hchat & _ & Hlive).
  split; [exact Ht|]. split; [|exact Hlive].
  apply (Hchat 0%nat (Sample.chat 1)). vm_compute. reflexivity.
Defined.

(** X22: the script's [deleteChat]. When the dialog is declined nothing
    changes. When the chat deleted is not the active one, the session
    and the model are not touched. When it is the active one and is in
    the collection, a new chat is started and becomes the active one,
    also when other chats remain: the collection is the chats that remain
    and the new one. Whenever the chat deleted is the active one, the
    session held is destroyed and one creation is asked for: the call
    ends with no session held and that creation pending. *)
Theorem script_deleteChat (B : Browser) (chatId : string) (i : Script.NewChatInputs)
    (outcome : option JS.error) (fuel : nat) (st : Script.State) :
  Script.deleteChat B false chatId i outcome fuel st = Some st ∧
  (∀ st',
     ChatManager.activeChat (Script.chatManager st) ≠ Some chatId →
     Script.deleteChat B true chatId i outcome fuel st = Some st' →
     Script.session st' = Script.session st ∧
     Script.model st' = Script.model st ∧
     ∃ deleted,
       ChatManager.deleteChat B chatId fuel (Script.chatManager st) (Script.storage st)
       = Some (deleted, Script.chatManager st', Script.storage st')) ∧
  (∀ st' index chat,
     ChatManager.activeChat (Script.chatManager st) = Some chatId →
     ChatManager.findChat chatId (ChatManager.chats (Script.chatManager st))
     = Some (index, chat) →
     Script.deleteChat B true chatId i outcome fuel st = Some st' →
     ChatManager.activeChat (Script.chatManager st')
     = Some ("chat-" +:+ pretty (Script.now_id i) +:+ "-" +:+ Script.random i) ∧
     ChatManager.chats (Script.chatManager st')
     ≡ₚ ChatManager.new_chat
          {| ChatManager.arg_temperature := Some (Script.sessionTemperature st);
             ChatManager.arg_topK := Some (Script.sessionTopK st) |}
          (Script.now_id i) (Script.random i) (Script.now_timestamp i)
        :: delete index (ChatManager.chats (Script.chatManager st))) ∧
  (∀ st',
     ChatManager.activeChat (Script.chatManager st) = Some chatId →
     outcome = None →
     Script.available (Script.model st) = true →
     Script.deleteChat B true chatId i outcome fuel st = Some st' →
     ∃ o,
       Script.session st' = None ∧
       Script.pending st' = Script.pending st ++ [Script.next_handle (Script.model st)] ∧
       Script.events (Script.model st')
       = Script.events (Script.model st)
           ++ Script.destroy_events (Script.session st)
           ++ [Script.Created (Script.next_handle (Script.model st)) o] ∧
       Script.live (Script.model st')
       = {[Script.next_handle (Script.model st)]}
         ∪ (Script.live (Script.model st) ∖ Script.held (Script.session st))).
Proof.
  split_and!; [done|..].
  - intros st' Hother. unfold Script.deleteChat. cbn [negb].
    rewrite bool_decide_eq_false_2 by done.
    destruct (ChatManager.deleteChat B chatId fuel _ _) as [[[deleted cm] ls]|];
      [|done].
    simpl. intros [= <-]. simpl. eauto.
  - intros st' index chat Hactive Hfind. unfold Script.deleteChat. cbn [negb].
    rewrite bool_decide_eq_true_2 by done.
    unfold ChatManager.deleteChat. rewrite Hfind. case_save Hsave. simpl.
    intros Hnew. apply createNewChat_inv in Hnew as (Hpointer & Hchats).
    simpl in *. split; [done|].
    apply save_inv in Hsave as [Hsorted _]. simpl in Hsorted.
    by rewrite Hchats, Hsorted, sort_by_recency_perm.
  - intros st' Hactive -> Havailable. unfold Script.deleteChat. cbn [negb].
    rewrite bool_decide_eq_true_2 by done.
    destruct (ChatManager.deleteChat B chatId fuel _ _) as [[[deleted cm] ls]|];
      [|done].
    simpl. intros Hnew.
    by apply createNewChat_session in Hnew.
Qed.

Lemma script_deleteChat_witness :
  ∃ st',
    Script.deleteChat (Sample.browser 100) true "1" Sample.new_chat_inputs None 1
      Sample.live_state = Some st' ∧
    ChatManager.activeChat (Script.chatManager st') = Some "chat-100-k3j9x0q2a" ∧
    length (ChatManager.chats (Script.chatManager st')) = 1%nat ∧
    Script.session st' = None ∧
    Script.pending st' = [1].
Proof.
  assert (is_Some (Script.chatManager
                     <$> Script.deleteChat (Sample.browser 100) true "1"
                           Sample.new_chat_inputs None 1 Sample.live_state))
    as Hreturns by (vm_compute; eexists; reflexivity).
  destruct (Script.deleteChat (Sample.browser 100) true "1" Sample.new_chat_inputs None 1
              Sample.live_state) as [st'|] eqn:Hdelete; [|by destruct Hreturns].
  exists st'. split; [reflexivity|].
  destruct (script_deleteChat (Sample.browser 100) "1" Sample.new_chat_inputs None 1
              Sample.live_state) as (_ & _ & Hactive & Hsession).
  destruct (Hactive st' 0%nat (Sample.chat 1)) as [Hpointer Hchats];
    [reflexivity|vm_compute; reflexivity|exact Hdelete|].
  destruct (Hsession st') as (o & Hs & Hp & _);
    [reflexivity|reflexivity|reflexivity|exact Hdelete|].
  split; [exact Hpointer|]. split; [by rewrite Hchats|]. split; [exact Hs|exact Hp].
Defined.

(** X23: a prompt that is empty or only white space is ignored:
    [promptModel] returns in the state it was called in, with no chat
    created, no message recorded, nothing stored and no session asked
    for. *)
Theorem blank_prompt_ignored (B : Browser) (P : Script.Page) (input : string)
    (nc : Script.NewChatInputs) (um am : Script.MessageInputs)
    (outcome : option JS.error) (stream : Script.Stream) (fuel : nat)
    (st : Script.State) :
  (∀ c, c ∈ list_ascii_of_string input → Text.is_white_space c = true) →
  Script.promptModel B P input nc um am outcome stream fuel st = Some st.
Proof.
  intros Hblank. unfold Script.promptModel, Text.trim.
  by rewrite (trimStart_white _ Hblank).
Qed.

Lemma blank_prompt_ignored_witness :
  Script.promptModel (Sample.browser 100) Sample.page "  " Sample.new_chat_inputs
    (Sample.at_time 5) (Sample.at_time 9) None
    {| Script.snapshots := ["Hi"]; Script.failure := None |} 0 Sample.live_state
  = Some Sample.live_state.
Proof.
  apply blank_prompt_ignored. intros c Hc. apply list_elem_of_In in Hc. simpl in Hc.
  destruct Hc as [<-|[<-|[]]]; reflexivity.
Defined.

(** X24: when every snapshot of the stream continues the one before it
    and the page takes every update, the loop ends with the last
    snapshot as its result (the empty text when there is no snapshot):
    the deltas add up to what the model sent last. *)
Theorem cumulative_snapshots (P : Script.Page) (chunks : list string) :
  (∀ shown, Script.render_error P shown = None) →
  (∀ i p c, chunks !! i = Some p → chunks !! S i = Some c →
            Text.startsWith c p = true) →
  Script.consume P chunks None "" "" = JS.Normal (default "" (last chunks)).
Proof.
  intros Hrender Hchain. rewrite (consume_completes P) by done.
  change (JS.Normal ("" +:+ Text.join (Script.deltas "" chunks))
          = JS.Normal (default "" (last chunks))).
  f_equal. apply deltas_cumulative.
  intros [|i] p c Hp Hc.
  - injection Hp as <-. by destruct c.
  - by apply (Hchain i).
Qed.

Lemma cumulative_snapshots_witness :
  Script.consume Sample.page ["Hi"; "Hi there"; "Hi there!"] None "" ""
  = JS.Normal "Hi there!".
Proof.
  apply (cumulative_snapshots Sample.page ["Hi"; "Hi there"; "Hi there!"]).
  - reflexivity.
  - intros [|[|[|i]]] p c Hp Hc; simpl in Hp, Hc; try discriminate;
      injection Hp as <-; injection Hc as <-; reflexivity.
Defined.

(** X25: when the update of the response bubble throws at the first
    snapshot, the loop is left there: [promptModel] keeps the user
    message and records no answer, whatever the stream holds after that
    snapshot and whether or not the stream itself fails. *)
Theorem render_failure_records_nothing (B : Browser) (P : Script.Page) :
  (∀ chunk rest end_,
     is_Some (Script.render_error P chunk) →
     ∃ e, Script.consume P (chunk :: rest) end_ "" "" = JS.Throw e) ∧
  (∀ chatId created am stream fuel st chunk rest,
     Script.snapshots stream = chunk :: rest →
     is_Some (Script.render_error P chunk) →
     Script.streamResponse B P chatId created am stream fuel st = Some st) ∧
  (∀ input nc um am outcome stream fuel st chatId created st1 chunk rest,
     JS.truthy_string (Text.trim input) = true →
     Script.submitPrompt B (Text.trim input) nc um outcome fuel st
     = Some (chatId, created, st1) →
     Script.snapshots stream = chunk :: rest →
     is_Some (Script.render_error P chunk) →
     Script.promptModel B P input nc um am outcome stream fuel st = Some st1).
Proof.
  assert (Hloop : ∀ chunk rest end_,
     is_Some (Script.render_error P chunk) →
     ∃ e, Script.consume P (chunk :: rest) end_ "" "" = JS.Throw e).
  { intros chunk rest end_ [e He]. exists e. cbn [Script.consume].
    replace ("" +:+ Script.newChunk "" chunk) with chunk; [by rewrite He|].
    by destruct chunk. }
  assert (Hstream : ∀ chatId created am stream fuel st chunk rest,
     Script.snapshots stream = chunk :: rest →
     is_Some (Script.render_error P chunk) →
     Script.streamResponse B P chatId created am stream fuel st = Some st).
  { intros chatId created am stream fuel st chunk rest Hsnapshots Hrender.
    destruct (Hloop chunk rest (Script.failure stream) Hrender) as [e He].
    eapply streamResponse_aborted. rewrite Hsnapshots. exact He. }
  split_and!; [exact Hloop|exact Hstream|].
  intros input nc um am outcome stream fuel st chatId created st1 chunk rest
    Hprompt Hsubmit Hsnapshots Hrender.
  unfold Script.promptModel. rewrite Hprompt, Hsubmit. simpl.
  by eapply Hstream.
Qed.

Lemma render_failure_records_nothing_witness :
  Script.streamResponse (Sample.browser 100)
    {| Script.temperature_control := λ v, v;
       Script.topK_control := λ v, v;
       Script.render_error := λ _, Some (JS.Error "ReferenceError" "p is not defined") |}
    "1" (JS.Normal ()) (Sample.at_time 9)
    {| Script.snapshots := ["Hi"; "Hi there"]; Script.failure := None |}
    2 Sample.live_state
  = Some Sample.live_state.
Proof.
  destruct (render_failure_records_nothing (Sample.browser 100)
    {| Script.temperature_control := λ v, v;
       Script.topK_control := λ v, v;
       Script.render_error := λ _, Some (JS.Error "ReferenceError" "p is not defined") |})
    as (_ & Hstream & _).
  apply (Hstream _ _ _ _ _ _ "Hi" ["Hi there"]); [reflexivity|].
  simpl. by eexists.
Defined.

(** ** A first prompt, from the input to the recorded answer *)

Section FirstPrompt.
Import StorageManager ChatManager Script.
Variable B : Browser.

Lemma findChat_singleton c : findChat (id c) [c] = Some (0%nat, c).
Proof. unfold findChat. simpl. by rewrite decide_True. Qed.

Lemma getActiveChat_empty cm : chats cm = [] → getActiveChat cm = (None, cm).
Proof.
  destruct cm as [l a]. simpl. intros ->. unfold getActiveChat. simpl.
  destruct (falsy_id a) eqn:Hfalsy; simpl; rewrite Hfalsy; [done|].
  by destruct a.
Qed.

Lemma save_singleton fuel c a ls cm' ls' :
  save B fuel {| chats := [c]; activeChat := a |} ls = Some (cm', ls') →
  chats cm' = [c] ∧ activeChat cm' = a.
Proof. by intros [-> ->]%save_inv. Qed.

End FirstPrompt.

(** X26: the first prompt in an empty collection, with the capability
    present, a stream that runs to its end and a page that takes every
    update. When [promptModel] returns, the collection holds one chat,
    which is the active one: it carries the new id, the title derived
    from the prompt, the settings of the two controls (with [1] and [3]
    for a control at [0] or [NaN]), the timestamp of the answer, and two
    messages, the prompt without the white space at its ends and the
    answer put together from the deltas. One session has been created on
    the way and is held. *)
Theorem first_prompt (B : Browser) (P : Script.Page) (input : string)
    (nc : Script.NewChatInputs) (um am : Script.MessageInputs)
    (stream : Script.Stream) (fuel : nat) (st st' : Script.State) :
  ChatManager.chats (Script.chatManager st) = [] →
  Script.session st = None →
  Script.available (Script.model st) = true →
  Script.failure stream = None →
  (∀ shown, Script.render_error P shown = None) →
  Text.trim input ≠ "" →
  Script.promptModel B P input nc um am None stream fuel st = Some st' →
  ∃ o,
    ChatManager.chats (Script.chatManager st')
    = [{| id := "chat-" +:+ pretty (Script.now_id nc) +:+ "-" +:+ Script.random nc;
          title := ChatManager.generateTitle (Text.trim input);
          timestamp := Script.now_chat am;
          messages :=
            [{| role := user; content := Text.trim input;
                msg_timestamp := Script.now_message um |};
             {| role := assistant;
                content := Text.join (Script.deltas "" (Script.snapshots stream));
                msg_timestamp := Script.now_message am |}];
          settings :=
            {| temperature := JS.or_else (Some (Script.sessionTemperature st)) (JS.Fin 1);
               topK := JS.or_else (Some (Script.sessionTopK st)) (JS.Fin 3) |} |}] ∧
    ChatManager.activeChat (Script.chatManager st')
    = Some ("chat-" +:+ pretty (Script.now_id nc) +:+ "-" +:+ Script.random nc) ∧
    Script.session st' = Some (Script.next_handle (Script.model st)) ∧
    Script.events (Script.model st')
    = Script.events (Script.model st)
        ++ [Script.Created (Script.next_handle (Script.model st)) o].
Proof.
  intros Hempty Hsession Havailable Hend Hrender Hprompt.
  unfold Script.promptModel.
  destruct (JS.truthy_string (Text.trim input)) eqn:Htruthy;
    [|by apply truthy_string_empty in Htruthy].
  cbn [negb]. unfold Script.submitPrompt.
  rewrite (getActiveChat_empty _ Hempty). cbv zeta.
  unfold ChatManager.createNewChat. rewrite Hempty.
  case_save Hsave0. apply save_singleton in Hsave0 as [Hchats0 Hpointer0].
  cbn [mbind option_bind]. unfold ChatManager.addMessage at 1.
  rewrite Hchats0, findChat_singleton. cbv zeta. cbn [insert list_insert].
  case_save Hsave1. apply save_singleton in Hsave1 as [Hchats1 Hpointer1].
  cbn [mbind option_bind Script.session Script.with_manager]. rewrite Hsession.
  match goal with
  | |- context [Script.updateSession None ?st2] =>
      destruct (updateSession_creates st2 Havailable)
        as (st3 & o & Hupdate & Hs3 & He3 & _ & _ & Hchats3 & Hstorage3);
      pose proof (updateSession_pointer None st2) as Hpointer3;
      rewrite Hupdate in *
  end.
  cbn [snd Script.chatManager Script.with_manager Script.model Script.events
       Script.storage] in Hs3, He3, Hchats3, Hstorage3, Hpointer3.
  rewrite Hpointer1, Hpointer0 in Hpointer3. specialize (Hpointer3 eq_refl).
  rewrite Hchats1 in Hchats3.
  cbn [mbind option_bind]. unfold Script.streamResponse. rewrite Hs3, Hend.
  rewrite (consume_completes P) by done.
  change ("" +:+ ?s) with s.
  unfold ChatManager.addMessage. rewrite Hchats3.
  match goal with
  | |- context [ChatManager.findChat ?a [?c]] =>
      change (ChatManager.findChat a [c]) with (ChatManager.findChat (id c) [c])
  end.
  rewrite findChat_singleton. cbv zeta. cbn [insert list_insert].
  case_save Hsave2. apply save_singleton in Hsave2 as [Hchats2 Hpointer2].
  cbn [mbind option_bind]. intros [= <-]. exists o.
  cbn [Script.chatManager Script.with_manager Script.session Script.model].
  rewrite Hchats2, Hpointer2, Hpointer3. split_and!; [|done..].
  f_equal. unfold ChatManager.push_message, ChatManager.new_chat.
  cbn [id title timestamp messages settings ChatManager.is_user].
  rewrite andb_false_r. reflexivity.
Qed.

Lemma first_prompt_witness :
  ∃ st' o,
    Script.promptModel (Sample.browser 100) Sample.page " Hello " Sample.new_chat_inputs
      (Sample.at_time 5) (Sample.at_time 9) None
      {| Script.snapshots := ["Hi"; "Hi there"]; Script.failure := None |}
      1 Sample.fresh_state = Some st' ∧
    title <$> ChatManager.chats (Script.chatManager st') = ["Hello"] ∧
    Script.events (Script.model st') = [Script.Created 0 o].
Proof.
  assert (is_Some (Script.chatManager
                     <$> Script.promptModel (Sample.browser 100) Sample.page " Hello "
                           Sample.new_chat_inputs (Sample.at_time 5) (Sample.at_time 9)
                           None
                           {| Script.snapshots := ["Hi"; "Hi there"];
                              Script.failure := None |}
                           1 Sample.fresh_state))
    as Hreturns by (vm_compute; eexists; reflexivity).
  destruct (Script.promptModel (Sample.browser 100) Sample.page " Hello "
              Sample.new_chat_inputs (Sample.at_time 5) (Sample.at_time 9) None
              {| Script.snapshots := ["Hi"; "Hi there"]; Script.failure := None |}
              1 Sample.fresh_state) as [st'|] eqn:Hprompt; [|by destruct Hreturns].
  destruct (first_prompt (Sample.browser 100) Sample.page " Hello "
              Sample.new_chat_inputs (Sample.at_time 5) (Sample.at_time 9)
              {| Script.snapshots := ["Hi"; "Hi there"]; Script.failure := None |}
              1 Sample.fresh_state st')
    as (o & Hchats & _ & _ & Hevents);
    [reflexivity|reflexivity|reflexivity|reflexivity|reflexivity
    |vm_compute; discriminate|exact Hprompt|].
  exists st', o. split; [reflexivity|]. split; [|exact Hevents].
  rewrite Hchats. reflexivity.
Defined.

(** X27: switching to a chat of the collection. [loadChat] makes the chat
    the active one (for an id that is not the empty text), puts its
    settings in the two controls and asks for a session: the session held
    before is destroyed, one session is created, and it gets the value of
    each control that is truthy. *)
Theorem loadChat_settings (B : Browser) (P : Script.Page) (chatId : string)
    (chat : Chat) (st : Script.State) :
  ChatManager.getChat chatId (Script.chatManager st) = Some chat →
  Script.available (Script.model st) = true →
  Script.sessionTemperature (Script.loadChat B P chatId None st)
  = Script.temperature_control P (temperature (settings chat)) ∧
  Script.sessionTopK (Script.loadChat B P chatId None st)
  = Script.topK_control P (topK (settings chat)) ∧
  ChatManager.chats (Script.chatManager (Script.loadChat B P chatId None st))
  = ChatManager.chats (Script.chatManager st) ∧
  (chatId ≠ "" →
   ChatManager.activeChat (Script.chatManager (Script.loadChat B P chatId None st))
   = Some chatId) ∧
  ∃ o,
    Script.events (Script.model (Script.loadChat B P chatId None st))
    = Script.events (Script.model st)
        ++ Script.destroy_events (Script.session st)
        ++ [Script.Created (Script.next_handle (Script.model st)) o] ∧
    (JS.truthy (Script.temperature_control P (temperature (settings chat))) = true →
     Script.opt_temperature o
     = Script.temperature_control P (temperature (settings chat))) ∧
    (JS.truthy (Script.topK_control P (topK (settings chat))) = true →
     Script.opt_topK o = Script.topK_control P (topK (settings chat))).
Proof.
  intros Hchat Havailable.
  destruct (loadChat_session B P st chatId chat Hchat Havailable)
    as (o & _ & _ & Hevents & _ & Hot & Hok).
  unfold Script.loadChat in *. rewrite Hchat in *.
  unfold ChatManager.setActiveChat in *. rewrite Hchat in *.
  match goal with
  | |- context [Script.requestSession None ?st3] =>
      pose proof (requestSession_inv None st3) as (_ & Ht & Hk & Hchats & _ & Hpointer & _)
  end.
  simpl in Ht, Hk, Hchats, Hpointer.
  split_and!; [done|done|done| |].
  - intros Hid. apply Hpointer. by destruct chatId.
  - exists o. by split_and!.
Qed.

Lemma loadChat_settings_witness :
  Script.sessionTopK
    (Script.loadChat (Sample.browser 100) Sample.page "2" None
       (Script.with_manager Sample.two_chats ∅ Sample.live_state))
  = JS.Fin 3 ∧
  ChatManager.activeChat
    (Script.chatManager
       (Script.loadChat (Sample.browser 100) Sample.page "2" None
          (Script.with_manager Sample.two_chats ∅ Sample.live_state)))
  = Some "2".
Proof.
  destruct (loadChat_settings (Sample.browser 100) Sample.page "2" (Sample.chat 2)
              (Script.with_manager Sample.two_chats ∅ Sample.live_state))
    as (_ & Hk & _ & Hpointer & _); [reflexivity|reflexivity|].
  split; [exact Hk|]. apply Hpointer. discriminate.
Defined.
